(** * AirIO dataset providers: Task and Mixture

    A shallow embedding of [airio/dataset_providers.py] and the proofs of
    the properties its specification states about it.

    Conventions of the embedding.
    - A Python object is identified by [id()]; the model carries it as an
      integer field ([task_id], [mixture_id]).  Neither [Task] nor [Mixture]
      overrides [__eq__] or [__hash__], so [==], [in] and [hash] all go by
      identity: [hash] is a bijective function of [id()], which the model
      takes to be the id itself.
    - Python floats are IEEE binary64 numbers, i.e. the kernel's [float].
    - A [dict] is an insertion-ordered association list ([PyDict]).
    - The external collaborators (grain, numpy, the feature converters) are
      not part of this repository: their values are symbolic descriptions
      and their functions are fields of the class [Externals]. *)

From Stdlib Require Import ZArith List String Floats Bool Lia Permutation.
From Stdlib Require Import Sorting.Sorted.
From stdpp Require Import gmap.
Import ListNotations.

Local Open Scope Z_scope.
Local Open Scope list_scope.

(** ** Python dictionaries *)

Module PyDict.
Section Dict.
Context {V : Type}.

(** Keys are integers (the hashes of the components). *)
Definition t := list (Z * V).

Fixpoint getitem (k : Z) (d : list (Z * V)) : option V :=
  match d with
  | [] => None
  | (k', v) :: d' => if Z.eqb k k' then Some v else getitem k d'
  end.

Definition contains (k : Z) (d : list (Z * V)) : bool :=
  match getitem k d with Some _ => true | None => false end.

(** [d[k] = v]: an existing key keeps its position, a new key goes last. *)
Fixpoint setitem (k : Z) (v : V) (d : list (Z * V)) : list (Z * V) :=
  match d with
  | [] => [(k, v)]
  | (k', v') :: d' =>
      if Z.eqb k k' then (k', v) :: d' else (k', v') :: setitem k v d'
  end.

(** [dict(pairs)] *)
Definition of_pairs (l : list (Z * V)) : list (Z * V) :=
  fold_left (fun d kv => setitem (fst kv) (snd kv) d) l [].

Definition keys (d : list (Z * V)) : list Z := map fst d.
Definition values (d : list (Z * V)) : list V := map snd d.
End Dict.
End PyDict.

(** [zip(a, b)] stops at the shorter argument, as [combine] does. *)
Definition zip {A B} (a : list A) (b : list B) : list (A * B) := combine a b.

(** ** External collaborators, at their interface *)

(** [grain.TfdsDataSource]: the per-split source object, opaque. *)
Inductive GrainDataSource := TfdsDataSource (label : string).

(** [data_sources.DataSource] *)
Record DataSource := mkDataSource {
  ds_splits : list string;
  ds_get_data_source : string -> GrainDataSource;
  ds_num_input_examples : string -> option Z;
}.

(** [grain.Transformation | grain.Operation]: the operations of a chain.
    User operations are opaque; the two batching operations are the ones the
    code builds itself ([grain.Batch] is called with and without its
    [drop_remainder] argument). *)
Inductive GrainPreprocessor :=
| Transformation (label : string)
| BatchOperation (batch_size : Z) (drop_remainder : bool)
| Batch (batch_size : Z) (drop_remainder : option bool).

(** [feature_converters.PyGrainFeatureConverter] *)
Record PyGrainFeatureConverter := mkFeatureConverter {
  get_transforms : option (list (string * Z)) -> list GrainPreprocessor;
}.

Record ShardInfo := mkShardInfo { index : Z; num_shards : Z }.

Inductive ShardOptions :=
| NoSharding
| mkShardOptions (shard_index shard_count : Z).

#[local] Unset Elimination Schemes.

(** [lazy_dataset.LazyMapDataset]: the lazy graph, as the constructors the
    code calls.  Nothing is evaluated at construction. *)
Inductive LazyMapDataset :=
| SourceLazyMapDataset (source : GrainDataSource)
| ShardLazyMapDataset (parent : LazyMapDataset) (shard_options : ShardOptions)
| LazyDatasetTransform (prep : GrainPreprocessor)
                       (parent : LazyMapDataset) (seed : option Z)
| ShuffleLazyMapDataset (parent : LazyMapDataset) (seed : Z)
| ConcatLazyMapDataset (parents : list LazyMapDataset)
| MixedLazyMapDataset (parents : list LazyMapDataset)
                      (proportions : list float) (stop_on_empty_dataset : bool)
| RepeatLazyMapDataset (parent : LazyMapDataset) (num_epochs : option Z).

(** The [num_records] argument of a sampler: a number the caller has, or
    [len(ds)] of a lazy dataset. *)
Inductive NumRecords :=
| NumRecordsOf (n : option Z)
| LenOf (ds : LazyMapDataset).

(** A sampler that [grain.IndexSampler(...)] has built, by its arguments.
    The constructor refuses some arguments: see [IndexSampler.init]. *)
Record IndexSampler := mkIndexSampler {
  sampler_num_records : NumRecords;
  sampler_shard_options : ShardOptions;
  sampler_shuffle : bool;
  sampler_num_epochs : option Z;
  sampler_seed : option Z;
}.

Inductive LoaderSource :=
| FromDataSource (s : GrainDataSource)
| FromLazyDataset (ds : LazyMapDataset).

(** [grain.DataLoader], wrapped in [PyGrainDatasetIteratorWrapper]. *)
Record DatasetIterator := PyGrainDatasetIteratorWrapper {
  data_source : LoaderSource;
  sampler : IndexSampler;
  operations : list GrainPreprocessor;
}.

(** A record of a dataset, opaque. *)
Inductive DataRecord := mkDataRecord (payload : Z).

(** ** Tasks and Mixtures *)

(** The fields of a [Task] that are assigned once, in [__init__]:
    [name], [source] and [splits] (the splits of the source it was built
    with, kept as an attribute of its own).  The preprocessor list is a
    mutable list object owned by the Task: it lives in the store ([State]),
    under the Task's id. *)
Record Task := mkTask {
  task_id : Z;
  task_name : string;
  task_source : option DataSource;
  task_splits : list string;
}.

(** [Union[Task, "Mixture"]] *)
Inductive Provider (M : Type) :=
| PTask (t : Task)
| PMixture (m : M).
Arguments PTask {M} t.
Arguments PMixture {M} m.

Inductive Mixture := mkMixture {
  mixture_id : Z;
  mixture_name : string;
  _tasks_or_mixtures : list (Z * Provider Mixture);
  _proportions : list (Z * float);
}.

#[local] Set Elimination Schemes.

Definition Component := Provider Mixture.

(** [id(obj)] *)
Definition object_id (c : Component) : Z :=
  match c with
  | PTask t => task_id t
  | PMixture m => mixture_id m
  end.

(** [hash(obj)] for an object with the default [__hash__]. *)
Definition hash (c : Component) : Z := object_id c.

Definition SHUFFLE_BUFFER_SIZE : Z := 1000.
Definition DEFAULT_NUM_RECORDS_TO_INSPECT : Z := 2.
Definition MAX_NUM_RECORDS_TO_INSPECT : Z := 1000.

(** What the code takes from Python and from the libraries it calls. *)
Class Externals := {
  (** the order in which a [set] of Task objects is iterated *)
  set_iter : list Task -> list Task;
  (** [rst = np.random.RandomState(seed)] for an integer seed that numpy
      accepts, then [(rst.randint(0, 2**16 - 1), rst.randint(0, 2**16 - 1))] *)
  randint_pair : Z -> Z * Z;
  (** [list(it)] for a dataset iterator *)
  materialize : DatasetIterator -> list DataRecord;
  (** [len(ds)] for a lazy dataset *)
  lazy_len : LazyMapDataset -> Z;
}.

(** What Python guarantees of a set: it holds each object once, and
    nothing else. *)
Class SetIterSpec (E : Externals) : Prop := {
  set_iter_incl : forall l t, In t (set_iter l) -> In t l;
  set_iter_NoDup : forall l, NoDup (map task_id (set_iter l));
  set_iter_complete :
    forall l t, In t l -> In (task_id t) (map task_id (set_iter l));
}.

(** What numpy guarantees of [randint(low, high)]: a draw from
    [low, high). *)
Class RandintSpec (E : Externals) : Prop := {
  randint_pair_range :
    forall s, 0 <= fst (randint_pair s) < 2 ^ 16 - 1
           /\ 0 <= snd (randint_pair s) < 2 ^ 16 - 1;
}.

(** ** Exceptions, the store and the monad of the stateful code *)

Inductive Exception :=
| ValueError (msg : string)
| KeyError (key : Z)
| ZeroDivisionError
| AttributeError (msg : string)
| TypeError (msg : string).

(** The mutable state the code reads and writes: the list object behind
    each Task's [_preprocessors] attribute (no entry: the attribute is
    [None]), and the operating system's entropy, from which numpy seeds a
    [RandomState] that is given no seed. *)
Record State := mkState {
  preprocessors : gmap Z (list GrainPreprocessor);
  os_entropy : nat -> Z * Z;
  entropy_drawn : nat;
}.

Definition Py (A : Type) : Type := State -> (Exception + A) * State.

Definition ret {A} (a : A) : Py A := fun s => (inr a, s).
Definition raise {A} (e : Exception) : Py A := fun s => (inl e, s).
Definition bind {A B} (m : Py A) (f : A -> Py B) : Py B :=
  fun s =>
    match m s with
    | (inl e, s') => (inl e, s')
    | (inr a, s') => f a s'
    end.
(** A computation that cannot touch the store. *)
Definition lift {A} (r : Exception + A) : Py A := fun s => (r, s).

Declare Scope py_scope.
Delimit Scope py_scope with py.
Notation "x <- m ;; k" := (bind m (fun x => k))
  (at level 100, m at next level, right associativity) : py_scope.

(** [for x in l: acc = body(acc, x)] in the monad. *)
Fixpoint for_each {A B} (l : list A) (body : B -> A -> Py B) (acc : B) : Py B :=
  match l with
  | [] => ret acc
  | x :: l' => bind (body acc x) (for_each l' body)
  end.

(** The same without a store, for the code that only reads a Mixture. *)
Definition ebind {A B} (r : Exception + A) (f : A -> Exception + B)
  : Exception + B :=
  match r with inl e => inl e | inr a => f a end.

(** Python's truth value of [int | None] and of an optional object. *)
Definition truthy_int (n : option Z) : bool :=
  match n with Some k => negb (k =? 0) | None => false end.
Definition is_some {A} (o : option A) : bool :=
  match o with Some _ => true | None => false end.

(** [a / b] on floats raises on a zero divisor. *)
Definition truediv (a b : float) : Exception + float :=
  if PrimFloat.eqb b 0%float then inl ZeroDivisionError
  else inr (a / b)%float.

(** [sum(values)]: starts from 0 and adds from the left. *)
Definition float_sum (l : list float) : float :=
  fold_left PrimFloat.add l 0%float.

(** ** [grain.IndexSampler(...)]

    The constructor checks its arguments, in this order, before it builds
    the sampler: the number of records is positive, the number of epochs
    (when given) is positive, shuffling has a seed, and the seed (when
    given) is a non-negative integer of at most 32 bits.  The messages
    leave out the numbers. *)

Module IndexSampler.
Section Init.
Context `{E : Externals}.

Definition init (num_records : NumRecords) (shard_options : ShardOptions)
    (shuffle : bool) (num_epochs seed : option Z)
  : Exception + IndexSampler :=
  ebind
    match num_records with
    | NumRecordsOf (Some n) => inr n
    | NumRecordsOf None =>
        inl (TypeError
          "'<=' not supported between instances of 'NoneType' and 'int'")
    | LenOf ds => inr (lazy_len ds)
    end
    (fun n =>
       if n <=? 0 then
         inl (ValueError "Invalid number of records in Sampler.")
       else if match num_epochs with Some e => e <=? 0 | None => false end then
         inl (ValueError "Invalid number of epochs in Sampler.")
       else if shuffle && negb (is_some seed) then
         inl (ValueError "Shuffling requires specifying a seed.")
       else if match seed with
               | Some s => (s <? 0) || (2 ^ 32 <=? s)
               | None => false
               end then
         inl (ValueError "Seed should be positive 32-bit integer.")
       else
         inr (mkIndexSampler num_records shard_options shuffle num_epochs
                seed)).
End Init.
End IndexSampler.

(** ** class Task *)

Module Task.
Section Methods.
Context `{E : Externals}.
Local Open Scope py_scope.

(** [Task.__init__]: the fields ([self.splits = source.splits] among
    them), and the fresh list object [list(preprocessors)] (or [[]]) put in
    the store under the new object's id. *)
Definition init (self : Z) (name : string) (source : DataSource)
    (preps : option (list GrainPreprocessor)) : Py Task :=
  fun s =>
    (inr {| task_id := self; task_name := name; task_source := Some source;
            task_splits := ds_splits source |},
     {| preprocessors :=
          <[self := match preps with Some l => l | None => [] end]>
            (preprocessors s);
        os_entropy := os_entropy s;
        entropy_drawn := entropy_drawn s |}).

(** Returns a copy: the caller's list is a value of its own. *)
Definition get_preprocessors (self : Task) : Py (list GrainPreprocessor) :=
  fun s =>
    match preprocessors s !! task_id self with
    | None =>
        (inl (ValueError "Preprocessors have not been set on this task."), s)
    | Some l => (inr l, s)
    end.

Definition num_input_examples (self : Task) (split : string)
  : Py (option Z) :=
  match task_source self with
  | None => raise (ValueError "Source has not been set on this task object.")
  | Some src => ret (ds_num_input_examples src split)
  end.

Definition _get_data_source_for_split (self : Task) (split : string)
  : Py GrainDataSource :=
  match task_source self with
  | None => raise (ValueError "Source has not been set on this task object.")
  | Some src => ret (ds_get_data_source src split)
  end.

Definition _load_data (source : GrainDataSource) (sampler : IndexSampler)
    (ops : list GrainPreprocessor) : DatasetIterator :=
  PyGrainDatasetIteratorWrapper (FromDataSource source) sampler ops.

(** The operations [get_dataset] and [get_dataset_by_step] add to their
    copy of the chain. *)
Definition with_converter_and_batch (ops : list GrainPreprocessor)
    (sequence_lengths : option (list (string * Z)))
    (feature_converter : option PyGrainFeatureConverter)
    (batch_size : option Z) : list GrainPreprocessor :=
  let ops :=
    match feature_converter with
    | Some fc => ops ++ get_transforms fc sequence_lengths
    | None => ops
    end in
  match batch_size with
  | Some b => if b =? 0 then ops else ops ++ [BatchOperation b false]
  | None => ops
  end.

Definition get_dataset (self : Task)
    (sequence_lengths : option (list (string * Z))) (split : string)
    (feature_converter : option PyGrainFeatureConverter)
    (batch_size : option Z) (shuffle : bool) (seed : option Z)
    (shard_info : option ShardInfo) (num_epochs : option Z)
  : Py DatasetIterator :=
  let shard_options :=
    match shard_info with
    | None => NoSharding
    | Some si => mkShardOptions (index si) (num_shards si)
    end in
  n <- num_input_examples self split ;;
  sampler <- lift (IndexSampler.init (NumRecordsOf n) shard_options shuffle
                     num_epochs seed) ;;
  source <- _get_data_source_for_split self split ;;
  ops <- get_preprocessors self ;;
  let ops :=
    with_converter_and_batch ops sequence_lengths feature_converter batch_size in
  ret (_load_data source sampler ops).

(** The validation of [num_records] at the head of [get_dataset_by_step]. *)
Definition validate_num_records (num_records : Z) : Z :=
  if num_records <? 1 then DEFAULT_NUM_RECORDS_TO_INSPECT
  else if num_records >? MAX_NUM_RECORDS_TO_INSPECT
       then MAX_NUM_RECORDS_TO_INSPECT
       else num_records.

(** The loop of [get_dataset_by_step]: [accumulated_ops] grows by one
    operation and the loader built over it is read out by [list(...)]
    before the next operation is appended. *)
Fixpoint steps_loop (source : GrainDataSource) (sampler : IndexSampler)
    (all_ops : list GrainPreprocessor)
    (accumulated_ops : list GrainPreprocessor)
    (accumulated_result : list (list DataRecord))
  : list (list DataRecord) :=
  match all_ops with
  | [] => accumulated_result
  | op :: rest =>
      let accumulated_ops := accumulated_ops ++ [op] in
      let records_next_step := _load_data source sampler accumulated_ops in
      steps_loop source sampler rest accumulated_ops
        (accumulated_result ++ [materialize records_next_step])
  end.

Definition get_dataset_by_step (self : Task) (num_records : Z)
    (sequence_lengths : option (list (string * Z))) (split : string)
    (feature_converter : option PyGrainFeatureConverter)
    (batch_size : option Z) (shuffle : bool) (seed : option Z)
  : Py (list (list DataRecord)) :=
  let num_records := validate_num_records num_records in
  sampler <- lift (IndexSampler.init (NumRecordsOf (Some num_records))
                     NoSharding shuffle (Some 1) seed) ;;
  source <- _get_data_source_for_split self split ;;
  all_ops <- get_preprocessors self ;;
  let all_ops :=
    with_converter_and_batch all_ops sequence_lengths feature_converter
      batch_size in
  let records_step0 := _load_data source sampler [] in
  let accumulated_result := [materialize records_step0] in
  match all_ops with
  | [] => ret accumulated_result
  | _ => ret (steps_loop source sampler all_ops [] accumulated_result)
  end.
End Methods.
End Task.

(** ** class Mixture *)

(** [sorted(l, key=lambda t: t.name)]: Python's sort is stable, and so is
    this insertion sort; names compare as strings do. *)
Fixpoint insert_by_name (t : Task) (l : list Task) : list Task :=
  match l with
  | [] => [t]
  | u :: l' =>
      if String.leb (task_name t) (task_name u) then t :: u :: l'
      else u :: insert_by_name t l'
  end.

Definition sorted_by_name (l : list Task) : list Task :=
  fold_right insert_by_name [] l.

(** The order of the sort. *)
Definition name_le (t u : Task) : Prop :=
  String.leb (task_name t) (task_name u) = true.

(** [task in tasks], for a list of Task objects: identity decides, and a
    Mixture is no Task. *)
Definition task_in (task : Component) (tasks : list Task) : bool :=
  match task with
  | PTask t => existsb (fun u => task_id u =? task_id t) tasks
  | PMixture _ => false
  end.

(** [d[k]] *)
Definition subscript {V} (d : list (Z * V)) (k : Z) : Exception + V :=
  match PyDict.getitem k d with
  | Some v => inr v
  | None => inl (KeyError k)
  end.

Module Mixture.
Section Methods.
Context `{E : Externals}.

(** [Mixture.__init__].  [self] is the identity of the object under
    construction.  The messages leave out the [repr] of the arguments. *)
Definition init (self : Z) (name : string) (tasks : list Component)
    (proportions : list float) : Exception + Mixture :=
  if negb (length tasks =? length proportions)%nat then
    inl (ValueError ("Mixture " ++ name ++
                     " must have same number of tasks and proportions."))
  else
    let hashes := map hash tasks in
    if negb (size (list_to_set hashes : gset Z) =? length tasks)%nat then
      inl (ValueError ("Mixture " ++ name ++ " has duplicate tasks."))
    else
      inr {| mixture_id := self;
             mixture_name := name;
             _tasks_or_mixtures := PyDict.of_pairs (zip hashes tasks);
             _proportions := PyDict.of_pairs (zip hashes proportions) |}.

Definition tasks_or_mixtures (self : Mixture) : list Component :=
  PyDict.values (_tasks_or_mixtures self).

Definition total_proportion (self : Mixture) : float :=
  float_sum (PyDict.values (_proportions self)).

(** The value of the property [leaf_tasks].  The comprehensions over
    [self.tasks_or_mixtures] read the dictionary's values in order;
    [sum(sub_tasks, tasks)] appends every sub-list to [tasks].
    The methods below use this value where the code reads the property:
    [functools.cached_property] is modelled in [LeafTasksCache], and a read
    through the cache returns this value ([read_spec]). *)
Fixpoint leaf_tasks (self : Mixture) : list Task :=
  let all_ := _tasks_or_mixtures self in
  let tasks :=
    flat_map (fun kv => match snd kv with
                        | PTask t => [t]
                        | PMixture _ => []
                        end) all_ in
  let sub_tasks :=
    flat_map (fun kv => match snd kv with
                        | PMixture mix => [leaf_tasks mix]
                        | PTask _ => []
                        end) all_ in
  sorted_by_name (set_iter (fold_left (@app Task) sub_tasks tasks)).

Fixpoint get_proportion (self : Mixture) (task : Component)
  : Exception + float :=
  let prop := 0%float in
  let task_hash := hash task in
  ebind
    (if PyDict.contains task_hash (_proportions self)
     then ebind (subscript (_proportions self) task_hash)
                (fun w => inr (prop + w)%float)
     else inr prop)
    (fun prop =>
       if negb (task_in task (leaf_tasks self)) then inr prop
       else
         fold_left
           (fun acc kv =>
              ebind acc (fun prop =>
                match snd kv with
                | PMixture sub_task =>
                    if task_in task (leaf_tasks sub_task) then
                      ebind (subscript (_proportions self)
                               (hash (PMixture sub_task))) (fun w =>
                      ebind (get_proportion sub_task task) (fun p =>
                      ebind (truediv (w * p)%float
                               (total_proportion sub_task)) (fun q =>
                      inr (prop + q)%float)))
                    else inr prop
                | PTask _ => inr prop
                end))
           (_tasks_or_mixtures self) (inr prop)).

(** The integer seeds [np.random.RandomState] accepts. *)
Definition valid_seed (s : Z) : bool := (0 <=? s) && (s <? 2 ^ 32).

(** [_split_seed]: an integer seed determines the two draws, and numpy
    refuses one outside its range; without a seed numpy takes the
    generator's state from the operating system. *)
Definition _split_seed (seed : option Z) : Py (Z * Z) :=
  match seed with
  | Some s =>
      if valid_seed s then ret (randint_pair s)
      else raise (ValueError "Seed must be between 0 and 2**32 - 1")
  | None =>
      fun st =>
        (inr (os_entropy st (entropy_drawn st)),
         {| preprocessors := preprocessors st;
            os_entropy := os_entropy st;
            entropy_drawn := S (entropy_drawn st) |})
  end.

Local Open Scope py_scope.

(** [preps.extend(more)] and [preps.append(op)] for
    [preps = task._preprocessors]: the Task's own list object grows. *)
Definition preps_grow (method : string) (task : Task)
    (more : list GrainPreprocessor) : Py unit :=
  fun st =>
    match preprocessors st !! task_id task with
    | None =>
        (inl (AttributeError
                ("'NoneType' object has no attribute '" ++ method ++ "'")),
         st)
    | Some l =>
        (inr tt,
         {| preprocessors := <[task_id task := l ++ more]> (preprocessors st);
            os_entropy := os_entropy st;
            entropy_drawn := entropy_drawn st |})
    end.

Definition preps_extend (task : Task) (more : list GrainPreprocessor)
  : Py unit := preps_grow "extend" task more.

Definition preps_append (task : Task) (op : GrainPreprocessor) : Py unit :=
  preps_grow "append" task [op].

(** Reading [preps] when the loop over it starts. *)
Definition preps_iter (task : Task) : Py (list GrainPreprocessor) :=
  fun st =>
    match preprocessors st !! task_id task with
    | None => (inl (TypeError "'NoneType' object is not iterable"), st)
    | Some l => (inr l, st)
    end.

(** The inner loop of step 3: [for prep in preps]. *)
Definition run_preps (preps : list GrainPreprocessor)
    (ds : LazyMapDataset) (prep_seed : Z) : Py (LazyMapDataset * Z) :=
  for_each preps
    (fun acc prep =>
       let ds := LazyDatasetTransform prep (fst acc) (Some (snd acc)) in
       sp <- _split_seed (Some (snd acc)) ;;
       ret (ds, fst sp))
    (ds, prep_seed).

(** One turn of the outer loop of step 3: [for ds in dss]. *)
Definition run_epoch (task : Task) (shuffle : bool)
    (acc : option Z * list LazyMapDataset) (ds : LazyMapDataset)
  : Py (option Z * list LazyMapDataset) :=
  sp <- _split_seed (fst acc) ;;
  let next_epoch_seed := fst sp in
  let prep_seed := snd sp in
  sp <- _split_seed (Some prep_seed) ;;
  let prep_seed := fst sp in
  let shuffle_seed := snd sp in
  preps <- preps_iter task ;;
  r <- run_preps preps ds prep_seed ;;
  let ds := fst r in
  let ds := if shuffle then ShuffleLazyMapDataset ds shuffle_seed else ds in
  ret (Some next_epoch_seed, snd acc ++ [ds]).

Definition get_task_lazy_dataset (self : Mixture) (task : Task)
    (sequence_lengths : option (list (string * Z))) (split : string)
    (feature_converter : option PyGrainFeatureConverter)
    (batch_size : option Z) (shuffle : bool) (seed : option Z)
    (shard_info : option ShardInfo) (num_epochs : option Z)
  : Py LazyMapDataset :=
  (* Step 1: Get Source. *)
  src <- Task._get_data_source_for_split task split ;;
  let ds := SourceLazyMapDataset src in
  let ds :=
    match shard_info with
    | Some si =>
        ShardLazyMapDataset ds (mkShardOptions (index si) (num_shards si))
    | None => ds
    end in
  (* Step 2: Make epochs. *)
  let dss :=
    match num_epochs with
    | Some n => if n =? 0 then [ds] else repeat ds (Z.to_nat n)
    | None => [ds]
    end in
  (* Step 3: Run preprocessors and shuffle each epoch (if needed) *)
  _ <- match feature_converter with
       | Some fc => preps_extend task (get_transforms fc sequence_lengths)
       | None => ret tt
       end ;;
  _ <- match batch_size with
       | Some b => if b =? 0 then ret tt else preps_append task (Batch b None)
       | None => ret tt
       end ;;
  r <- for_each dss (run_epoch task shuffle) (seed, []) ;;
  let preprocessed_dss := snd r in
  (* Step 4: Combine epochs if needed *)
  match preprocessed_dss with
  | [ds] => ret ds
  | _ => ret (ConcatLazyMapDataset preprocessed_dss)
  end.

Definition get_lazy_dataset (self : Mixture)
    (sequence_lengths : option (list (string * Z))) (split : string)
    (feature_converter : option PyGrainFeatureConverter)
    (batch_size : option Z) (shuffle : bool) (seed : option Z)
    (shard_info : option ShardInfo) (num_epochs : option Z)
  : Py LazyMapDataset :=
  if negb (is_some num_epochs) && shuffle then
    raise (ValueError
      "Repeating indefinitely with shuffling turned on isn't supported.")
  else
    r <- for_each (leaf_tasks self)
           (fun acc task =>
              ds <- get_task_lazy_dataset self task sequence_lengths split
                      None None shuffle seed shard_info num_epochs ;;
              p <- lift (get_proportion self (PTask task)) ;;
              ret (fst acc ++ [ds], snd acc ++ [p]))
           ([], []) ;;
    let datasets := fst r in
    let proportions := snd r in
    let ds := MixedLazyMapDataset datasets proportions true in
    let post_mix_preps :=
      match feature_converter with
      | Some fc => get_transforms fc sequence_lengths
      | None => []
      end in
    let post_mix_preps :=
      match batch_size with
      | Some b =>
          if b =? 0 then post_mix_preps
          else post_mix_preps ++ [Batch b (Some false)]
      | None => post_mix_preps
      end in
    let ds :=
      fold_left (fun ds p => LazyDatasetTransform p ds None)
        post_mix_preps ds in
    let ds :=
      match num_epochs with
      | None => RepeatLazyMapDataset ds None
      | Some _ => ds
      end in
    ret ds.

Definition get_dataset (self : Mixture)
    (sequence_lengths : option (list (string * Z))) (split : string)
    (feature_converter : option PyGrainFeatureConverter)
    (batch_size : option Z) (shuffle : bool) (seed : option Z)
    (shard_info : option ShardInfo) (num_epochs : option Z)
  : Py DatasetIterator :=
  ds <- get_lazy_dataset self sequence_lengths split feature_converter
          batch_size shuffle seed shard_info num_epochs ;;
  sampler <- lift (IndexSampler.init (LenOf ds) NoSharding false (Some 1)
                     seed) ;;
  ret (PyGrainDatasetIteratorWrapper (FromLazyDataset ds) sampler []).
End Methods.
End Mixture.

(** ** Reachability in a Mixture *)

(** The Tasks and Mixtures below a Mixture, through any depth of nesting. *)
Inductive reaches_task : Mixture -> Task -> Prop :=
| reaches_direct m h t :
    In (h, PTask t) (_tasks_or_mixtures m) -> reaches_task m t
| reaches_nested m h sub t :
    In (h, PMixture sub) (_tasks_or_mixtures m) ->
    reaches_task sub t -> reaches_task m t.

Inductive sub_mixture : Mixture -> Mixture -> Prop :=
| sub_mixture_refl m : sub_mixture m m
| sub_mixture_step m h sub m' :
    In (h, PMixture sub) (_tasks_or_mixtures m) ->
    sub_mixture sub m' -> sub_mixture m m'.

(** Objects are what their id says: two Mixtures of the graph with the same
    id are one object. *)
Definition ids_identify (root : Mixture) : Prop :=
  forall m1 m2, sub_mixture root m1 -> sub_mixture root m2 ->
                mixture_id m1 = mixture_id m2 -> m1 = m2.

(** ** [functools.cached_property] on [Mixture.leaf_tasks] *)

Module LeafTasksCache.
Section Cache.
Context `{E : Externals}.

(** Reading [self.leaf_tasks].  The cache holds, for each Mixture object
    (by id), the entry [leaf_tasks] of its instance dictionary once the
    property has been read.  A cached value is returned as it is; otherwise
    the body runs, reading the property of every direct sub-Mixture through
    the same cache, and its result is stored. *)
Fixpoint read (self : Mixture) (cache : gmap Z (list Task))
  : list Task * gmap Z (list Task) :=
  match cache !! mixture_id self with
  | Some val => (val, cache)
  | None =>
      let all_ := _tasks_or_mixtures self in
      let tasks :=
        flat_map (fun kv => match snd kv with
                            | PTask t => [t]
                            | PMixture _ => []
                            end) all_ in
      let r :=
        fold_left
          (fun acc kv =>
             match snd kv with
             | PMixture mix =>
                 let r := read mix (snd acc) in
                 (fst acc ++ [fst r], snd r)
             | PTask _ => acc
             end) all_ ([], cache) in
      let sub_tasks := fst r in
      let val :=
        sorted_by_name (set_iter (fold_left (@app Task) sub_tasks tasks)) in
      (val, <[mixture_id self := val]> (snd r))
  end.

(** A cache of the Mixtures at and below [root] is consistent when each
    entry is the value of the property for its Mixture.  Entries are only
    ever written by [read], so every cache the program reaches is. *)
Definition consistent (root : Mixture) (cache : gmap Z (list Task)) : Prop :=
  forall m l, sub_mixture root m -> cache !! mixture_id m = Some l ->
              l = Mixture.leaf_tasks m.

(** What a read of [self.leaf_tasks] owes its caller. *)
Definition read_correct (root m : Mixture) : Prop :=
  forall cache,
    consistent root cache ->
    fst (read m cache) = Mixture.leaf_tasks m
    /\ consistent root (snd (read m cache))
    /\ snd (read m cache) !! mixture_id m = Some (Mixture.leaf_tasks m)
    /\ (forall k l, cache !! k = Some l ->
                    snd (read m cache) !! k = Some l).
End Cache.
End LeafTasksCache.

(** ** Observations on a lazy graph *)

(** The seeds the preprocessor applications of a graph were given, in the
    order of application, and the seeds of its shuffles. *)
Fixpoint transform_seeds (ds : LazyMapDataset) : list (option Z) :=
  match ds with
  | SourceLazyMapDataset _ => []
  | ShardLazyMapDataset p _ => transform_seeds p
  | LazyDatasetTransform _ p seed => transform_seeds p ++ [seed]
  | ShuffleLazyMapDataset p _ => transform_seeds p
  | ConcatLazyMapDataset ps => flat_map transform_seeds ps
  | MixedLazyMapDataset ps _ _ => flat_map transform_seeds ps
  | RepeatLazyMapDataset p _ => transform_seeds p
  end.

Fixpoint shuffle_seeds (ds : LazyMapDataset) : list Z :=
  match ds with
  | SourceLazyMapDataset _ => []
  | ShardLazyMapDataset p _ => shuffle_seeds p
  | LazyDatasetTransform _ p _ => shuffle_seeds p
  | ShuffleLazyMapDataset p seed => shuffle_seeds p ++ [seed]
  | ConcatLazyMapDataset ps => flat_map shuffle_seeds ps
  | MixedLazyMapDataset ps _ _ => flat_map shuffle_seeds ps
  | RepeatLazyMapDataset p _ => shuffle_seeds p
  end.

Definition all_seeds (ds : LazyMapDataset) : list (option Z) :=
  transform_seeds ds ++ map Some (shuffle_seeds ds).

(** ** The seed tree of [get_task_lazy_dataset], written out

    [split_fst] is the first draw of [_split_seed], the one both the
    epoch loop and the preprocessor loop carry on with. *)
Section SeedTree.
Context `{E : Externals}.

Definition split_fst (s : Z) : Z := fst (randint_pair s).
Definition split_snd (s : Z) : Z := snd (randint_pair s).

(** [next_epoch_seed] when epoch [k] (from 0) starts. *)
Definition epoch_seed (seed : Z) (k : nat) : Z := Nat.iter k split_fst seed.

(** The seed of preprocessor [j] (from 0) of epoch [k]. *)
Definition prep_seed_of (seed : Z) (k j : nat) : Z :=
  Nat.iter j split_fst (split_fst (split_snd (epoch_seed seed k))).

Definition shuffle_seed_of (seed : Z) (k : nat) : Z :=
  split_snd (split_snd (epoch_seed seed k)).

Definition seed_in_range (s : Z) : Prop := 0 <= s < 2 ^ 16 - 1.

(** The inner loop of step 3 for an integer seed, as a function. *)
Fixpoint apply_preps (preps : list GrainPreprocessor) (ds : LazyMapDataset)
    (prep_seed : Z) : LazyMapDataset :=
  match preps with
  | [] => ds
  | prep :: rest =>
      apply_preps rest (LazyDatasetTransform prep ds (Some prep_seed))
        (split_fst prep_seed)
  end.

(** One turn of the outer loop, from the epoch's seed. *)
Definition epoch_dataset (preps : list GrainPreprocessor) (shuffle : bool)
    (ds : LazyMapDataset) (next_epoch_seed : Z) : LazyMapDataset :=
  let prep_seed := split_snd next_epoch_seed in
  let ds := apply_preps preps ds (split_fst prep_seed) in
  if shuffle then ShuffleLazyMapDataset ds (split_snd prep_seed) else ds.

Fixpoint epoch_datasets (preps : list GrainPreprocessor) (shuffle : bool)
    (dss : list LazyMapDataset) (next_epoch_seed : Z)
  : list LazyMapDataset :=
  match dss with
  | [] => []
  | ds :: rest =>
      epoch_dataset preps shuffle ds next_epoch_seed
      :: epoch_datasets preps shuffle rest (split_fst next_epoch_seed)
  end.

(** Step 4. *)
Definition combine_epochs (preprocessed_dss : list LazyMapDataset)
  : LazyMapDataset :=
  match preprocessed_dss with
  | [ds] => ds
  | _ => ConcatLazyMapDataset preprocessed_dss
  end.

(** Steps 1 and 2. *)
Definition epoch_sources (src : GrainDataSource)
    (shard_info : option ShardInfo) (num_epochs : option Z)
  : list LazyMapDataset :=
  let ds := SourceLazyMapDataset src in
  let ds :=
    match shard_info with
    | Some si =>
        ShardLazyMapDataset ds (mkShardOptions (index si) (num_shards si))
    | None => ds
    end in
  match num_epochs with
  | Some n => if n =? 0 then [ds] else repeat ds (Z.to_nat n)
  | None => [ds]
  end.

(** A dataset that has met no preprocessor and no shuffle yet. *)
Definition unseeded (ds : LazyMapDataset) : Prop :=
  transform_seeds ds = [] /\ shuffle_seeds ds = [].

(** The number of epochs step 2 makes. *)
Definition epochs_made (num_epochs : option Z) : nat :=
  match num_epochs with
  | Some n => if n =? 0 then 1%nat else Z.to_nat n
  | None => 1%nat
  end.

(** The seeds of the tree, epoch by epoch. *)
Definition seed_tree_preps (seed : Z) (epochs n_preps : nat)
  : list (option Z) :=
  flat_map (fun k => map (fun j => Some (prep_seed_of seed k j))
                       (seq 0 n_preps))
    (seq 0 epochs).
End SeedTree.

(** Two successive calls of a computation from a state give one result. *)
Definition repeatable {A} (call : Py A) (st : State) : Prop :=
  fst (call (snd (call st))) = fst (call st).

(** A computation whose result and whose effect on the preprocessor lists
    are decided by the preprocessor lists alone (and not by the entropy the
    operating system hands out). *)
Definition store_determined {A} (m : Py A) : Prop :=
  forall st st', preprocessors st = preprocessors st' ->
    fst (m st) = fst (m st')
    /\ preprocessors (snd (m st)) = preprocessors (snd (m st')).

(** A computation that leaves every Task's preprocessor list as it was. *)
Definition keeps_preprocessors {A} (m : Py A) : Prop :=
  forall st, preprocessors (snd (m st)) = preprocessors st.

(** What [get_task_lazy_dataset] appends to the Task's own list. *)
Definition appended (sl : option (list (string * Z)))
    (fc : option PyGrainFeatureConverter) (bs : option Z)
  : list GrainPreprocessor :=
  match fc with Some c => get_transforms c sl | None => [] end
  ++ match bs with
     | Some b => if b =? 0 then [] else [Batch b None]
     | None => []
     end.

(** The chain [Task.get_dataset] and [Task.get_dataset_by_step] run, in
    the specification's words: the Task's own preprocessors, then the
    feature converter's transforms if a converter is given, then one batch
    operation if [batch_size] is set (and not zero). *)
Definition combined_chain (own : list GrainPreprocessor)
    (sl : option (list (string * Z))) (fc : option PyGrainFeatureConverter)
    (bs : option Z) : list GrainPreprocessor :=
  own
  ++ match fc with Some c => get_transforms c sl | None => [] end
  ++ match bs with
     | Some b => if b =? 0 then [] else [BatchOperation b false]
     | None => []
     end.

(** [num_records] brought into [1, MAX_NUM_RECORDS_TO_INSPECT], in the
    specification's words: the default below 1, the maximum above it. *)
Definition inspected_records (num_records : Z) : Z :=
  if num_records <? 1 then DEFAULT_NUM_RECORDS_TO_INSPECT
  else Z.min num_records MAX_NUM_RECORDS_TO_INSPECT.

(** The trace of an inspection, in the specification's words: entry [i] is
    what [list] reads out of a loader over the source, a sampler of
    [num_records] records (one epoch, no sharding) and exactly the first
    [i] operations of the chain. *)
Definition expected_steps `{E : Externals} (source : GrainDataSource)
    (num_records : Z) (shuffle : bool) (seed : option Z)
    (chain : list GrainPreprocessor) : list (list DataRecord) :=
  map (fun i =>
         materialize
           (PyGrainDatasetIteratorWrapper (FromDataSource source)
              (mkIndexSampler (NumRecordsOf (Some num_records)) NoSharding
                 shuffle (Some 1) seed)
              (firstn i chain)))
      (seq 0 (S (length chain))).

(** The state after numpy has taken entropy once. *)
Definition drawn (st : State) : State :=
  {| preprocessors := preprocessors st;
     os_entropy := os_entropy st;
     entropy_drawn := S (entropy_drawn st) |}.

(** The pair the next unseeded [RandomState] gives. *)
Definition next_entropy (st : State) : Z * Z :=
  os_entropy st (entropy_drawn st).

(** ** A sample configuration

    One instance of the external interface and a few objects, on which the
    hypotheses of the theorems below are met. *)

Module Sample.
(** A set that iterates in first-insertion order. *)
Fixpoint dedup_by_id (l : list Task) : list Task :=
  match l with
  | [] => []
  | t :: l' =>
      if existsb (fun u => task_id u =? task_id t) l' then dedup_by_id l'
      else t :: dedup_by_id l'
  end.

Definition externals : Externals := {|
  set_iter := dedup_by_id;
  randint_pair := fun s => ((75 * s + 74) mod 65535, (31 * s + 7) mod 65535);
  materialize := fun it => map (fun _ => mkDataRecord 0) (operations it);
  lazy_len := fun _ => 3;
|}.

Definition source : DataSource := {|
  ds_splits := ["train"%string];
  ds_get_data_source := TfdsDataSource;
  ds_num_input_examples := fun _ => Some 3;
|}.

Definition task (i : Z) (name : string) : Task :=
  {| task_id := i; task_name := name; task_source := Some source;
     task_splits := ds_splits source |}.

Definition A := task 1 "a".
Definition B := task 2 "b".
Definition C := task 3 "c".

Definition N : Mixture := {|
  mixture_id := 10; mixture_name := "n";
  _tasks_or_mixtures := [(2, PTask B); (3, PTask C)];
  _proportions := [(2, 3%float); (3, 1%float)];
|}.

Definition M : Mixture := {|
  mixture_id := 11; mixture_name := "m";
  _tasks_or_mixtures := [(1, PTask A); (10, PMixture N)];
  _proportions := [(1, 1%float); (10, 2%float)];
|}.

(** A Mixture of the one Task [A]. *)
Definition single : Mixture := {|
  mixture_id := 12; mixture_name := "s";
  _tasks_or_mixtures := [(1, PTask A)];
  _proportions := [(1, 1%float)];
|}.

Definition op1 := Transformation "tokenize".
Definition op2 := Transformation "trim".

Definition converter : PyGrainFeatureConverter :=
  {| get_transforms := fun _ => [Transformation "convert"] |}.

(** A store in which [A] has two preprocessors and [B], [C] have one. *)
Definition state : State := {|
  preprocessors := <[1 := [op1; op2]]> (<[2 := [op1]]> (<[3 := [op1]]> ∅));
  os_entropy := fun n => (Z.of_nat n, Z.of_nat n + 1);
  entropy_drawn := 0;
|}.
End Sample.

(** ** The rest of the file: splits and counts of a Mixture, TaskBuilder,
    the top-level entry *)

(** [split in splits], for a sequence of strings. *)
Definition split_in (split : string) (splits : list string) : bool :=
  existsb (String.eqb split) splits.

(** [tuple(s)] for a set of strings: the order is the set's. *)
Class TupleOrder := {
  tuple_of_set : gset string -> list string;
}.

Class TupleOrderSpec (T : TupleOrder) : Prop := {
  tuple_of_set_spec : forall s x, In x (tuple_of_set s) <-> x ∈ s;
}.

Module MixtureInfo.
Section Methods.
Context `{E : Externals} `{T : TupleOrder}.
Local Open Scope py_scope.

(** The property [Mixture.splits]: [splits.update(task.splits)] for every
    direct component, then [tuple(splits)]. *)
Fixpoint splits (self : Mixture) : list string :=
  tuple_of_set
    (fold_left
       (fun (acc : gset string) kv =>
          acc ∪ list_to_set
                  match snd kv with
                  | PTask t => task_splits t
                  | PMixture m => splits m
                  end)
       (_tasks_or_mixtures self) ∅).

(** [Mixture.num_input_examples]: [sum] starts from 0 and adds the count of
    each direct component that has the split, as the generator yields it;
    a Task's count may be [None], which [+] refuses. *)
Fixpoint num_input_examples (self : Mixture) (split : string) : Py Z :=
  fold_left
    (fun (acc : Py Z) kv =>
       total <- acc ;;
       match snd kv with
       | PTask t =>
           if split_in split (task_splits t) then
             n <- Task.num_input_examples t split ;;
             match n with
             | Some k => ret (total + k)
             | None =>
                 raise (TypeError
                   "unsupported operand type(s) for +: 'int' and 'NoneType'")
             end
           else ret total
       | PMixture m =>
           if split_in split (splits m) then
             n <- num_input_examples m split ;;
             ret (total + n)
           else ret total
       end)
    (_tasks_or_mixtures self) (ret 0).
End Methods.
End MixtureInfo.

(** The Tasks below a Mixture, each as often as there are ways down to it. *)
Fixpoint occurrences (m : Mixture) : list Task :=
  flat_map (fun kv => match snd kv with
                      | PTask t => [t]
                      | PMixture sub => occurrences sub
                      end) (_tasks_or_mixtures m).

(** The count a Task's source reports for a split. *)
Definition task_count (t : Task) (split : string) : option Z :=
  match task_source t with
  | Some src => ds_num_input_examples src split
  | None => None
  end.

(** A Mixture that [Mixture.__init__] built, of Tasks and of Mixtures that it
    built. *)
Inductive constructed : Mixture -> Prop :=
| constructed_by_init self name tasks proportions m :
    Mixture.init self name tasks proportions = inr m ->
    (forall sub, In (PMixture sub) tasks -> constructed sub) ->
    constructed m.

(** class TaskBuilder: the three attributes.  [__init__] keeps what it is
    given ([None] included). *)
Record TaskBuilder := mkTaskBuilder {
  _task_name : string;
  _source : option DataSource;
  _preprocessors : option (list GrainPreprocessor);
}.

Module TaskBuilder.
Section Methods.
Context `{E : Externals}.
Local Open Scope py_scope.

Definition init (task_name : string) (source : option DataSource)
    (preprocessors : option (list GrainPreprocessor)) : TaskBuilder :=
  mkTaskBuilder task_name source preprocessors.

(** [build]: [new] is the identity of the Task object it creates. *)
Definition build (self : TaskBuilder) (new : Z) : Py Task :=
  match _source self with
  | None => raise (ValueError "Source has not been set on this task builder.")
  | Some source =>
      match _preprocessors self with
      | None =>
          raise (ValueError
                   "Preprocessors have not been set on this task builder.")
      | Some preps => Task.init new (_task_name self) source (Some preps)
      end
  end.

(** The setters assign one attribute and return [self]. *)
Definition set_task_name (self : TaskBuilder) (task_name : string)
  : TaskBuilder :=
  mkTaskBuilder task_name (_source self) (_preprocessors self).

Definition set_data_source (self : TaskBuilder) (source : DataSource)
  : TaskBuilder :=
  mkTaskBuilder (_task_name self) (Some source) (_preprocessors self).

Definition set_preprocessors (self : TaskBuilder)
    (preprocessors : list GrainPreprocessor) : TaskBuilder :=
  mkTaskBuilder (_task_name self) (_source self) (Some preprocessors).

Definition from_task (task : Task) : Py TaskBuilder :=
  preps <- Task.get_preprocessors task ;;
  ret (init (task_name task) (task_source task) (Some preps)).
End Methods.
End TaskBuilder.

(** The module's [get_dataset]: it passes everything on but has no
    [shard_info] to pass. *)
Definition get_dataset `{E : Externals} (mixture_or_task : Component)
    (sequence_lengths : option (list (string * Z))) (split : string)
    (feature_converter : option PyGrainFeatureConverter)
    (batch_size : option Z) (shuffle : bool) (num_epochs : option Z)
    (seed : option Z) : Py DatasetIterator :=
  match mixture_or_task with
  | PTask t =>
      Task.get_dataset t sequence_lengths split feature_converter batch_size
        shuffle seed None num_epochs
  | PMixture m =>
      Mixture.get_dataset m sequence_lengths split feature_converter
        batch_size shuffle seed None num_epochs
  end.

(** The shard nodes of a lazy graph. *)
Fixpoint shard_nodes (ds : LazyMapDataset) : list ShardOptions :=
  match ds with
  | SourceLazyMapDataset _ => []
  | ShardLazyMapDataset p o => shard_nodes p ++ [o]
  | LazyDatasetTransform _ p _ => shard_nodes p
  | ShuffleLazyMapDataset p _ => shard_nodes p
  | ConcatLazyMapDataset ps => flat_map shard_nodes ps
  | MixedLazyMapDataset ps _ _ => flat_map shard_nodes ps
  | RepeatLazyMapDataset p _ => shard_nodes p
  end.

(** The operations applied to the mixed dataset. *)
Definition post_mix_preps (sequence_lengths : option (list (string * Z)))
    (feature_converter : option PyGrainFeatureConverter)
    (batch_size : option Z) : list GrainPreprocessor :=
  match feature_converter with
  | Some fc => get_transforms fc sequence_lengths
  | None => []
  end
  ++ match batch_size with
     | Some b => if b =? 0 then [] else [Batch b (Some false)]
     | None => []
     end.

(** The result of a computation, mapped. *)
Definition map_result {A B} (f : A -> B) (r : (Exception + A) * State)
  : (Exception + B) * State :=
  (match fst r with inr a => inr (f a) | inl e => inl e end, snd r).

(** ** Vocabulary of the properties of the rest of the file *)

(** The outcome of a computation that raises no error but a division by
    zero. *)
Definition only_zero_division (r : Exception + float) : Prop :=
  match r with
  | inr _ => True
  | inl e => e = ZeroDivisionError
  end.

(** What [0 + None] raises. *)
Definition none_plus : Exception :=
  TypeError "unsupported operand type(s) for +: 'int' and 'NoneType'".

(** The counts of a list of Tasks for a split, added from the left onto
    [total]; nothing when a Task that has the split reports no count. *)
Fixpoint count_from (split : string) (ts : list Task) (total : Z) : option Z :=
  match ts with
  | [] => Some total
  | t :: ts' =>
      if split_in split (task_splits t) then
        match task_count t split with
        | Some k => count_from split ts' (total + k)
        | None => None
        end
      else count_from split ts' total
  end.

Definition result_of (o : option Z) : Exception + Z :=
  match o with Some n => inr n | None => inl none_plus end.

(** The Tasks of a list that have the split. *)
Definition with_split (split : string) (ts : list Task) : list Task :=
  List.filter (fun t => split_in split (task_splits t)) ts.

Definition count_or_zero (split : string) (t : Task) : Z :=
  match task_count t split with Some k => k | None => 0 end.

Definition Zsum (l : list Z) : Z := fold_right Z.add 0 l.

(** The state in which a Task's list object holds [chain]. *)
Definition with_chain (task : Task) (chain : list GrainPreprocessor)
    (st : State) : State :=
  {| preprocessors := <[task_id task := chain]> (preprocessors st);
     os_entropy := os_entropy st;
     entropy_drawn := entropy_drawn st |}.

(** The shard nodes of one Task's dataset: one per epoch. *)
Definition task_shards (shard_info : option ShardInfo)
    (num_epochs : option Z) : list ShardOptions :=
  match shard_info with
  | Some si =>
      repeat (mkShardOptions (index si) (num_shards si))
        (epochs_made num_epochs)
  | None => []
  end.

(** The operations after the mix, applied without a seed. *)
Definition post_mix (sequence_lengths : option (list (string * Z)))
    (feature_converter : option PyGrainFeatureConverter)
    (batch_size : option Z) (ds : LazyMapDataset) : LazyMapDataset :=
  fold_left (fun ds p => LazyDatasetTransform p ds None)
    (post_mix_preps sequence_lengths feature_converter batch_size) ds.

(** The dataset of one Task for an integer seed, from its source and its
    chain. *)
Definition task_dataset `{E : Externals} (src : DataSource)
    (chain : list GrainPreprocessor) (split : string) (shuffle : bool)
    (seed : Z) (shard_info : option ShardInfo) (num_epochs : option Z)
  : LazyMapDataset :=
  combine_epochs
    (epoch_datasets chain shuffle
       (epoch_sources (ds_get_data_source src split) shard_info num_epochs)
       seed).

(** The loop of [get_lazy_dataset] over the leaf Tasks, from any pair of
    accumulators. *)
Definition mix_loop `{E : Externals} (self : Mixture)
    (sequence_lengths : option (list (string * Z))) (split : string)
    (shuffle : bool) (seed : option Z) (shard_info : option ShardInfo)
    (num_epochs : option Z) (tasks : list Task)
    (acc : list LazyMapDataset * list float)
  : Py (list LazyMapDataset * list float) :=
  for_each tasks
    (fun acc task =>
       bind (Mixture.get_task_lazy_dataset self task sequence_lengths split
               None None shuffle seed shard_info num_epochs) (fun ds =>
       bind (lift (Mixture.get_proportion self (PTask task))) (fun p =>
       ret (fst acc ++ [ds], snd acc ++ [p]))))
    acc.

(** A cache in which a Mixture is only cached once its direct sub-Mixtures
    are: the body of the property reads theirs before it stores its own. *)
Definition cached_downwards (root : Mixture) (cache : gmap Z (list Task))
  : Prop :=
  forall m h sub,
    sub_mixture root m -> is_Some (cache !! mixture_id m) ->
    In (h, PMixture sub) (_tasks_or_mixtures m) ->
    is_Some (cache !! mixture_id sub).

(** A read keeps the cache that way. *)
Definition read_fills `{E : Externals} (root m : Mixture) : Prop :=
  forall cache,
    LeafTasksCache.consistent root cache ->
    cached_downwards root cache ->
    cached_downwards root (snd (LeafTasksCache.read m cache)).

(** One epoch from its prep seed. *)
Definition epoch_from_prep_seed `{E : Externals}
    (preps : list GrainPreprocessor) (shuffle : bool) (ds : LazyMapDataset)
    (prep_seed : Z) : LazyMapDataset :=
  let ds := apply_preps preps ds (split_fst prep_seed) in
  if shuffle then ShuffleLazyMapDataset ds (split_snd prep_seed) else ds.

(** ** More sample objects *)

Module Fixture.
(** A tuple in the order of the set's elements. *)
Definition tuple_order : TupleOrder := {| tuple_of_set := elements |}.

(** A Mixture whose weights add up to zero, and a Mixture over it. *)
Definition Zero : Mixture := {|
  mixture_id := 20; mixture_name := "z";
  _tasks_or_mixtures := [(2, PTask Sample.B); (3, PTask Sample.C)];
  _proportions := [(2, 1%float); (3, (-1)%float)];
|}.

Definition Top : Mixture := {|
  mixture_id := 21; mixture_name := "top";
  _tasks_or_mixtures := [(1, PTask Sample.A); (20, PMixture Zero)];
  _proportions := [(1, 1%float); (20, 2%float)];
|}.

(** A Task whose source was taken away: it keeps its splits. *)
Definition unset : Task :=
  {| task_id := 5; task_name := "e"; task_source := None;
     task_splits := ["train"%string] |}.

(** The chains of [Sample.state] and the proportions of [Sample.M]. *)
Definition chains (t : Task) : list GrainPreprocessor :=
  if task_id t =? 1 then [Sample.op1; Sample.op2] else [Sample.op1].

Definition props (t : Task) : float :=
  match @Mixture.get_proportion Sample.externals Sample.M (PTask t) with
  | inr p => p
  | inl _ => 0%float
  end.

Definition shard : ShardInfo := {| index := 0; num_shards := 4 |}.
End Fixture.

(** * Properties *)

(** ** The step-by-step trace of a Task *)

Section TaskSteps.
Context `{E : Externals}.

Lemma steps_loop_spec source sampler all_ops :
  forall accumulated_ops accumulated_result,
    Task.steps_loop source sampler all_ops accumulated_ops accumulated_result
    = accumulated_result ++
      map (fun i => materialize
             (Task._load_data source sampler
                (accumulated_ops ++ firstn i all_ops)))
          (seq 1 (length all_ops)).
Proof.
  induction all_ops as [|op rest IH]; intros acc res; simpl.
  - now rewrite app_nil_r.
  - rewrite IH, <- app_assoc. f_equal. simpl. f_equal.
    rewrite <- (seq_shift (length rest) 1), map_map.
    apply map_ext; intros i. simpl.
    now rewrite <- app_assoc.
Qed.

(** The code's chain is the specification's. *)
Lemma with_converter_and_batch_chain ops sl fc bs :
  Task.with_converter_and_batch ops sl fc bs = combined_chain ops sl fc bs.
Proof.
  unfold Task.with_converter_and_batch, combined_chain.
  destruct fc as [c|], bs as [b|]; try destruct (b =? 0);
    rewrite ?app_nil_r, <- ?app_assoc; reflexivity.
Qed.

Lemma length_combined_chain ops sl fc bs :
  length (combined_chain ops sl fc bs)
  = (length ops
     + match fc with Some c => length (get_transforms c sl) | None => 0 end
     + (if truthy_int bs then 1 else 0))%nat.
Proof.
  unfold combined_chain, truthy_int.
  destruct fc as [c|], bs as [b|]; try destruct (b =? 0);
    simpl; repeat rewrite length_app; simpl; lia.
Qed.

(** The code's validation is the specification's clamp, and its result is
    in range. *)
Lemma validate_num_records_clamps n :
  Task.validate_num_records n = inspected_records n.
Proof.
  unfold Task.validate_num_records, inspected_records,
    MAX_NUM_RECORDS_TO_INSPECT.
  destruct (Z.ltb_spec n 1); [reflexivity|].
  destruct (Z.gtb_spec n 1000); lia.
Qed.

Lemma inspected_records_range n :
  1 <= inspected_records n <= MAX_NUM_RECORDS_TO_INSPECT.
Proof.
  unfold inspected_records, MAX_NUM_RECORDS_TO_INSPECT,
    DEFAULT_NUM_RECORDS_TO_INSPECT.
  destruct (Z.ltb_spec n 1); lia.
Qed.

(** When [grain.IndexSampler] accepts its arguments. *)
Lemma init_accepts n shard_options shuffle num_epochs seed :
  0 < n ->
  (forall e, num_epochs = Some e -> 0 < e) ->
  (shuffle = true -> seed <> None) ->
  (forall s, seed = Some s -> 0 <= s < 2 ^ 32) ->
  IndexSampler.init (NumRecordsOf (Some n)) shard_options shuffle num_epochs
    seed
  = inr (mkIndexSampler (NumRecordsOf (Some n)) shard_options shuffle
           num_epochs seed).
Proof.
  intros Hn He Hsh Hs. unfold IndexSampler.init. cbn [ebind].
  destruct (Z.leb_spec n 0); [lia|].
  destruct num_epochs as [e|].
  - specialize (He e eq_refl). destruct (Z.leb_spec e 0); [lia|].
    destruct seed as [s|].
    + rewrite andb_false_r. specialize (Hs s eq_refl).
      destruct (Z.ltb_spec s 0); [lia|].
      destruct (Z.leb_spec (2 ^ 32) s); [lia|]. reflexivity.
    + destruct shuffle; [now exfalso; apply Hsh | reflexivity].
  - destruct seed as [s|].
    + rewrite andb_false_r. specialize (Hs s eq_refl).
      destruct (Z.ltb_spec s 0); [lia|].
      destruct (Z.leb_spec (2 ^ 32) s); [lia|]. reflexivity.
    + destruct shuffle; [now exfalso; apply Hsh | reflexivity].
Qed.

(** The sampler it builds is the one it was asked for. *)
Lemma init_inr num_records shard_options shuffle num_epochs seed sampler0 :
  IndexSampler.init num_records shard_options shuffle num_epochs seed
  = inr sampler0 ->
  sampler0
  = mkIndexSampler num_records shard_options shuffle num_epochs seed.
Proof.
  unfold IndexSampler.init, ebind.
  destruct (match num_records with
            | NumRecordsOf (Some n) => inr n
            | NumRecordsOf None => _
            | LenOf ds => _
            end) as [e|n]; [discriminate|].
  repeat match goal with
         | |- context [if ?b then _ else _] => destruct b; [discriminate|]
         end.
  intros H. now inversion H.
Qed.

(** When it refuses the shuffling or the seed; the number of records and
    of epochs being in order, this is the error it raises. *)
Lemma init_refuses n shard_options shuffle (e : Z) seed :
  0 < n -> 0 < e ->
  (shuffle = true /\ seed = None)
  \/ (exists s, seed = Some s /\ ~ 0 <= s < 2 ^ 32) ->
  exists msg,
    IndexSampler.init (NumRecordsOf (Some n)) shard_options shuffle (Some e)
      seed
    = inl (ValueError msg)
    /\ msg <> "Source has not been set on this task object."%string
    /\ msg <> "Preprocessors have not been set on this task."%string.
Proof.
  intros Hn He H. unfold IndexSampler.init. cbn [ebind].
  destruct (Z.leb_spec n 0); [lia|].
  destruct (Z.leb_spec e 0); [lia|].
  destruct H as [[-> ->]|[s [-> Hs]]].
  - simpl. eexists. split; [reflexivity|]. split; discriminate.
  - rewrite andb_false_r.
    assert (Hbad : (s <? 0) || (2 ^ 32 <=? s) = true).
    { destruct (Z.ltb_spec s 0); [reflexivity|].
      destruct (Z.leb_spec (2 ^ 32) s); [reflexivity | lia]. }
    rewrite Hbad. eexists. split; [reflexivity|]. split; discriminate.
Qed.

(** The whole trace, for a Task that is set up and a sampler that grain
    accepts. *)
Lemma get_dataset_by_step_trace (self : Task) (num_records : Z) sl split fc
    bs shuffle seed (st : State) src preps :
  task_source self = Some src ->
  preprocessors st !! task_id self = Some preps ->
  (shuffle = true -> seed <> None) ->
  (forall s, seed = Some s -> 0 <= s < 2 ^ 32) ->
  Task.get_dataset_by_step self num_records sl split fc bs shuffle seed st
  = (inr (expected_steps (ds_get_data_source src split)
            (inspected_records num_records) shuffle seed
            (combined_chain preps sl fc bs)), st).
Proof.
  intros Hsrc Hpreps Hsh Hs.
  unfold Task.get_dataset_by_step, Task._get_data_source_for_split,
    Task.get_preprocessors, bind, ret, lift.
  rewrite validate_num_records_clamps.
  rewrite init_accepts;
    [| pose proof (inspected_records_range num_records); lia
     | intros e He; inversion He; lia | exact Hsh | exact Hs].
  rewrite Hsrc, Hpreps, with_converter_and_batch_chain.
  unfold expected_steps.
  destruct (combined_chain preps sl fc bs) as [|op rest] eqn:Hops;
    [reflexivity|].
  rewrite steps_loop_spec. reflexivity.
Qed.
End TaskSteps.

(** C4. For a Task whose source and preprocessors are set, and a sampler
    configuration that [grain.IndexSampler] accepts (shuffling has a seed,
    and the seed is a non-negative integer below [2**32]),
    [get_dataset_by_step] returns, without touching the store, one entry
    more than the combined chain (own preprocessors, then the
    feature-converter transforms if a converter is given, then one batch
    operation if [batch_size] is set and not zero) has operations; entry 0
    is the sample read out with no operation, and entry [i] the sample read
    out anew by a loader over the source and exactly the first [i]
    operations of the chain, in chain order. *)
Theorem get_dataset_by_step_steps `{E : Externals}
    (self : Task) (num_records : Z) sequence_lengths split feature_converter
    batch_size shuffle seed (st : State) src preps :
  task_source self = Some src ->
  preprocessors st !! task_id self = Some preps ->
  (shuffle = true -> seed <> None) ->
  (forall s, seed = Some s -> 0 <= s < 2 ^ 32) ->
  let chain :=
    preps
    ++ match feature_converter with
       | Some c => get_transforms c sequence_lengths
       | None => []
       end
    ++ match batch_size with
       | Some b => if b =? 0 then [] else [BatchOperation b false]
       | None => []
       end in
  let sampler :=
    mkIndexSampler (NumRecordsOf (Some (inspected_records num_records)))
      NoSharding shuffle (Some 1) seed in
  exists steps,
    Task.get_dataset_by_step self num_records sequence_lengths split
      feature_converter batch_size shuffle seed st = (inr steps, st)
    /\ length steps = S (length chain)
    /\ length chain
       = (length preps
          + match feature_converter with
            | Some c => length (get_transforms c sequence_lengths)
            | None => 0
            end
          + (if truthy_int batch_size then 1 else 0))%nat
    /\ nth_error steps 0
       = Some (materialize
                 (PyGrainDatasetIteratorWrapper
                    (FromDataSource (ds_get_data_source src split)) sampler
                    []))
    /\ forall i, (i <= length chain)%nat ->
         nth_error steps i
         = Some (materialize
                   (PyGrainDatasetIteratorWrapper
                      (FromDataSource (ds_get_data_source src split)) sampler
                      (firstn i chain))).
Proof.
  intros Hsrc Hpreps Hsh Hs chain sampler.
  change chain
    with (combined_chain preps sequence_lengths feature_converter batch_size)
    in *.
  assert (Hnth : forall i, (i <= length chain)%nat ->
    nth_error
      (expected_steps (ds_get_data_source src split)
         (inspected_records num_records) shuffle seed chain) i
    = Some (materialize
              (PyGrainDatasetIteratorWrapper
                 (FromDataSource (ds_get_data_source src split)) sampler
                 (firstn i chain)))).
  { intros i Hi. unfold expected_steps. rewrite nth_error_map, nth_error_seq.
    destruct (Nat.ltb_spec i (S (length chain))); [reflexivity | lia]. }
  eexists. split; [|split; [|split; [|split]]].
  - apply get_dataset_by_step_trace; eassumption.
  - unfold expected_steps. now rewrite length_map, length_seq.
  - apply length_combined_chain.
  - apply (Hnth 0%nat). lia.
  - exact Hnth.
Qed.

Lemma get_dataset_by_step_steps_witness :
  exists steps,
    @Task.get_dataset_by_step Sample.externals Sample.A 5 None "train"
      (Some Sample.converter) (Some 4) true (Some 0) Sample.state
    = (inr steps, Sample.state)
    /\ length steps = 5%nat.
Proof.
  destruct (@get_dataset_by_step_steps Sample.externals Sample.A 5 None
              "train"%string (Some Sample.converter) (Some 4) true (Some 0)
              Sample.state Sample.source [Sample.op1; Sample.op2]
              eq_refl eq_refl ltac:(discriminate)
              ltac:(intros s H; inversion H; lia))
    as [steps [H1 [H2 _]]].
  exists steps. split; [exact H1 | exact H2].
Defined.

(** C5. [get_dataset_by_step] brings [num_records] into
    [1, MAX_NUM_RECORDS_TO_INSPECT] without raising.  A call with a value
    below 1 is the call with [DEFAULT_NUM_RECORDS_TO_INSPECT], and a call
    with a value above [MAX_NUM_RECORDS_TO_INSPECT] is the call with that
    maximum, whatever the Task and the state.  For a Task that is set up
    (and a shuffle and a seed the sampler accepts) the call returns, for
    every [num_records]; every loader of the trace samples [used] records,
    where [used] is the default below 1, the maximum above it and
    [num_records] itself in between; so the number handed to the sampler is
    never one it refuses. *)
Theorem get_dataset_by_step_clamps_num_records `{E : Externals}
    (self : Task) (num_records : Z) sequence_lengths split feature_converter
    batch_size shuffle seed :
  let by_step n :=
    Task.get_dataset_by_step self n sequence_lengths split feature_converter
      batch_size shuffle seed in
  (num_records < 1 ->
   by_step num_records = by_step DEFAULT_NUM_RECORDS_TO_INSPECT)
  /\ (num_records > MAX_NUM_RECORDS_TO_INSPECT ->
      by_step num_records = by_step MAX_NUM_RECORDS_TO_INSPECT)
  /\ forall (st : State) src preps (used : Z),
       task_source self = Some src ->
       preprocessors st !! task_id self = Some preps ->
       (shuffle = true -> seed <> None) ->
       (forall s, seed = Some s -> 0 <= s < 2 ^ 32) ->
       (num_records < 1 /\ used = DEFAULT_NUM_RECORDS_TO_INSPECT)
       \/ (num_records > MAX_NUM_RECORDS_TO_INSPECT
           /\ used = MAX_NUM_RECORDS_TO_INSPECT)
       \/ (1 <= num_records <= MAX_NUM_RECORDS_TO_INSPECT
           /\ used = num_records) ->
       1 <= used <= MAX_NUM_RECORDS_TO_INSPECT
       /\ exists steps,
            by_step num_records st = (inr steps, st)
            /\ steps <> []
            /\ forall i step,
                 nth_error steps i = Some step ->
                 exists ops,
                   step
                   = materialize
                       (PyGrainDatasetIteratorWrapper
                          (FromDataSource (ds_get_data_source src split))
                          (mkIndexSampler (NumRecordsOf (Some used))
                             NoSharding shuffle (Some 1) seed)
                          ops).
Proof.
  intros by_step.
  assert (Hv : forall n m, Task.validate_num_records n
                           = Task.validate_num_records m ->
                           by_step n = by_step m).
  { intros n m H. unfold by_step, Task.get_dataset_by_step. now rewrite H. }
  split; [|split].
  - intros Hlt. apply Hv. rewrite !validate_num_records_clamps.
    unfold inspected_records, DEFAULT_NUM_RECORDS_TO_INSPECT,
      MAX_NUM_RECORDS_TO_INSPECT.
    destruct (Z.ltb_spec num_records 1); [reflexivity | lia].
  - unfold MAX_NUM_RECORDS_TO_INSPECT. intros Hgt. apply Hv.
    rewrite !validate_num_records_clamps.
    unfold inspected_records, MAX_NUM_RECORDS_TO_INSPECT.
    destruct (Z.ltb_spec num_records 1); [lia|]. simpl. lia.
  - intros st src preps used Hsrc Hpreps Hsh Hs Hused.
    assert (Hu : used = inspected_records num_records).
    { unfold inspected_records, DEFAULT_NUM_RECORDS_TO_INSPECT,
        MAX_NUM_RECORDS_TO_INSPECT in *.
      destruct (Z.ltb_spec num_records 1); lia. }
    split; [rewrite Hu; apply inspected_records_range|].
    eexists. split; [|split].
    + unfold by_step. apply get_dataset_by_step_trace; eassumption.
    + unfold expected_steps. simpl. discriminate.
    + intros i step Hi. unfold expected_steps in Hi.
      rewrite nth_error_map in Hi.
      destruct (nth_error (seq 0 _) i) as [k|]; [|discriminate].
      inversion Hi. rewrite Hu. eexists. reflexivity.
Qed.

Lemma get_dataset_by_step_clamps_num_records_witness :
  @Task.get_dataset_by_step Sample.externals Sample.A 0 None "train" None None
    true (Some 0)
  = @Task.get_dataset_by_step Sample.externals Sample.A
      DEFAULT_NUM_RECORDS_TO_INSPECT None "train" None None true (Some 0)
  /\ exists steps,
       @Task.get_dataset_by_step Sample.externals Sample.A 10000 None "train"
         None None true (Some 0) Sample.state
       = (inr steps, Sample.state).
Proof.
  split.
  - destruct (@get_dataset_by_step_clamps_num_records Sample.externals
                Sample.A 0 None "train"%string None None true (Some 0))
      as (H & _).
    apply H. reflexivity.
  - destruct (@get_dataset_by_step_clamps_num_records Sample.externals
                Sample.A 10000 None "train"%string None None true (Some 0))
      as (_ & _ & H).
    destruct (H Sample.state Sample.source [Sample.op1; Sample.op2]
                MAX_NUM_RECORDS_TO_INSPECT eq_refl eq_refl
                ltac:(discriminate) ltac:(intros s Hs; inversion Hs; lia)
                ltac:(right; left; split; [reflexivity | reflexivity]))
      as (_ & steps & Hsteps & _).
    exists steps. exact Hsteps.
Defined.

(** ** Dictionaries built from pairs with distinct keys *)

Section DictFacts.
Context {V : Type}.
Implicit Types (d l : list (Z * V)) (k : Z).

Lemma contains_keys k d : PyDict.contains k d = true <-> In k (PyDict.keys d).
Proof.
  unfold PyDict.contains. induction d as [|[k' v] d IH]; simpl.
  - split; [discriminate | tauto].
  - destruct (Z.eqb_spec k k') as [->|Hne]; [tauto|].
    rewrite IH. split; [tauto | intros [H|H]; [congruence | exact H]].
Qed.

Lemma getitem_None k d : PyDict.getitem k d = None <-> ~ In k (PyDict.keys d).
Proof.
  rewrite <- contains_keys. unfold PyDict.contains.
  destruct (PyDict.getitem k d); split; intros H; try congruence; tauto.
Qed.

Lemma setitem_fresh k (v : V) d :
  ~ In k (PyDict.keys d) -> PyDict.setitem k v d = d ++ [(k, v)].
Proof.
  induction d as [|[k' v'] d IH]; simpl; intros H; [reflexivity|].
  destruct (Z.eqb_spec k k') as [->|Hne]; [tauto|].
  rewrite IH; [reflexivity | tauto].
Qed.

Lemma of_pairs_from l : forall d,
  NoDup (PyDict.keys d ++ PyDict.keys l) ->
  fold_left (fun d kv => PyDict.setitem (fst kv) (snd kv) d) l d = d ++ l.
Proof.
  induction l as [|[k v] l IH]; intros d Hnd; simpl.
  - now rewrite app_nil_r.
  - simpl in Hnd. rewrite setitem_fresh.
    + rewrite IH; [now rewrite <- app_assoc|].
      unfold PyDict.keys in *. rewrite map_app. simpl.
      rewrite <- app_assoc. exact Hnd.
    + apply NoDup_app in Hnd as (_ & Hd & _). intros Hin.
      apply (Hd k); [now apply list_elem_of_In | left].
Qed.

(** [dict(pairs)] is [pairs] when no key comes twice. *)
Lemma of_pairs_NoDup l : NoDup (PyDict.keys l) -> PyDict.of_pairs l = l.
Proof. intros H. unfold PyDict.of_pairs. now rewrite of_pairs_from. Qed.

Lemma getitem_In k (v : V) d :
  NoDup (PyDict.keys d) -> In (k, v) d -> PyDict.getitem k d = Some v.
Proof.
  induction d as [|[k' v'] d IH]; simpl; intros Hnd Hin; [tauto|].
  apply NoDup_cons in Hnd as [Hk Hnd].
  destruct Hin as [Heq|Hin].
  - inversion Heq; subst. now rewrite Z.eqb_refl.
  - destruct (Z.eqb_spec k k') as [->|Hne]; [|now apply IH].
    exfalso. apply Hk, list_elem_of_In.
    unfold PyDict.keys. apply in_map_iff. now exists (k', v).
Qed.
End DictFacts.

Lemma keys_zip {V} (ks : list Z) (vs : list V) :
  length ks = length vs -> PyDict.keys (zip ks vs) = ks.
Proof.
  revert vs. induction ks as [|k ks IH]; intros [|v vs] H;
    try discriminate; simpl; [reflexivity|].
  f_equal. apply IH. simpl in H. lia.
Qed.

Lemma values_zip {V} (ks : list Z) (vs : list V) :
  length ks = length vs -> PyDict.values (zip ks vs) = vs.
Proof.
  revert vs. induction ks as [|k ks IH]; intros [|v vs] H;
    try discriminate; simpl; [reflexivity|].
  f_equal. apply IH. simpl in H. lia.
Qed.

(** [len(set(l)) == len(l)] says that [l] has no repetition. *)
Lemma size_list_to_set_le (l : list Z) :
  (size (list_to_set l : gset Z) <= length l)%nat.
Proof.
  induction l as [|x l IH]; simpl.
  - reflexivity.
  - rewrite size_union_alt, size_singleton.
    assert (Hs : (size (list_to_set l ∖ {[x]} : gset Z) <= size (list_to_set l : gset Z))%nat).
    { apply subseteq_size. intros y Hy. apply elem_of_difference in Hy. tauto. }
    lia.
Qed.

Lemma size_list_to_set_NoDup (l : list Z) :
  size (list_to_set l : gset Z) = length l <-> NoDup l.
Proof.
  split; [|apply size_list_to_set].
  induction l as [|x l IH]; simpl; intros H; [constructor|].
  pose proof (size_list_to_set_le l) as Hle.
  destruct (decide (x ∈ l)) as [Hin|Hin].
  - exfalso.
    assert (Heq : {[x]} ∪ list_to_set l = (list_to_set l : gset Z)).
    { apply subseteq_union_1_L. intros y Hy. apply elem_of_singleton in Hy.
      subst y. now apply elem_of_list_to_set. }
    rewrite Heq in H. lia.
  - apply NoDup_cons. split; [exact Hin|]. apply IH.
    rewrite size_union, size_singleton in H.
    + lia.
    + intros y Hy Hy'. apply elem_of_singleton in Hy. subst y.
      now apply elem_of_list_to_set in Hy'.
Qed.

(** ** Construction of a Mixture *)

(** C6. [Mixture.__init__] raises (a [ValueError], the specification's
    configuration error, and nothing else) exactly when [tasks] and
    [proportions] differ in length or two components of [tasks] have the same
    identity hash; otherwise it succeeds, and the object holds, in the order
    of [tasks], one entry per component: each hash is a key once, and it
    maps to the component and to the proportion at the same position. *)
Theorem Mixture_init_spec (self : Z) (name : string) (tasks : list Component)
    (proportions : list float) :
  ((exists msg, Mixture.init self name tasks proportions = inl (ValueError msg))
   <-> (length tasks <> length proportions \/ ~ NoDup (map hash tasks)))
  /\ (forall e, Mixture.init self name tasks proportions = inl e ->
       exists msg, e = ValueError msg)
  /\ (length tasks = length proportions -> NoDup (map hash tasks) ->
      exists m,
        Mixture.init self name tasks proportions = inr m
        /\ mixture_id m = self /\ mixture_name m = name
        /\ _tasks_or_mixtures m = zip (map hash tasks) tasks
        /\ _proportions m = zip (map hash tasks) proportions
        /\ NoDup (PyDict.keys (_proportions m))
        /\ PyDict.keys (_tasks_or_mixtures m) = PyDict.keys (_proportions m)
        /\ forall i c p,
             nth_error tasks i = Some c -> nth_error proportions i = Some p ->
             PyDict.getitem (hash c) (_tasks_or_mixtures m) = Some c
             /\ PyDict.getitem (hash c) (_proportions m) = Some p).
Proof.
  unfold Mixture.init.
  destruct (Nat.eqb_spec (length tasks) (length proportions)) as [Hlen|Hlen];
    simpl.
  2:{ split; [|split].
      - split; [intros _; now left | intros _; eauto].
      - intros e He. inversion He. eauto.
      - intros H; contradiction. }
  destruct (Nat.eqb_spec (size (list_to_set (map hash tasks) : gset Z))
              (length tasks)) as [Hsz|Hsz]; simpl.
  - assert (Hnd : NoDup (map hash tasks)).
    { apply size_list_to_set_NoDup. now rewrite length_map. }
    assert (Hk1 : PyDict.keys (zip (map hash tasks) tasks) = map hash tasks)
      by (apply keys_zip; now rewrite length_map).
    assert (Hk2 : PyDict.keys (zip (map hash tasks) proportions)
                  = map hash tasks)
      by (apply keys_zip; now rewrite length_map).
    split; [|split].
    + split; [intros [msg H]; discriminate | intros [H|H]; contradiction].
    + intros e He. discriminate.
    + intros _ _.
      rewrite !of_pairs_NoDup by (rewrite ?Hk1, ?Hk2; exact Hnd).
      eexists. split; [reflexivity|].
      cbn [mixture_id mixture_name _tasks_or_mixtures _proportions].
      change (Provider Mixture) with Component. rewrite Hk1, Hk2.
      repeat split; try reflexivity; try exact Hnd.
      * apply getitem_In; [now rewrite Hk1|].
        clear - H. revert i H. induction tasks as [|c' tasks IH];
          intros [|i] H; simpl in *; try discriminate.
        -- inversion H; now left.
        -- right. now apply (IH i).
      * apply getitem_In; [now rewrite Hk2|].
        clear - H H0 Hlen. revert proportions i H H0 Hlen.
        induction tasks as [|c' tasks IH];
          intros [|p' ps] [|i] H H0 Hlen; simpl in *; try discriminate.
        -- inversion H; inversion H0; now left.
        -- right. apply (IH ps i); auto.
  - split; [|split].
    + split; [intros _; right | intros _; eauto].
      intros Hnd. apply Hsz. rewrite <- (length_map hash).
      now apply size_list_to_set_NoDup.
    + intros e He. inversion He. eauto.
    + intros _ Hnd. exfalso. apply Hsz. rewrite <- (length_map hash).
      now apply size_list_to_set_NoDup.
Qed.

Lemma Mixture_init_spec_witness :
  (exists m,
     Mixture.init 11 "m" [PTask Sample.A; PMixture Sample.N]
       [1%float; 2%float] = inr m
     /\ _proportions m = [(1, 1%float); (10, 2%float)])
  /\ (exists msg,
        Mixture.init 11 "m" [PTask Sample.A; PTask Sample.A]
          [1%float; 2%float] = inl (ValueError msg))
  /\ (exists msg,
        Mixture.init 11 "m" [PTask Sample.A; PTask Sample.B] [0.5%float]
        = inl (ValueError msg)).
Proof.
  split; [|split].
  - destruct (Mixture_init_spec 11 "m" [PTask Sample.A; PMixture Sample.N]
                [1%float; 2%float]) as (_ & _ & H).
    destruct H as [m (Hm & _ & _ & _ & Hp & _)];
      [reflexivity | compute_done |].
    exists m. split; [exact Hm | exact Hp].
  - apply (proj1 (Mixture_init_spec 11 "m" [PTask Sample.A; PTask Sample.A]
                    [1%float; 2%float])).
    right. intros Hnd. apply NoDup_cons in Hnd as [Hin _]. apply Hin. now left.
  - apply (proj1 (Mixture_init_spec 11 "m" [PTask Sample.A; PTask Sample.B]
                    [0.5%float])).
    left. simpl. lia.
Defined.

(** ** Induction on the nesting of Mixtures *)

Section MixtureInduction.
Variable P : Mixture -> Prop.
Hypothesis step :
  forall m,
    (forall h sub, In (h, PMixture sub) (_tasks_or_mixtures m) -> P sub) ->
    P m.

Lemma Mixture_nested_ind : forall m : Mixture, P m.
Proof.
  exact (fix nested (m : Mixture) : P m :=
  match m with
  | mkMixture i n comps props =>
      step (mkMixture i n comps props)
        ((fix below (l : list (Z * Provider Mixture))
            : forall h sub, In (h, PMixture sub) l -> P sub :=
            match l with
            | [] => fun _ _ (F : False) => match F with end
            | (h', c) :: l' =>
                fun h sub Hin =>
                  match Hin with
                  | or_introl e =>
                      match c return (h', c) = (h, PMixture sub) -> P sub with
                      | PMixture s =>
                          fun e =>
                            eq_ind s P (nested s) sub
                              (f_equal (fun kv => match snd kv with
                                                  | PMixture x => x
                                                  | PTask _ => s
                                                  end) e)
                      | PTask _ =>
                          fun e =>
                            match eq_ind (PTask _)
                                    (fun c => match c with
                                              | PTask _ => True
                                              | PMixture _ => False
                                              end) I _ (f_equal snd e)
                            with end
                      end e
                  | or_intror r => below l' h sub r
                  end
            end) comps)
  end).
Qed.
End MixtureInduction.

(** ** Sorting by name *)

Lemma insert_by_name_perm t l : Permutation (insert_by_name t l) (t :: l).
Proof.
  induction l as [|u l IH]; simpl; [reflexivity|].
  destruct (String.leb (task_name t) (task_name u)); [reflexivity|].
  rewrite IH. apply perm_swap.
Qed.

Lemma sorted_by_name_perm l : Permutation (sorted_by_name l) l.
Proof.
  induction l as [|t l IH]; simpl; [reflexivity|].
  rewrite insert_by_name_perm. now constructor.
Qed.

Lemma insert_by_name_Sorted t l :
  Sorted name_le l -> Sorted name_le (insert_by_name t l).
Proof.
  induction l as [|u l IH]; simpl; intros Hs.
  - repeat constructor.
  - destruct (String.leb (task_name t) (task_name u)) eqn:Hle.
    + constructor; [exact Hs | constructor; exact Hle].
    + inversion Hs as [|? ? Hs' Hhd]; subst.
      constructor; [now apply IH|].
      assert (Hut : name_le u t).
      { unfold name_le.
        destruct (String.leb_total (task_name t) (task_name u)); congruence. }
      destruct l as [|v l]; simpl; [now constructor|].
      destruct (String.leb (task_name t) (task_name v)); constructor;
        [exact Hut | now inversion Hhd].
Qed.

Lemma sorted_by_name_Sorted l : Sorted name_le (sorted_by_name l).
Proof.
  induction l as [|t l IH]; simpl; [constructor|].
  now apply insert_by_name_Sorted.
Qed.

(** ** Membership in [leaf_tasks] *)

Lemma task_in_ids (x : Component) (l : list Task) :
  task_in x l = true
  <-> exists t, x = PTask t /\ In (task_id t) (map task_id l).
Proof.
  destruct x as [t|m]; simpl.
  - rewrite existsb_exists. split.
    + intros [u [Hin Heq]]. exists t. split; [reflexivity|].
      apply Z.eqb_eq in Heq. rewrite <- Heq. now apply in_map.
    + intros [t' [Heq Hin]]. inversion Heq; subst t'.
      apply in_map_iff in Hin as [u [Hu Hin]]. exists u.
      split; [exact Hin | now apply Z.eqb_eq].
  - split; [discriminate | intros [t [H _]]; discriminate].
Qed.

Section LeafTasks.
Context `{E : Externals} {HE : SetIterSpec E}.

Lemma leaf_tasks_eq (m : Mixture) :
  Mixture.leaf_tasks m
  = sorted_by_name (set_iter (fold_left (@app Task)
      (flat_map (fun kv => match snd kv with
                           | PMixture mix => [Mixture.leaf_tasks mix]
                           | PTask _ => []
                           end) (_tasks_or_mixtures m))
      (flat_map (fun kv => match snd kv with
                           | PTask t => [t]
                           | PMixture _ => []
                           end) (_tasks_or_mixtures m)))).
Proof. destruct m; reflexivity. Qed.

Lemma in_fold_app {A} (x : A) (ls : list (list A)) : forall l0,
  In x (fold_left (@app A) ls l0) <-> In x l0 \/ exists l, In l ls /\ In x l.
Proof.
  induction ls as [|l ls IH]; intros l0; simpl.
  - split; [tauto | intros [H|[l [[] _]]]; exact H].
  - rewrite IH, in_app_iff. split.
    + intros [[H|H]|[l' [H1 H2]]]; eauto.
    + intros [H|[l' [[->|H1] H2]]]; eauto.
Qed.

Lemma in_direct_tasks (t : Task) (comps : list (Z * Component)) :
  In t (flat_map (fun kv => match snd kv with
                            | PTask t => [t]
                            | PMixture _ => []
                            end) comps)
  <-> exists h, In (h, PTask t) comps.
Proof.
  rewrite in_flat_map. split.
  - intros [[h [u|s]] [Hin Ht]]; simpl in Ht; [|tauto].
    destruct Ht as [->|[]]. now exists h.
  - intros [h Hin]. exists (h, PTask t). split; [exact Hin | now left].
Qed.

Lemma in_sub_tasks (l : list Task) (comps : list (Z * Component)) :
  In l (flat_map (fun kv => match snd kv with
                            | PMixture mix => [Mixture.leaf_tasks mix]
                            | PTask _ => []
                            end) comps)
  <-> exists h sub, In (h, PMixture sub) comps /\ l = Mixture.leaf_tasks sub.
Proof.
  rewrite in_flat_map. split.
  - intros [[h [u|s]] [Hin Ht]]; simpl in Ht; [tauto|].
    destruct Ht as [<-|[]]. now exists h, s.
  - intros [h [sub [Hin ->]]]. exists (h, PMixture sub).
    split; [exact Hin | now left].
Qed.

(** Every element of [leaf_tasks] is a Task below the Mixture. *)
Lemma leaf_tasks_reaches (m : Mixture) :
  forall t, In t (Mixture.leaf_tasks m) -> reaches_task m t.
Proof.
  induction m as [m IH] using Mixture_nested_ind. intros t Hin.
  rewrite leaf_tasks_eq in Hin.
  apply (Permutation_in _ (sorted_by_name_perm _)) in Hin.
  apply set_iter_incl in Hin. apply in_fold_app in Hin as [Hin|Hin].
  - apply in_direct_tasks in Hin as [h Hin]. now apply reaches_direct with h.
  - destruct Hin as [l [Hl Hin]].
    apply in_sub_tasks in Hl as [h [sub [Hsub ->]]].
    apply reaches_nested with h sub; [exact Hsub|]. now apply (IH h sub).
Qed.

(** Every Task below the Mixture is in [leaf_tasks], as an object. *)
Lemma reaches_leaf_tasks (m : Mixture) (t : Task) :
  reaches_task m t -> In (task_id t) (map task_id (Mixture.leaf_tasks m)).
Proof.
  induction 1 as [m h t Hin | m h sub t Hin Hr IH].
  - rewrite leaf_tasks_eq.
    rewrite (Permutation_map task_id (sorted_by_name_perm _)).
    apply set_iter_complete, in_fold_app. left.
    apply in_direct_tasks. now exists h.
  - rewrite leaf_tasks_eq.
    rewrite (Permutation_map task_id (sorted_by_name_perm _)).
    apply in_map_iff in IH as [u [Hu Hin']]. rewrite <- Hu.
    apply set_iter_complete, in_fold_app. right.
    exists (Mixture.leaf_tasks sub). split; [|exact Hin'].
    apply in_sub_tasks. now exists h, sub.
Qed.

Lemma leaf_tasks_NoDup (m : Mixture) :
  NoDup (map task_id (Mixture.leaf_tasks m)).
Proof.
  rewrite leaf_tasks_eq.
  rewrite (Permutation_map task_id (sorted_by_name_perm _)).
  apply set_iter_NoDup.
Qed.

Lemma leaf_tasks_Sorted (m : Mixture) :
  Sorted name_le (Mixture.leaf_tasks m).
Proof. rewrite leaf_tasks_eq. apply sorted_by_name_Sorted. Qed.

(** [task in self.leaf_tasks], by what lies below the Mixture. *)
Lemma task_in_leaf_tasks (m : Mixture) (x : Component) :
  task_in x (Mixture.leaf_tasks m) = true
  <-> exists t u, x = PTask t /\ reaches_task m u /\ task_id u = task_id t.
Proof.
  rewrite task_in_ids. split.
  - intros [t [-> Hin]]. apply in_map_iff in Hin as [u [Hu Hin]].
    exists t, u. split; [reflexivity|].
    split; [now apply leaf_tasks_reaches | exact Hu].
  - intros [t [u [-> [Hr Hu]]]]. exists t. split; [reflexivity|].
    rewrite <- Hu. now apply reaches_leaf_tasks.
Qed.
End LeafTasks.

(** ** Resolution of proportions *)

Lemma Mixture_init_inv self name tasks proportions m :
  Mixture.init self name tasks proportions = inr m ->
  length tasks = length proportions
  /\ NoDup (map hash tasks)
  /\ m = mkMixture self name (zip (map hash tasks) tasks)
           (zip (map hash tasks) proportions).
Proof.
  unfold Mixture.init.
  destruct (Nat.eqb_spec (length tasks) (length proportions)) as [Hlen|Hlen];
    simpl; [|discriminate].
  destruct (Nat.eqb_spec (size (list_to_set (map hash tasks) : gset Z))
              (length tasks)) as [Hsz|Hsz]; simpl; [|discriminate].
  assert (Hnd : NoDup (map hash tasks)).
  { apply size_list_to_set_NoDup. now rewrite length_map. }
  intros H. inversion H; subst; clear H.
  rewrite !of_pairs_NoDup
    by (rewrite keys_zip; [exact Hnd | now rewrite length_map]).
  auto.
Qed.

Lemma zip_two {A B} (xs : list A) (ys : list B) x1 y1 x2 y2 :
  length xs = length ys ->
  Permutation (zip xs ys) [(x1, y1); (x2, y2)] ->
  (xs = [x1; x2] /\ ys = [y1; y2]) \/ (xs = [x2; x1] /\ ys = [y2; y1]).
Proof.
  intros Hlen Hp. symmetry in Hp.
  apply Permutation_length_2_inv in Hp.
  destruct xs as [|a [|a' [|]]], ys as [|b [|b' [|]]];
    simpl in *; try discriminate; destruct Hp as [H|H];
    try discriminate; inversion H; subst; auto.
Qed.

Section Proportions.
Context `{E : Externals} {HE : SetIterSpec E}.

Lemma get_proportion_eq (self : Mixture) (task : Component) :
  Mixture.get_proportion self task
  = ebind
      (if PyDict.contains (hash task) (_proportions self)
       then ebind (subscript (_proportions self) (hash task))
                  (fun w => inr (0 + w)%float)
       else inr 0%float)
      (fun prop =>
         if negb (task_in task (Mixture.leaf_tasks self)) then inr prop
         else
           fold_left
             (fun acc kv =>
                ebind acc (fun prop =>
                  match snd kv with
                  | PMixture sub_task =>
                      if task_in task (Mixture.leaf_tasks sub_task) then
                        ebind (subscript (_proportions self)
                                 (hash (PMixture sub_task))) (fun w =>
                        ebind (Mixture.get_proportion sub_task task) (fun p =>
                        ebind (truediv (w * p)%float
                                 (Mixture.total_proportion sub_task)) (fun q =>
                        inr (prop + q)%float)))
                      else inr prop
                  | PTask _ => inr prop
                  end))
             (_tasks_or_mixtures self) (inr prop)).
Proof. destruct self; reflexivity. Qed.

(** A Task that is a direct component is a leaf task. *)
Lemma task_in_direct (m : Mixture) h (t : Task) :
  In (h, PTask t) (_tasks_or_mixtures m) ->
  task_in (PTask t) (Mixture.leaf_tasks m) = true.
Proof.
  intros Hin. apply task_in_leaf_tasks. exists t, t.
  split; [reflexivity|]. split; [|reflexivity]. now apply reaches_direct with h.
Qed.

Lemma task_in_nested (m : Mixture) h sub (x : Component) :
  In (h, PMixture sub) (_tasks_or_mixtures m) ->
  task_in x (Mixture.leaf_tasks sub) = true ->
  task_in x (Mixture.leaf_tasks m) = true.
Proof.
  intros Hin Hx. apply task_in_leaf_tasks in Hx as [t [u [-> [Hr Hu]]]].
  apply task_in_leaf_tasks. exists t, u. split; [reflexivity|].
  split; [|exact Hu]. now apply reaches_nested with h sub.
Qed.

(** A Mixture of Tasks only holds no other Task. *)
Lemma task_in_flat (m : Mixture) (t : Task) :
  (forall h c, In (h, c) (_tasks_or_mixtures m) ->
               exists u, c = PTask u /\ task_id u <> task_id t) ->
  task_in (PTask t) (Mixture.leaf_tasks m) = false.
Proof.
  intros Hall. apply not_true_is_false. intros Hx.
  apply task_in_leaf_tasks in Hx as [t' [u [Heq [Hr Hu]]]].
  inversion Heq; subst t'; clear Heq.
  destruct Hr as [m h u Hin | m h sub u Hin _].
  - destruct (Hall _ _ Hin) as [u' [Hc Hne]]. inversion Hc; subst. congruence.
  - destruct (Hall _ _ Hin) as [u' [Hc _]]. discriminate.
Qed.
End Proportions.

(** Decide the comparisons of ids the hypotheses settle. *)
Ltac eqb_ids :=
  repeat match goal with
    | |- context [Z.eqb ?a ?a] => rewrite (Z.eqb_refl a)
    | |- context [Z.eqb ?a ?b] =>
        let H := fresh in
        assert (H : Z.eqb a b = false) by (apply Z.eqb_neq; congruence);
        rewrite H; clear H
    end.

(** Unfold one call of [get_proportion] on a Mixture that is written out. *)
Ltac step_proportion :=
  rewrite get_proportion_eq;
  cbn [_tasks_or_mixtures _proportions mixture_id hash object_id];
  unfold PyDict.contains, subscript;
  repeat (progress (simpl PyDict.getitem; eqb_ids));
  cbn [fold_left snd ebind negb].

(** C1. Nested proportions are normalised by the sub-Mixture's total before
    they are scaled by the parent's weight, and direct weights are returned
    as they are: let [N] be constructed from the Tasks [B] (weight 3) and
    [C] (weight 1), and [M] from the Task [A] (weight 1) and [N] (weight 2),
    in any order of the arguments, [A], [B], [C] and [N] being distinct
    objects.  Then [M.get_proportion(B) == 2 * 3/4],
    [M.get_proportion(C) == 2 * 1/4] and [M.get_proportion(A) == 1]. *)
Theorem get_proportion_nested_example `{E : Externals} {HE : SetIterSpec E}
    (A B C : Task) (idN idM : Z) (nameN nameM : string)
    (tasksN tasksM : list Component) (propsN propsM : list float)
    (N M : Mixture) :
  NoDup [task_id A; task_id B; task_id C; idN] ->
  Permutation (zip tasksN propsN) [(PTask B, 3%float); (PTask C, 1%float)] ->
  Mixture.init idN nameN tasksN propsN = inr N ->
  Permutation (zip tasksM propsM) [(PTask A, 1%float); (PMixture N, 2%float)] ->
  Mixture.init idM nameM tasksM propsM = inr M ->
  Mixture.get_proportion M (PTask B) = inr (2 * 3 / 4)%float
  /\ Mixture.get_proportion M (PTask C) = inr (2 * 1 / 4)%float
  /\ Mixture.get_proportion M (PTask A) = inr 1%float.
Proof.
  intros Hids HpN HN HpM HM.
  apply Mixture_init_inv in HN as (HlenN & _ & HN).
  apply Mixture_init_inv in HM as (HlenM & _ & HM).
  assert (Hab : task_id A <> task_id B /\ task_id A <> task_id C
                /\ task_id A <> idN /\ task_id B <> task_id C
                /\ task_id B <> idN /\ task_id C <> idN).
  { apply NoDup_cons in Hids as [H1 Hids]. apply NoDup_cons in Hids as [H2 Hids].
    apply NoDup_cons in Hids as [H3 _].
    apply not_elem_of_cons in H1 as [? H1]. apply not_elem_of_cons in H1 as [? H1].
    apply not_elem_of_cons in H1 as [? _]. apply not_elem_of_cons in H2 as [? H2].
    apply not_elem_of_cons in H2 as [? _]. apply not_elem_of_cons in H3 as [? _].
    auto 10. }
  destruct Hab as (Hab & Hac & Han & Hbc & Hbn & Hcn).
  destruct (zip_two _ _ _ _ _ _ HlenN HpN) as [[-> ->]|[-> ->]];
  destruct (zip_two _ _ _ _ _ _ HlenM HpM) as [[-> ->]|[-> ->]];
  subst N M; simpl zip.
  all: cbn [map hash object_id zip combine mixture_id].
  all: match goal with
       | |- context [PMixture ?n] =>
           match goal with
           | |- context [Mixture.get_proportion ?m _] =>
               assert (HBN : task_in (PTask B) (Mixture.leaf_tasks n) = true)
                 by (eapply task_in_direct; simpl; eauto);
               assert (HCN : task_in (PTask C) (Mixture.leaf_tasks n) = true)
                 by (eapply task_in_direct; simpl; eauto);
               assert (HAN : task_in (PTask A) (Mixture.leaf_tasks n) = false)
                 by (apply task_in_flat; simpl;
                     intros h c [H|[H|[]]]; inversion H; subst; eauto);
               assert (HAM : task_in (PTask A) (Mixture.leaf_tasks m) = true)
                 by (eapply task_in_direct; simpl; eauto);
               assert (HBM : task_in (PTask B) (Mixture.leaf_tasks m) = true)
                 by (eapply task_in_nested; [simpl; eauto | exact HBN]);
               assert (HCM : task_in (PTask C) (Mixture.leaf_tasks m) = true)
                 by (eapply task_in_nested; [simpl; eauto | exact HCN])
           end
       end.
  all: repeat split.
  all: step_proportion.
  all: rewrite ?HAM, ?HBM, ?HCM, ?HAN, ?HBN, ?HCN; cbn [negb fold_left snd ebind].
  all: rewrite ?HAM, ?HBM, ?HCM, ?HAN, ?HBN, ?HCN; cbn [negb fold_left snd ebind].
  all: try step_proportion.
  all: rewrite ?HAM, ?HBM, ?HCM, ?HAN, ?HBN, ?HCN; cbn [negb fold_left snd ebind].
  all: unfold Mixture.total_proportion; cbn [_proportions].
  all: reflexivity.
Qed.

(** The sample set is a set. *)
Lemma Sample_dedup_by_id_spec : SetIterSpec Sample.externals.
Proof.
  split; simpl.
  - intros l. induction l as [|u l IH]; simpl; intros t Hin; [tauto|].
    destruct (existsb _ l); [right; now apply IH|].
    destruct Hin as [->|Hin]; [now left | right; now apply IH].
  - intros l. induction l as [|u l IH]; simpl; [constructor|].
    destruct (existsb _ l) eqn:Hex; [exact IH|]. simpl.
    apply NoDup_cons. split; [|exact IH].
    intros Hin. apply list_elem_of_In, in_map_iff in Hin as [v [Hv Hin]].
    assert (Hex' : existsb (fun w => task_id w =? task_id u) l = true).
    { apply existsb_exists. exists v. split; [|now apply Z.eqb_eq].
      clear - Hin. induction l as [|w l IH]; simpl in *; [tauto|].
      destruct (existsb _ l); [right; now apply IH|].
      destruct Hin as [->|Hin]; [now left | right; now apply IH]. }
    congruence.
  - intros l. induction l as [|u l IH]; simpl; intros t Hin; [tauto|].
    destruct (existsb _ l) eqn:Hex.
    + destruct Hin as [->|Hin]; [|now apply IH].
      apply existsb_exists in Hex as [v [Hv Heq]]. apply Z.eqb_eq in Heq.
      rewrite <- Heq. now apply IH.
    + destruct Hin as [->|Hin]; [now left | right; now apply IH].
Qed.

Lemma get_proportion_nested_example_witness :
  @Mixture.get_proportion Sample.externals Sample.M (PTask Sample.B)
    = inr (2 * 3 / 4)%float
  /\ @Mixture.get_proportion Sample.externals Sample.M (PTask Sample.C)
    = inr (2 * 1 / 4)%float
  /\ @Mixture.get_proportion Sample.externals Sample.M (PTask Sample.A)
    = inr 1%float.
Proof.
  apply (@get_proportion_nested_example Sample.externals
           Sample_dedup_by_id_spec Sample.A Sample.B Sample.C 10 11
           "n"%string "m"%string
           [PTask Sample.B; PTask Sample.C] [PTask Sample.A; PMixture Sample.N]
           [3%float; 1%float] [1%float; 2%float] Sample.N Sample.M).
  - compute_done.
  - reflexivity.
  - vm_compute. reflexivity.
  - reflexivity.
  - vm_compute. reflexivity.
Defined.

Lemma in_zip_map {A B C} (f : A -> C) (xs : list A) (ys : list B) x y :
  In (x, y) (zip xs ys) -> In (f x, y) (zip (map f xs) ys).
Proof.
  revert ys. induction xs as [|a xs IH]; intros [|b ys]; simpl; try tauto.
  intros [H|H]; [inversion H; now left | right; now apply IH].
Qed.

Lemma in_zip_self {A C} (f : A -> C) (xs : list A) x :
  In x xs -> In (f x, x) (zip (map f xs) xs).
Proof.
  induction xs as [|a xs IH]; simpl; [tauto|].
  intros [->|H]; [now left | right; now apply IH].
Qed.




(** ** The cached property [leaf_tasks] *)

Lemma sub_mixture_below root m h sub :
  sub_mixture root m -> In (h, PMixture sub) (_tasks_or_mixtures m) ->
  sub_mixture root sub.
Proof.
  induction 1 as [m | m h' s m' Hin Hs IH]; intros Hsub.
  - apply sub_mixture_step with h sub; [exact Hsub | constructor].
  - apply sub_mixture_step with h' s; [exact Hin | now apply IH].
Qed.

Section CacheFacts.
Context `{E : Externals}.

Lemma read_eq (self : Mixture) (cache : gmap Z (list Task)) :
  LeafTasksCache.read self cache
  = match cache !! mixture_id self with
    | Some val => (val, cache)
    | None =>
        let r :=
          fold_left
            (fun acc kv =>
               match snd kv with
               | PMixture mix =>
                   let r := LeafTasksCache.read mix (snd acc) in
                   (fst acc ++ [fst r], snd r)
               | PTask _ => acc
               end) (_tasks_or_mixtures self) ([], cache) in
        let val :=
          sorted_by_name (set_iter (fold_left (@app Task) (fst r)
            (flat_map (fun kv => match snd kv with
                                 | PTask t => [t]
                                 | PMixture _ => []
                                 end) (_tasks_or_mixtures self)))) in
        (val, <[mixture_id self := val]> (snd r))
    end.
Proof. destruct self; reflexivity. Qed.

Lemma read_sub_mixtures root (comps : list (Z * Component)) :
  (forall h sub, In (h, PMixture sub) comps -> LeafTasksCache.read_correct root sub) ->
  forall subs cache,
    LeafTasksCache.consistent root cache ->
    let r :=
      fold_left
        (fun acc kv =>
           match snd kv with
           | PMixture mix =>
               let r := LeafTasksCache.read mix (snd acc) in
               (fst acc ++ [fst r], snd r)
           | PTask _ => acc
           end) comps (subs, cache) in
    fst r = subs ++ flat_map (fun kv => match snd kv with
                                        | PMixture mix => [Mixture.leaf_tasks mix]
                                        | PTask _ => []
                                        end) comps
    /\ LeafTasksCache.consistent root (snd r)
    /\ (forall k l, cache !! k = Some l -> snd r !! k = Some l).
Proof.
  induction comps as [|[h c] comps IH]; intros Hall subs cache Hok; simpl.
  - rewrite app_nil_r. auto.
  - destruct c as [t|mix]; simpl.
    + apply IH; [|exact Hok]. intros h' sub Hin. apply (Hall h' sub). now right.
    + destruct (Hall h mix (or_introl eq_refl) cache Hok)
        as (Hv & Hok' & _ & Hmono).
      destruct (IH (fun h' sub Hin => Hall h' sub (or_intror Hin))
                  (subs ++ [fst (LeafTasksCache.read mix cache)])
                  (snd (LeafTasksCache.read mix cache)) Hok')
        as (Hf & Hok'' & Hmono').
      cbv zeta in Hf, Hok'', Hmono' |- *.
      split; [now rewrite Hf, Hv, <- app_assoc|]. split; [exact Hok''|].
      intros k l Hk. apply Hmono', Hmono, Hk.
Qed.

Lemma read_spec root :
  ids_identify root ->
  forall m, sub_mixture root m -> LeafTasksCache.read_correct root m.
Proof.
  intros Hids m. induction m as [m IH] using Mixture_nested_ind.
  intros Hsub cache Hok. rewrite read_eq.
  destruct (cache !! mixture_id m) as [val|] eqn:Hlook.
  - simpl. rewrite (Hok m val Hsub Hlook). rewrite <- (Hok m val Hsub Hlook).
    auto.
  - cbv zeta.
    destruct (read_sub_mixtures root (_tasks_or_mixtures m)
                (fun h sub Hin => IH h sub Hin (sub_mixture_below _ _ _ _ Hsub Hin))
                [] cache Hok) as (Hf & Hok' & Hmono).
    cbv zeta in Hf, Hok', Hmono |- *. rewrite Hf. simpl fst. simpl snd.
    change ([] ++ ?x) with x. rewrite <- leaf_tasks_eq.
    split; [reflexivity|]. split; [|split].
    + intros m' l Hm' Hl.
      destruct (decide (mixture_id m = mixture_id m')) as [Heq|Hne].
      * rewrite Heq, lookup_insert_eq in Hl. inversion Hl; subst l.
        now rewrite (Hids m m' Hsub Hm' Heq).
      * rewrite lookup_insert_ne in Hl by exact Hne. now apply (Hok' m').
    + apply lookup_insert_eq.
    + intros k l Hk.
      destruct (decide (mixture_id m = k)) as [<-|Hne]; [congruence|].
      rewrite lookup_insert_ne by exact Hne. now apply Hmono.
Qed.
End CacheFacts.

(** C9. For a Mixture whose nested Mixtures are identified by their ids,
    [leaf_tasks] holds exactly the Tasks reachable through the nesting, each
    once, in the order of their names.  The property is computed once and
    cached: a read from any consistent cache (the empty one of a new object
    among them) returns that sequence and leaves it stored on the object;
    the next read returns the same sequence and leaves the cache as it is;
    and a read of an object that has the entry returns what is stored and
    computes nothing (whatever is stored, and with the cache untouched). *)
Theorem leaf_tasks_sorted_dedup_cached `{E : Externals} {HE : SetIterSpec E}
    (M : Mixture) (cache : gmap Z (list Task)) :
  ids_identify M ->
  LeafTasksCache.consistent M cache ->
  let leaves := Mixture.leaf_tasks M in
  let first := LeafTasksCache.read M cache in
  let second := LeafTasksCache.read M (snd first) in
  (forall t, In t leaves -> reaches_task M t)
  /\ (forall t, reaches_task M t -> In (task_id t) (map task_id leaves))
  /\ NoDup (map task_id leaves)
  /\ Sorted name_le leaves
  /\ fst first = leaves
  /\ fst second = fst first
  /\ snd second = snd first
  /\ snd first !! mixture_id M = Some leaves
  /\ (forall stored val,
        stored !! mixture_id M = Some val ->
        LeafTasksCache.read M stored = (val, stored)).
Proof.
  intros Hids Hok leaves first second.
  destruct (read_spec M Hids M (sub_mixture_refl M) cache Hok)
    as (Hv & Hok' & Hlook & _).
  fold first in Hv, Hok', Hlook.
  split; [apply leaf_tasks_reaches|].
  split; [apply reaches_leaf_tasks|].
  split; [apply leaf_tasks_NoDup|].
  split; [apply leaf_tasks_Sorted|].
  split; [exact Hv|].
  assert (Hhit : forall stored val,
            stored !! mixture_id M = Some val ->
            LeafTasksCache.read M stored = (val, stored)).
  { intros stored val Hstored. rewrite read_eq, Hstored. reflexivity. }
  unfold second. rewrite (Hhit _ _ Hlook). simpl.
  split; [now rewrite Hv|]. split; [reflexivity|].
  split; [exact Hlook | exact Hhit].
Qed.

Lemma Sample_ids_identify : ids_identify Sample.M.
Proof.
  assert (Hsub : forall m, sub_mixture Sample.M m -> m = Sample.M \/ m = Sample.N).
  { intros m H. inversion H as [|? h sub ? Hin Hs]; subst; [now left|].
    simpl in Hin. destruct Hin as [Hin|[Hin|[]]]; inversion Hin; subst.
    inversion Hs as [|? h' sub' ? Hin' _]; subst; [now right|].
    simpl in Hin'. destruct Hin' as [Hin'|[Hin'|[]]]; inversion Hin'. }
  intros m1 m2 H1 H2 Heq.
  destruct (Hsub m1 H1) as [->| ->], (Hsub m2 H2) as [->| ->];
    try reflexivity; vm_compute in Heq; discriminate.
Qed.

Lemma leaf_tasks_sorted_dedup_cached_witness :
  fst (@LeafTasksCache.read Sample.externals Sample.M ∅)
  = [Sample.A; Sample.B; Sample.C]
  /\ fst (@LeafTasksCache.read Sample.externals Sample.M
            (snd (@LeafTasksCache.read Sample.externals Sample.M ∅)))
     = fst (@LeafTasksCache.read Sample.externals Sample.M ∅).
Proof.
  destruct (@leaf_tasks_sorted_dedup_cached Sample.externals
              Sample_dedup_by_id_spec Sample.M ∅ Sample_ids_identify)
    as (_ & _ & _ & _ & H1 & H2 & _).
  - intros m l _ Hl. rewrite lookup_empty in Hl. discriminate.
  - split; [rewrite H1; vm_compute; reflexivity | exact H2].
Defined.

(** ** What the stateful methods read and write *)

Section MonadFacts.
Context `{E : Externals}.

Lemma keeps_ret {A} (a : A) : keeps_preprocessors (ret a).
Proof. intros st. reflexivity. Qed.

Lemma keeps_raise {A} e : keeps_preprocessors (@raise A e).
Proof. intros st. reflexivity. Qed.

Lemma keeps_lift {A} (r : Exception + A) : keeps_preprocessors (lift r).
Proof. intros st. reflexivity. Qed.

Lemma keeps_bind {A B} (m : Py A) (f : A -> Py B) :
  keeps_preprocessors m -> (forall a, keeps_preprocessors (f a)) ->
  keeps_preprocessors (bind m f).
Proof.
  intros Hm Hf st. unfold bind. specialize (Hm st).
  destruct (m st) as [[e|a] st1]; simpl in *; [exact Hm|].
  now rewrite Hf.
Qed.

Lemma keeps_for_each {A B} (l : list A) (body : B -> A -> Py B) :
  (forall acc x, keeps_preprocessors (body acc x)) ->
  forall acc, keeps_preprocessors (for_each l body acc).
Proof.
  intros Hb. induction l as [|x l IH]; intros acc; simpl.
  - apply keeps_ret.
  - apply keeps_bind; [apply Hb | exact IH].
Qed.

Lemma keeps_split_seed seed : keeps_preprocessors (Mixture._split_seed seed).
Proof.
  intros st. destruct seed as [s|]; [|reflexivity].
  unfold Mixture._split_seed. now destruct (Mixture.valid_seed s).
Qed.

Lemma keeps_preps_iter task : keeps_preprocessors (Mixture.preps_iter task).
Proof.
  intros st. unfold Mixture.preps_iter.
  now destruct (preprocessors st !! task_id task).
Qed.

Lemma keeps_get_preprocessors task :
  keeps_preprocessors (Task.get_preprocessors task).
Proof.
  intros st. unfold Task.get_preprocessors.
  now destruct (preprocessors st !! task_id task).
Qed.

Lemma keeps_source task split :
  keeps_preprocessors (Task._get_data_source_for_split task split).
Proof.
  unfold Task._get_data_source_for_split.
  destruct (task_source task); [apply keeps_ret | apply keeps_raise].
Qed.

Lemma keeps_num_input_examples task split :
  keeps_preprocessors (Task.num_input_examples task split).
Proof.
  unfold Task.num_input_examples.
  destruct (task_source task); [apply keeps_ret | apply keeps_raise].
Qed.

Lemma keeps_run_preps preps ds seed :
  keeps_preprocessors (Mixture.run_preps preps ds seed).
Proof.
  apply keeps_for_each. intros acc x.
  apply keeps_bind; [apply keeps_split_seed | intros; apply keeps_ret].
Qed.

Lemma keeps_run_epoch task shuffle acc ds :
  keeps_preprocessors (Mixture.run_epoch task shuffle acc ds).
Proof.
  unfold Mixture.run_epoch.
  repeat first [ apply keeps_bind; [|intros ?]
               | apply keeps_split_seed | apply keeps_preps_iter
               | apply keeps_run_preps | apply keeps_ret ].
Qed.

Lemma det_ret {A} (a : A) : store_determined (ret a).
Proof. intros st st' H. now split. Qed.

Lemma det_raise {A} e : store_determined (@raise A e).
Proof. intros st st' H. now split. Qed.

Lemma det_lift {A} (r : Exception + A) : store_determined (lift r).
Proof. intros st st' H. now split. Qed.

Lemma det_bind {A B} (m : Py A) (f : A -> Py B) :
  store_determined m -> (forall a, store_determined (f a)) ->
  store_determined (bind m f).
Proof.
  intros Hm Hf st st' H. unfold bind. destruct (Hm st st' H) as [H1 H2].
  destruct (m st) as [[e|a] st1], (m st') as [[e'|a'] st1'];
    simpl in *; try discriminate.
  - inversion H1; subst. now split.
  - inversion H1; subst. now apply Hf.
Qed.

Lemma det_for_each {A B} (l : list A) (body : B -> A -> Py B) :
  (forall acc x, store_determined (body acc x)) ->
  forall acc, store_determined (for_each l body acc).
Proof.
  intros Hb. induction l as [|x l IH]; intros acc; simpl.
  - apply det_ret.
  - apply det_bind; [apply Hb | exact IH].
Qed.

Lemma det_split_seed (s : Z) : store_determined (Mixture._split_seed (Some s)).
Proof.
  unfold Mixture._split_seed.
  destruct (Mixture.valid_seed s); [apply det_ret | apply det_raise].
Qed.

Lemma det_preps_iter task : store_determined (Mixture.preps_iter task).
Proof.
  intros st st' H. unfold Mixture.preps_iter. rewrite H.
  destruct (preprocessors st' !! task_id task); now split.
Qed.

Lemma det_get_preprocessors task :
  store_determined (Task.get_preprocessors task).
Proof.
  intros st st' H. unfold Task.get_preprocessors. rewrite H.
  destruct (preprocessors st' !! task_id task); now split.
Qed.

Lemma det_source task split :
  store_determined (Task._get_data_source_for_split task split).
Proof.
  unfold Task._get_data_source_for_split.
  destruct (task_source task); [apply det_ret | apply det_raise].
Qed.

Lemma det_num_input_examples task split :
  store_determined (Task.num_input_examples task split).
Proof.
  unfold Task.num_input_examples.
  destruct (task_source task); [apply det_ret | apply det_raise].
Qed.

Lemma det_preps_grow method task more :
  store_determined (Mixture.preps_grow method task more).
Proof.
  intros st st' H. unfold Mixture.preps_grow. rewrite H.
  destruct (preprocessors st' !! task_id task); simpl; [|now split].
  now rewrite ?H.
Qed.

Lemma det_run_preps preps ds seed :
  store_determined (Mixture.run_preps preps ds seed).
Proof.
  apply det_for_each. intros acc x.
  apply det_bind; [apply det_split_seed | intros; apply det_ret].
Qed.

(** With an integer seed every later seed is an integer too. *)
Lemma det_run_epoch task shuffle (s : Z) dss ds :
  store_determined (Mixture.run_epoch task shuffle (Some s, dss) ds).
Proof.
  unfold Mixture.run_epoch.
  repeat first [ apply det_bind; [|intros ?]
               | apply det_split_seed | apply det_preps_iter
               | apply det_run_preps | apply det_ret ].
Qed.

Lemma run_epoch_seed task shuffle acc ds st r st' :
  Mixture.run_epoch task shuffle acc ds st = (inr r, st') ->
  exists s, fst r = Some s.
Proof.
  unfold Mixture.run_epoch, bind, ret. intros H.
  repeat match type of H with
         | context [match ?m with _ => _ end] =>
             destruct m as [[?|?] ?] eqn:?; try discriminate
         end.
  inversion H; subst. simpl. eauto.
Qed.

Lemma det_for_each_inv {A B} (I : B -> Prop) (l : list A)
    (body : B -> A -> Py B) :
  (forall acc x, I acc -> store_determined (body acc x)) ->
  (forall acc x st r st', I acc -> body acc x st = (inr r, st') -> I r) ->
  forall acc, I acc -> store_determined (for_each l body acc).
Proof.
  intros Hb Hinv. induction l as [|x l IH]; intros acc Hacc; simpl.
  - apply det_ret.
  - intros st st' H. unfold bind.
    destruct (Hb acc x Hacc st st' H) as [H1 H2].
    destruct (body acc x st) as [[e|r] st1] eqn:Hst,
             (body acc x st') as [[e'|r'] st1'] eqn:Hst';
      simpl in *; try discriminate.
    + inversion H1; subst. now split.
    + inversion H1; subst. apply IH; [|exact H2].
      now apply (Hinv acc x st r' st1).
Qed.

Lemma det_get_task_lazy_dataset self task sl split fc bs shuffle (s : Z)
    si ne :
  store_determined
    (Mixture.get_task_lazy_dataset self task sl split fc bs shuffle (Some s)
       si ne).
Proof.
  unfold Mixture.get_task_lazy_dataset.
  apply det_bind; [apply det_source | intros src].
  apply det_bind;
    [destruct fc; [apply det_preps_grow | apply det_ret] | intros _].
  apply det_bind;
    [destruct bs as [b|];
     [destruct (b =? 0); [apply det_ret | apply det_preps_grow]
     | apply det_ret] | intros _].
  apply det_bind.
  - apply (det_for_each_inv (fun acc => exists s', fst acc = Some s')).
    + intros [seed dss] x [s' Hs]. simpl in Hs. subst seed.
      apply det_run_epoch.
    + intros acc x st r st' _ Hr. now apply run_epoch_seed in Hr.
    + now exists s.
  - intros r. destruct (snd r) as [|d [|]]; apply det_ret.
Qed.

Lemma keeps_get_task_lazy_dataset self task sl split shuffle seed si ne :
  keeps_preprocessors
    (Mixture.get_task_lazy_dataset self task sl split None None shuffle seed
       si ne).
Proof.
  unfold Mixture.get_task_lazy_dataset.
  apply keeps_bind; [apply keeps_source | intros src].
  apply keeps_bind; [apply keeps_ret | intros _].
  apply keeps_bind; [apply keeps_ret | intros _].
  apply keeps_bind.
  - apply keeps_for_each. intros acc x. apply keeps_run_epoch.
  - intros r. destruct (snd r) as [|d [|]]; apply keeps_ret.
Qed.

Lemma det_get_lazy_dataset self sl split fc bs shuffle (s : Z) si ne :
  store_determined
    (Mixture.get_lazy_dataset self sl split fc bs shuffle (Some s) si ne).
Proof.
  unfold Mixture.get_lazy_dataset.
  destruct (negb (is_some ne) && shuffle); [apply det_raise|].
  apply det_bind; [|intros r; apply det_ret].
  apply det_for_each. intros acc task.
  apply det_bind; [apply det_get_task_lazy_dataset | intros ds].
  apply det_bind; [apply det_lift | intros p; apply det_ret].
Qed.

Lemma keeps_get_lazy_dataset self sl split fc bs shuffle seed si ne :
  keeps_preprocessors
    (Mixture.get_lazy_dataset self sl split fc bs shuffle seed si ne).
Proof.
  unfold Mixture.get_lazy_dataset.
  destruct (negb (is_some ne) && shuffle); [apply keeps_raise|].
  apply keeps_bind; [|intros r; apply keeps_ret].
  apply keeps_for_each. intros acc task.
  apply keeps_bind; [apply keeps_get_task_lazy_dataset | intros ds].
  apply keeps_bind; [apply keeps_lift | intros p; apply keeps_ret].
Qed.

Lemma det_Mixture_get_dataset self sl split fc bs shuffle (s : Z) si ne :
  store_determined
    (Mixture.get_dataset self sl split fc bs shuffle (Some s) si ne).
Proof.
  unfold Mixture.get_dataset.
  apply det_bind; [apply det_get_lazy_dataset | intros ds].
  apply det_bind; [apply det_lift | intros sampler; apply det_ret].
Qed.

Lemma keeps_Mixture_get_dataset self sl split fc bs shuffle seed si ne :
  keeps_preprocessors
    (Mixture.get_dataset self sl split fc bs shuffle seed si ne).
Proof.
  unfold Mixture.get_dataset.
  apply keeps_bind; [apply keeps_get_lazy_dataset | intros ds].
  apply keeps_bind; [apply keeps_lift | intros sampler; apply keeps_ret].
Qed.

Lemma det_Task_get_dataset self sl split fc bs shuffle seed si ne :
  store_determined (Task.get_dataset self sl split fc bs shuffle seed si ne).
Proof.
  unfold Task.get_dataset.
  apply det_bind; [apply det_num_input_examples | intros n].
  apply det_bind; [apply det_lift | intros sampler].
  apply det_bind; [apply det_source | intros src].
  apply det_bind; [apply det_get_preprocessors | intros ops; apply det_ret].
Qed.

(** [Task.get_dataset] does not write at all. *)
Lemma Task_get_dataset_state self sl split fc bs shuffle seed si ne st :
  snd (Task.get_dataset self sl split fc bs shuffle seed si ne st) = st.
Proof.
  unfold Task.get_dataset, Task.num_input_examples,
    Task._get_data_source_for_split, Task.get_preprocessors, bind, ret, raise,
    lift.
  destruct (task_source self); [|reflexivity].
  destruct (IndexSampler.init _ _ _ _ _); [reflexivity|].
  destruct (preprocessors st !! task_id self); reflexivity.
Qed.

Lemma repeatable_of {A} (m : Py A) :
  store_determined m -> keeps_preprocessors m -> forall st, repeatable m st.
Proof. intros Hd Hk st. apply Hd, Hk. Qed.
End MonadFacts.

Section Mutation.
Context `{E : Externals}.

Lemma bind_state {A B} (m : Py A) (f : A -> Py B) st a st1 :
  m st = (inr a, st1) -> bind m f st = f a st1.
Proof. intros H. unfold bind. now rewrite H. Qed.

Lemma preps_grow_state method task more st l :
  preprocessors st !! task_id task = Some l ->
  Mixture.preps_grow method task more st
  = (inr tt,
     {| preprocessors := <[task_id task := l ++ more]> (preprocessors st);
        os_entropy := os_entropy st;
        entropy_drawn := entropy_drawn st |}).
Proof. intros H. unfold Mixture.preps_grow. now rewrite H. Qed.

Lemma get_task_lazy_dataset_store self task sl split fc bs shuffle seed si
    ne st src l :
  task_source task = Some src ->
  preprocessors st !! task_id task = Some l ->
  preprocessors
    (snd (Mixture.get_task_lazy_dataset self task sl split fc bs shuffle
            seed si ne st))
  = <[task_id task := l ++ appended sl fc bs]> (preprocessors st).
Proof.
  intros Hsrc Hl. unfold Mixture.get_task_lazy_dataset, appended.
  erewrite bind_state
    by (unfold Task._get_data_source_for_split; rewrite Hsrc; reflexivity).
  destruct fc as [c|]; cbv beta iota.
  - erewrite bind_state; [|apply preps_grow_state; exact Hl].
    destruct bs as [b|]; [destruct (b =? 0)|]; cbv beta iota.
    + erewrite bind_state by reflexivity.
      rewrite keeps_bind; [now rewrite app_nil_r| |].
      * apply keeps_for_each. intros. apply keeps_run_epoch.
      * intros r. destruct (snd r) as [|d [|]]; apply keeps_ret.
    + erewrite bind_state;
        [|apply preps_grow_state; simpl; apply lookup_insert_eq].
      rewrite keeps_bind.
      * simpl. now rewrite insert_insert_eq, <- app_assoc.
      * apply keeps_for_each. intros. apply keeps_run_epoch.
      * intros r. destruct (snd r) as [|d [|]]; apply keeps_ret.
    + erewrite bind_state by reflexivity.
      rewrite keeps_bind; [now rewrite app_nil_r| |].
      * apply keeps_for_each. intros. apply keeps_run_epoch.
      * intros r. destruct (snd r) as [|d [|]]; apply keeps_ret.
  - erewrite bind_state by reflexivity.
    destruct bs as [b|]; [destruct (b =? 0)|]; cbv beta iota.
    + erewrite bind_state by reflexivity.
      rewrite keeps_bind; [rewrite app_nil_r; symmetry; now apply insert_id| |].
      * apply keeps_for_each. intros. apply keeps_run_epoch.
      * intros r. destruct (snd r) as [|d [|]]; apply keeps_ret.
    + erewrite bind_state; [|apply preps_grow_state; exact Hl].
      rewrite keeps_bind; [reflexivity| |].
      * apply keeps_for_each. intros. apply keeps_run_epoch.
      * intros r. destruct (snd r) as [|d [|]]; apply keeps_ret.
    + erewrite bind_state by reflexivity.
      rewrite keeps_bind; [rewrite app_nil_r; symmetry; now apply insert_id| |].
      * apply keeps_for_each. intros. apply keeps_run_epoch.
      * intros r. destruct (snd r) as [|d [|]]; apply keeps_ret.
Qed.
End Mutation.

(** C10. [Mixture.get_task_lazy_dataset] works on the Task's own
    preprocessor list: for a Task whose source is set and whose list is [l],
    after the call the list is [l] followed by the feature-converter
    transforms (if a converter is given) and a batch operation (if
    [batch_size] is set and not zero), and a second call appends them once
    more.  With no converter and no batch size the store is as before,
    which is how [get_lazy_dataset] calls it: it leaves every list as it
    was.  [Task.get_dataset] extends a copy: it never writes to the store,
    whatever it is given; the loader it returns has the chain [l] followed
    by the converter's transforms and [BatchOperation(batch_size, False)];
    and it does return that loader when the source reports a positive
    number of records and [grain.IndexSampler] accepts the epochs, the
    shuffling and the seed. *)
Theorem get_task_lazy_dataset_extends_task_preprocessors `{E : Externals}
    (self : Mixture) (task : Task) sequence_lengths split feature_converter
    batch_size shuffle seed shard_info num_epochs (st : State) src l :
  task_source task = Some src ->
  preprocessors st !! task_id task = Some l ->
  let added := appended sequence_lengths feature_converter batch_size in
  let call :=
    Mixture.get_task_lazy_dataset self task sequence_lengths split
      feature_converter batch_size shuffle seed shard_info num_epochs in
  let get :=
    Task.get_dataset task sequence_lengths split feature_converter batch_size
      shuffle seed shard_info num_epochs in
  let copy :=
    l
    ++ match feature_converter with
       | Some c => get_transforms c sequence_lengths
       | None => []
       end
    ++ match batch_size with
       | Some b => if b =? 0 then [] else [BatchOperation b false]
       | None => []
       end in
  preprocessors (snd (call st))
  = <[task_id task := l ++ added]> (preprocessors st)
  /\ preprocessors (snd (call (snd (call st)))) !! task_id task
     = Some ((l ++ added) ++ added)
  /\ (feature_converter = None -> truthy_int batch_size = false ->
      preprocessors (snd (call st)) = preprocessors st)
  /\ (forall m sl sp fc bs sh sd si ne,
        preprocessors
          (snd (Mixture.get_lazy_dataset m sl sp fc bs sh sd si ne st))
        = preprocessors st)
  /\ snd (get st) = st
  /\ (forall it, fst (get st) = inr it -> operations it = copy)
  /\ (forall n,
        ds_num_input_examples src split = Some n -> 0 < n ->
        (forall e, num_epochs = Some e -> 0 < e) ->
        (shuffle = true -> seed <> None) ->
        (forall s, seed = Some s -> 0 <= s < 2 ^ 32) ->
        get st
        = (inr (PyGrainDatasetIteratorWrapper
                  (FromDataSource (ds_get_data_source src split))
                  (mkIndexSampler (NumRecordsOf (Some n))
                     match shard_info with
                     | None => NoSharding
                     | Some si => mkShardOptions (index si) (num_shards si)
                     end shuffle num_epochs seed)
                  copy), st)).
Proof.
  intros Hsrc Hl added call get copy.
  change copy
    with (combined_chain l sequence_lengths feature_converter batch_size).
  assert (H1 : preprocessors (snd (call st))
               = <[task_id task := l ++ added]> (preprocessors st))
    by now apply get_task_lazy_dataset_store with src.
  split; [exact H1|]. split; [|split; [|split; [|split; [|split]]]].
  - unfold call at 1.
    rewrite (get_task_lazy_dataset_store _ _ _ _ _ _ _ _ _ _ _ src
               (l ++ added)); [apply lookup_insert_eq | exact Hsrc |].
    rewrite H1. apply lookup_insert_eq.
  - intros -> Hbs. rewrite H1. unfold added, appended.
    destruct batch_size as [b|]; simpl in *.
    + destruct (b =? 0); [|discriminate]. rewrite app_nil_r.
      now apply insert_id.
    + rewrite app_nil_r. now apply insert_id.
  - intros. apply keeps_get_lazy_dataset.
  - apply Task_get_dataset_state.
  - intros it. unfold get, Task.get_dataset, Task.num_input_examples,
      Task._get_data_source_for_split, Task.get_preprocessors, bind, ret, lift.
    rewrite Hsrc, Hl.
    destruct (IndexSampler.init _ _ _ _ _) as [e|sampler0]; [discriminate|].
    simpl. intros Hit. inversion Hit. simpl.
    apply with_converter_and_batch_chain.
  - intros n Hn Hpos He Hsh Hs.
    unfold get, Task.get_dataset, Task.num_input_examples,
      Task._get_data_source_for_split, Task.get_preprocessors, bind, ret, lift.
    rewrite Hsrc, Hn, Hl.
    rewrite (init_accepts n _ shuffle num_epochs seed Hpos He Hsh Hs).
    unfold Task._load_data. now rewrite with_converter_and_batch_chain.
Qed.

Lemma get_task_lazy_dataset_extends_task_preprocessors_witness :
  preprocessors
    (snd (@Mixture.get_task_lazy_dataset Sample.externals Sample.M Sample.A
            None "train" (Some Sample.converter) (Some 4) true (Some 0) None
            (Some 1) Sample.state)) !! 1
  = Some [Sample.op1; Sample.op2; Transformation "convert"; Batch 4 None].
Proof.
  rewrite (proj1 (@get_task_lazy_dataset_extends_task_preprocessors
                    Sample.externals Sample.M Sample.A None "train"%string
                    (Some Sample.converter) (Some 4) true (Some 0) None
                    (Some 1) Sample.state Sample.source
                    [Sample.op1; Sample.op2] eq_refl eq_refl)).
  apply lookup_insert_eq.
Defined.

(** C3, as the code has it.  The dataset a call of [get_dataset] builds is
    decided by the configuration and the preprocessor lists of the Tasks:
    for a Task with any seed, and for a Mixture with an integer seed, two
    successive calls build the same loader, and so do calls from states that
    differ only in what the operating system's entropy would give.  (With
    [seed=None] a Mixture draws its seeds from that entropy.) *)
Theorem get_dataset_repeatable `{E : Externals} :
  (forall (self : Task) sequence_lengths split feature_converter batch_size
          shuffle seed shard_info num_epochs st st',
     let call :=
       Task.get_dataset self sequence_lengths split feature_converter
         batch_size shuffle seed shard_info num_epochs in
     repeatable call st
     /\ (preprocessors st = preprocessors st' -> fst (call st) = fst (call st')))
  /\ (forall (self : Mixture) sequence_lengths split feature_converter
             batch_size shuffle (seed : Z) shard_info num_epochs st st',
        let call :=
          Mixture.get_dataset self sequence_lengths split feature_converter
            batch_size shuffle (Some seed) shard_info num_epochs in
        repeatable call st
        /\ (preprocessors st = preprocessors st' ->
            fst (call st) = fst (call st'))).
Proof.
  split; intros; split.
  - unfold repeatable, call. now rewrite Task_get_dataset_state.
  - intros H. now apply det_Task_get_dataset.
  - apply repeatable_of;
      [apply det_Mixture_get_dataset | apply keeps_Mixture_get_dataset].
  - intros H. now apply det_Mixture_get_dataset.
Qed.

Lemma get_dataset_repeatable_witness :
  repeatable
    (@Mixture.get_dataset Sample.externals Sample.M None "train" None None
       true (Some 0) None (Some 2)) Sample.state.
Proof.
  exact (proj1 (proj2 (@get_dataset_repeatable Sample.externals) Sample.M None
                  "train"%string None None true 0 None (Some 2) Sample.state
                  Sample.state)).
Defined.

(** ** Mixing without an end *)




Example get_lazy_dataset_unbounded_sample :
  fst (@Mixture.get_lazy_dataset Sample.externals Sample.N None "train" None
         None false (Some 0) None None Sample.state)
  = inr (RepeatLazyMapDataset
           (MixedLazyMapDataset
              [LazyDatasetTransform Sample.op1
                 (SourceLazyMapDataset (TfdsDataSource "train")) (Some 599);
               LazyDatasetTransform Sample.op1
                 (SourceLazyMapDataset (TfdsDataSource "train")) (Some 599)]
              [3%float; 1%float] true) None).
Proof. vm_compute. reflexivity. Qed.

(** ** The seed tree of a call *)

Section SeedTreeFacts.
Context `{E : Externals} {HR : RandintSpec E}.

Lemma iter_shift {A} (f : A -> A) n x :
  Nat.iter n f (f x) = f (Nat.iter n f x).
Proof. induction n as [|n IH]; simpl; [reflexivity | now rewrite IH]. Qed.

Lemma split_fst_range s : seed_in_range (split_fst s).
Proof. apply (randint_pair_range s). Qed.

Lemma split_snd_range s : seed_in_range (split_snd s).
Proof. apply (randint_pair_range s). Qed.

(** Every seed the code derives is one numpy accepts. *)
Lemma seed_in_range_valid s : seed_in_range s -> Mixture.valid_seed s = true.
Proof.
  unfold seed_in_range, Mixture.valid_seed. intros H.
  apply andb_true_intro. split; [apply Z.leb_le | apply Z.ltb_lt]; lia.
Qed.

Lemma split_seed_valid s st :
  Mixture.valid_seed s = true ->
  Mixture._split_seed (Some s) st = (inr (randint_pair s), st).
Proof. intros H. unfold Mixture._split_seed. now rewrite H. Qed.

Lemma run_preps_spec preps : forall ds prep_seed st,
  Mixture.valid_seed prep_seed = true ->
  Mixture.run_preps preps ds prep_seed st
  = (inr (apply_preps preps ds prep_seed,
          Nat.iter (length preps) split_fst prep_seed), st).
Proof.
  unfold Mixture.run_preps.
  induction preps as [|p preps IH]; intros ds q st Hq; [reflexivity|].
  cbn [for_each]. unfold bind at 1. cbn [fst snd].
  erewrite bind_state by (now apply split_seed_valid).
  unfold ret at 1. change (fst (randint_pair q)) with (split_fst q).
  rewrite IH by apply seed_in_range_valid, split_fst_range.
  cbn [apply_preps length Nat.iter]. now rewrite iter_shift.
Qed.

Lemma run_epoch_spec task shuffle (e : Z) acc ds st preps :
  Mixture.valid_seed e = true ->
  preprocessors st !! task_id task = Some preps ->
  Mixture.run_epoch task shuffle (Some e, acc) ds st
  = (inr (Some (split_fst e), acc ++ [epoch_dataset preps shuffle ds e]), st).
Proof.
  intros He Hl. unfold Mixture.run_epoch. cbn [fst snd].
  erewrite bind_state by (now apply split_seed_valid).
  change (snd (randint_pair e)) with (split_snd e).
  erewrite bind_state
    by (apply split_seed_valid, seed_in_range_valid, split_snd_range).
  erewrite bind_state by (unfold Mixture.preps_iter; now rewrite Hl).
  erewrite bind_state
    by (apply run_preps_spec, seed_in_range_valid, split_fst_range).
  reflexivity.
Qed.

Lemma epochs_spec task shuffle st preps dss :
  preprocessors st !! task_id task = Some preps ->
  forall (e : Z) acc,
    Mixture.valid_seed e = true ->
    for_each dss (Mixture.run_epoch task shuffle) (Some e, acc) st
    = (inr (Some (Nat.iter (length dss) split_fst e),
            acc ++ epoch_datasets preps shuffle dss e), st).
Proof.
  intros Hl. induction dss as [|ds dss IH]; intros e acc He; simpl.
  - now rewrite app_nil_r.
  - unfold bind. rewrite (run_epoch_spec _ _ _ _ _ _ preps He Hl).
    rewrite IH by apply seed_in_range_valid, split_fst_range.
    now rewrite <- app_assoc, iter_shift.
Qed.

Lemma get_task_lazy_dataset_spec self task sl split fc bs shuffle (seed : Z)
    si ne st src l :
  Mixture.valid_seed seed = true ->
  task_source task = Some src ->
  preprocessors st !! task_id task = Some l ->
  Mixture.get_task_lazy_dataset self task sl split fc bs shuffle (Some seed)
    si ne st
  = (inr (combine_epochs
            (epoch_datasets (l ++ appended sl fc bs) shuffle
               (epoch_sources (ds_get_data_source src split) si ne) seed)),
     {| preprocessors :=
          <[task_id task := l ++ appended sl fc bs]> (preprocessors st);
        os_entropy := os_entropy st;
        entropy_drawn := entropy_drawn st |}).
Proof.
  intros Hseed Hsrc Hl.
  assert (Htail : forall st2 preps,
    preprocessors st2 !! task_id task = Some preps ->
    bind (for_each (epoch_sources (ds_get_data_source src split) si ne)
            (Mixture.run_epoch task shuffle) (Some seed, []))
         (fun r => match snd r with
                   | [ds] => ret ds
                   | _ => ret (ConcatLazyMapDataset (snd r))
                   end) st2
    = (inr (combine_epochs
              (epoch_datasets preps shuffle
                 (epoch_sources (ds_get_data_source src split) si ne) seed)),
       st2)).
  { intros st2 preps H2. unfold bind.
    rewrite (epochs_spec _ _ _ preps _ H2) by exact Hseed.
    simpl. unfold combine_epochs.
    destruct (epoch_datasets _ _ _ _) as [|d [|]]; reflexivity. }
  unfold Mixture.get_task_lazy_dataset, appended.
  erewrite bind_state
    by (unfold Task._get_data_source_for_split; rewrite Hsrc; reflexivity).
  fold (epoch_sources (ds_get_data_source src split) si ne).
  destruct fc as [c|]; cbv beta iota.
  - erewrite bind_state; [|apply preps_grow_state; exact Hl].
    destruct bs as [b|]; [destruct (b =? 0)|]; cbv beta iota.
    + erewrite bind_state by reflexivity.
      rewrite (Htail _ (l ++ get_transforms c sl)) by apply lookup_insert_eq.
      now rewrite app_nil_r.
    + erewrite bind_state;
        [|apply preps_grow_state; simpl; apply lookup_insert_eq].
      rewrite (Htail _ ((l ++ get_transforms c sl) ++ [Batch b None]))
        by apply lookup_insert_eq.
      simpl. now rewrite insert_insert_eq, <- app_assoc.
    + erewrite bind_state by reflexivity.
      rewrite (Htail _ (l ++ get_transforms c sl)) by apply lookup_insert_eq.
      now rewrite app_nil_r.
  - erewrite bind_state by reflexivity.
    destruct bs as [b|]; [destruct (b =? 0)|]; cbv beta iota.
    + erewrite bind_state by reflexivity.
      rewrite (Htail _ l Hl). simpl. rewrite app_nil_r.
      rewrite insert_id by exact Hl. now destruct st.
    + erewrite bind_state; [|apply preps_grow_state; exact Hl].
      rewrite (Htail _ (l ++ [Batch b None])) by apply lookup_insert_eq.
      reflexivity.
    + erewrite bind_state by reflexivity.
      rewrite (Htail _ l Hl). simpl. rewrite app_nil_r.
      rewrite insert_id by exact Hl. now destruct st.
Qed.
End SeedTreeFacts.

Section SeedsOfTheGraph.
Context `{E : Externals}.

Lemma transform_seeds_apply_preps preps : forall ds q,
  transform_seeds (apply_preps preps ds q)
  = transform_seeds ds
    ++ map (fun j => Some (Nat.iter j split_fst q)) (seq 0 (length preps)).
Proof.
  induction preps as [|p preps IH]; intros ds q; simpl.
  - now rewrite app_nil_r.
  - rewrite IH. simpl. rewrite <- app_assoc. simpl. do 2 f_equal.
    rewrite <- seq_shift, map_map. apply map_ext. intros j.
    now rewrite iter_shift.
Qed.

Lemma shuffle_seeds_apply_preps preps : forall ds q,
  shuffle_seeds (apply_preps preps ds q) = shuffle_seeds ds.
Proof.
  induction preps as [|p preps IH]; intros ds q; simpl; [reflexivity|].
  now rewrite IH.
Qed.

Lemma epoch_sources_unseeded src si ne :
  Forall unseeded (epoch_sources src si ne).
Proof.
  unfold epoch_sources.
  assert (H : unseeded match si with
                       | Some si0 =>
                           ShardLazyMapDataset (SourceLazyMapDataset src)
                             (mkShardOptions (index si0) (num_shards si0))
                       | None => SourceLazyMapDataset src
                       end) by (destruct si; split; reflexivity).
  destruct ne as [n|]; [destruct (n =? 0)|];
    try (constructor; [exact H | constructor]).
  apply Forall_forall. intros x Hx. apply list_elem_of_In, repeat_spec in Hx.
  now subst.
Qed.

Lemma length_epoch_sources src si ne :
  length (epoch_sources src si ne)
  = match ne with
    | Some n => if n =? 0 then 1%nat else Z.to_nat n
    | None => 1%nat
    end.
Proof.
  unfold epoch_sources. destruct ne as [n|]; [destruct (n =? 0)|];
    try reflexivity. apply repeat_length.
Qed.

Lemma transform_seeds_epochs preps shuffle (seed : Z) dss :
  Forall unseeded dss ->
  forall k0,
    flat_map transform_seeds
      (epoch_datasets preps shuffle dss (epoch_seed seed k0))
    = flat_map (fun k => map (fun j => Some (prep_seed_of seed k j))
                           (seq 0 (length preps)))
        (seq k0 (length dss)).
Proof.
  induction 1 as [|ds dss [Hds _] _ IH]; intros k0; simpl; [reflexivity|].
  f_equal.
  - unfold epoch_dataset.
    assert (Ht : transform_seeds
                   (apply_preps preps ds
                      (split_fst (split_snd (epoch_seed seed k0))))
                 = map (fun j => Some (prep_seed_of seed k0 j))
                     (seq 0 (length preps))).
    { now rewrite transform_seeds_apply_preps, Hds. }
    destruct shuffle; exact Ht.
  - apply (IH (S k0)).
Qed.

Lemma shuffle_seeds_epochs preps shuffle (seed : Z) dss :
  Forall unseeded dss ->
  forall k0,
    flat_map shuffle_seeds
      (epoch_datasets preps shuffle dss (epoch_seed seed k0))
    = if shuffle then map (shuffle_seed_of seed) (seq k0 (length dss))
      else [].
Proof.
  induction 1 as [|ds dss [_ Hds] _ IH]; intros k0; simpl.
  - now destruct shuffle.
  - change (split_fst (epoch_seed seed k0)) with (epoch_seed seed (S k0)).
    rewrite (IH (S k0)). unfold epoch_dataset.
    destruct shuffle; simpl; now rewrite shuffle_seeds_apply_preps, Hds.
Qed.

Lemma transform_seeds_combine l :
  transform_seeds (combine_epochs l) = flat_map transform_seeds l.
Proof.
  destruct l as [|d [|d' l]]; simpl; try reflexivity. now rewrite app_nil_r.
Qed.

Lemma shuffle_seeds_combine l :
  shuffle_seeds (combine_epochs l) = flat_map shuffle_seeds l.
Proof.
  destruct l as [|d [|d' l]]; simpl; try reflexivity. now rewrite app_nil_r.
Qed.

Lemma length_flat_map_const {A B} (f : A -> list B) (l : list A) n :
  (forall x, length (f x) = n) -> length (flat_map f l) = (length l * n)%nat.
Proof.
  intros H. induction l as [|x l IH]; simpl; [reflexivity|].
  rewrite length_app, H, IH. lia.
Qed.

(** More seeds than there are values in [0, 2**16 - 1) cannot differ. *)
Lemma seeds_pigeonhole (l : list (option Z)) :
  (forall o, In o l -> exists z, o = Some z /\ seed_in_range z) ->
  NoDup l -> (length l <= Z.to_nat (2 ^ 16 - 1))%nat.
Proof.
  intros Hr Hnd.
  set (all := map (fun i => Some (Z.of_nat i)) (seq 0 (Z.to_nat (2 ^ 16 - 1)))).
  assert (Hlen : length all = Z.to_nat (2 ^ 16 - 1))
    by (unfold all; now rewrite length_map, length_seq).
  rewrite <- Hlen. apply submseteq_length, NoDup_submseteq; [exact Hnd|].
  intros o Ho. apply list_elem_of_In in Ho.
  destruct (Hr o Ho) as [z [-> Hz]]. apply list_elem_of_In.
  unfold all. apply in_map_iff. exists (Z.to_nat z). unfold seed_in_range in Hz.
  split; [f_equal; lia | apply in_seq; lia].
Qed.
End SeedsOfTheGraph.

Section SeedTreeOfACall.
Context `{E : Externals} {HR : RandintSpec E}.

Lemma prep_seed_of_range seed k j : seed_in_range (prep_seed_of seed k j).
Proof. unfold prep_seed_of. destruct j; simpl; apply split_fst_range. Qed.

Lemma shuffle_seed_of_range seed k : seed_in_range (shuffle_seed_of seed k).
Proof. apply split_snd_range. Qed.

Lemma seed_tree_of_call self task sl split fc bs shuffle (seed : Z) si ne
    st src l :
  0 <= seed < 2 ^ 32 ->
  task_source task = Some src ->
  preprocessors st !! task_id task = Some l ->
  exists ds,
    fst (Mixture.get_task_lazy_dataset self task sl split fc bs shuffle
           (Some seed) si ne st) = inr ds
    /\ transform_seeds ds
       = seed_tree_preps seed (epochs_made ne)
           (length (l ++ appended sl fc bs))
    /\ shuffle_seeds ds
       = (if shuffle then map (shuffle_seed_of seed) (seq 0 (epochs_made ne))
          else [])
    /\ ((epochs_made ne * length (l ++ appended sl fc bs)
         > Z.to_nat (2 ^ 16 - 1))%nat ->
        ~ NoDup (transform_seeds ds)).
Proof.
  intros Hseed Hsrc Hl.
  assert (Hvalid : Mixture.valid_seed seed = true).
  { unfold Mixture.valid_seed. apply andb_true_intro.
    split; [apply Z.leb_le | apply Z.ltb_lt]; lia. }
  rewrite (get_task_lazy_dataset_spec _ _ _ _ _ _ _ _ _ _ _ src l Hvalid Hsrc
             Hl).
  eexists. split; [reflexivity|].
  pose proof (epoch_sources_unseeded (ds_get_data_source src split) si ne)
    as Hun.
  pose proof (length_epoch_sources (ds_get_data_source src split) si ne)
    as Hlen.
  assert (Ht : transform_seeds
             (combine_epochs
                (epoch_datasets (l ++ appended sl fc bs) shuffle
                   (epoch_sources (ds_get_data_source src split) si ne) seed))
           = seed_tree_preps seed (epochs_made ne)
               (length (l ++ appended sl fc bs))).
  { rewrite transform_seeds_combine.
    rewrite (transform_seeds_epochs _ _ seed _ Hun 0%nat), Hlen.
    reflexivity. }
  split; [exact Ht|]. split.
  - rewrite shuffle_seeds_combine.
    rewrite (shuffle_seeds_epochs _ _ seed _ Hun 0%nat), Hlen. reflexivity.
  - intros Hmany Hnd. rewrite Ht in Hnd.
    apply seeds_pigeonhole in Hnd.
    + unfold seed_tree_preps in Hnd.
      rewrite (length_flat_map_const _ _ (length (l ++ appended sl fc bs)))
        in Hnd by (intros; now rewrite length_map, length_seq).
      rewrite length_seq in Hnd. lia.
    + intros o Ho. unfold seed_tree_preps in Ho.
      apply in_flat_map in Ho as [k [_ Ho]].
      apply in_map_iff in Ho as [j [<- _]].
      eexists. split; [reflexivity | apply prep_seed_of_range].
Qed.
End SeedTreeOfACall.

(** C2, as the code has it.  For an integer seed that numpy accepts
    ([0 <= seed < 2**32]), the seeds of
    [get_task_lazy_dataset] are those of the tree the loops walk: epoch [k]
    starts from the [k]-th iterate of the first draw on the seed; its prep
    seed is the second draw of a split of that; the shuffle seed is the
    second draw of a split of the prep seed, and preprocessor [j] gets the
    [j]-th iterate of the first draw, starting from the first draw of that
    split.  Each of them lies in [0, 2**16 - 1); they need not differ, and
    when more than [2**16 - 1] preprocessor applications are made two of
    them have the same seed. *)
Theorem get_task_lazy_dataset_seed_tree `{E : Externals} {HR : RandintSpec E}
    (self : Mixture) (task : Task) sequence_lengths split feature_converter
    batch_size shuffle (seed : Z) shard_info num_epochs (st : State) src l :
  0 <= seed < 2 ^ 32 ->
  task_source task = Some src ->
  preprocessors st !! task_id task = Some l ->
  let n_preps :=
    length (l ++ appended sequence_lengths feature_converter batch_size) in
  let epochs := epochs_made num_epochs in
  exists ds,
    fst (Mixture.get_task_lazy_dataset self task sequence_lengths split
           feature_converter batch_size shuffle (Some seed) shard_info
           num_epochs st) = inr ds
    /\ transform_seeds ds = seed_tree_preps seed epochs n_preps
    /\ shuffle_seeds ds
       = (if shuffle then map (shuffle_seed_of seed) (seq 0 epochs) else [])
    /\ (forall k j, seed_in_range (prep_seed_of seed k j)
                    /\ seed_in_range (shuffle_seed_of seed k))
    /\ ((epochs * n_preps > Z.to_nat (2 ^ 16 - 1))%nat ->
        ~ NoDup (transform_seeds ds)).
Proof.
  intros Hseed Hsrc Hl n_preps epochs.
  destruct (seed_tree_of_call self task sequence_lengths split
              feature_converter batch_size shuffle seed shard_info num_epochs
              st src l Hseed Hsrc Hl) as [ds (H1 & H2 & H3 & H4)].
  exists ds. repeat split; try assumption.
  - apply prep_seed_of_range.
  - apply prep_seed_of_range.
  - apply shuffle_seed_of_range.
  - apply shuffle_seed_of_range.
Qed.

Lemma Sample_randint_spec : RandintSpec Sample.externals.
Proof.
  split. intros s. simpl.
  pose proof (Z.mod_pos_bound (75 * s + 74) 65535 ltac:(lia)).
  pose proof (Z.mod_pos_bound (31 * s + 7) 65535 ltac:(lia)).
  change (2 ^ 16 - 1) with 65535. lia.
Qed.

Lemma get_task_lazy_dataset_seed_tree_witness :
  exists ds,
    fst (@Mixture.get_task_lazy_dataset Sample.externals Sample.M Sample.A
           None "train" None None true (Some 0) None (Some 2) Sample.state)
    = inr ds
    /\ transform_seeds ds = [Some 599; Some 44999; Some 41579; Some 38354]
    /\ shuffle_seeds ds = [224; 5803].
Proof.
  destruct (@get_task_lazy_dataset_seed_tree Sample.externals
              Sample_randint_spec Sample.M Sample.A None "train"%string None
              None true 0 None (Some 2) Sample.state Sample.source
              [Sample.op1; Sample.op2] ltac:(lia) eq_refl eq_refl)
    as [ds (H1 & H2 & H3 & _)].
  exists ds. split; [exact H1|]. split.
  - rewrite H2. vm_compute. reflexivity.
  - rewrite H3. vm_compute. reflexivity.
Defined.

(** C2 as stated fails: with one preprocessor and [num_epochs=65536] there
    are more preprocessor applications than [randint(0, 2**16 - 1)] has
    values, so whatever the generator, the call returns a dataset in which
    two applications have one seed. *)
Lemma seeds_collide_counterexample :
  ~ exists E : Externals,
      RandintSpec E
      /\ forall ds,
           fst (@Mixture.get_task_lazy_dataset E Sample.N Sample.B None "train"
                  None None false (Some 0) None (Some 65536) Sample.state)
           = inr ds ->
           NoDup (all_seeds ds).
Proof.
  intros [E [HR Hall]].
  destruct (@seed_tree_of_call E HR Sample.N Sample.B None "train"%string None
              None false 0 None (Some 65536) Sample.state Sample.source
              [Sample.op1] ltac:(lia) eq_refl eq_refl)
    as [ds (H1 & _ & _ & Hcol)].
  specialize (Hall ds H1). unfold all_seeds in Hall.
  apply NoDup_app in Hall as [Hnd _]. apply Hcol; [|exact Hnd].
  change (epochs_made (Some 65536)) with (Z.to_nat 65536).
  change (length ([Sample.op1] ++ appended None None None)) with 1%nat.
  lia.
Qed.

(** ** Calls without a seed *)

Section Unseeded.
Context `{E : Externals} {HR : RandintSpec E}.

Lemma for_each_one {A B} (x : A) (body : B -> A -> Py B) acc st r st' :
  body acc x st = (inr r, st') -> for_each [x] body acc st = (inr r, st').
Proof. intros H. simpl. unfold bind. now rewrite H. Qed.

Lemma run_epoch_unseeded task shuffle acc ds st preps :
  seed_in_range (snd (next_entropy st)) ->
  preprocessors st !! task_id task = Some preps ->
  Mixture.run_epoch task shuffle (None, acc) ds st
  = (inr (Some (fst (next_entropy st)),
          acc ++ [let prep_seed := snd (next_entropy st) in
                  let ds := apply_preps preps ds (split_fst prep_seed) in
                  if shuffle
                  then ShuffleLazyMapDataset ds (split_snd prep_seed)
                  else ds]),
     drawn st).
Proof.
  intros Hr Hl. unfold Mixture.run_epoch. cbn [fst snd].
  erewrite bind_state by reflexivity.
  erewrite bind_state by (now apply split_seed_valid, seed_in_range_valid).
  erewrite bind_state
    by (unfold Mixture.preps_iter; cbn [preprocessors]; now rewrite Hl).
  erewrite bind_state
    by (apply run_preps_spec, seed_in_range_valid, split_fst_range).
  reflexivity.
Qed.

Context {HS : SetIterSpec E}.

Lemma set_iter_singleton (t : Task) : set_iter [t] = [t].
Proof.
  pose proof (set_iter_incl [t]) as Hincl.
  pose proof (set_iter_NoDup [t]) as Hnd.
  pose proof (set_iter_complete [t] t (or_introl eq_refl)) as Hc.
  destruct (set_iter [t]) as [|u [|v l]]; simpl in *; [tauto| |].
  - destruct (Hincl u (or_introl eq_refl)) as [->|[]]. reflexivity.
  - exfalso.
    destruct (Hincl u (or_introl eq_refl)) as [<-|[]].
    destruct (Hincl v (or_intror (or_introl eq_refl))) as [<-|[]].
    apply NoDup_cons in Hnd as [Hnd _]. apply Hnd. now left.
Qed.

(** The sampler of [Mixture.get_dataset] (no shuffling, one epoch) is
    accepted when the dataset has records and the seed is one the sampler
    takes. *)
Lemma init_accepts_len ds seed :
  0 < lazy_len ds ->
  (forall s, seed = Some s -> 0 <= s < 2 ^ 32) ->
  IndexSampler.init (LenOf ds) NoSharding false (Some 1) seed
  = inr (mkIndexSampler (LenOf ds) NoSharding false (Some 1) seed).
Proof.
  intros Hlen Hs. unfold IndexSampler.init. cbn [ebind].
  destruct (Z.leb_spec (lazy_len ds) 0); [lia|]. simpl.
  destruct seed as [s|]; [|reflexivity]. specialize (Hs s eq_refl).
  destruct (Z.ltb_spec s 0); [lia|].
  destruct (Z.leb_spec (2 ^ 32) s); [lia|]. reflexivity.
Qed.

Lemma get_dataset_single_unseeded st :
  (forall ds, 0 < lazy_len ds) ->
  seed_in_range (snd (next_entropy st)) ->
  preprocessors st !! 1 = Some [Sample.op1; Sample.op2] ->
  Mixture.get_dataset Sample.single None "train" None None true None None
    (Some 1) st
  = (let prep_seed := snd (next_entropy st) in
     let ds :=
       MixedLazyMapDataset
         [ShuffleLazyMapDataset
            (apply_preps [Sample.op1; Sample.op2]
               (SourceLazyMapDataset (TfdsDataSource "train"))
               (split_fst prep_seed))
            (split_snd prep_seed)]
         [1%float] true in
     (inr (PyGrainDatasetIteratorWrapper (FromLazyDataset ds)
             (mkIndexSampler (LenOf ds) NoSharding false (Some 1) None) []),
      drawn st)).
Proof.
  intros Hlen Hr Hl.
  assert (Hleaf : Mixture.leaf_tasks Sample.single = [Sample.A]).
  { rewrite leaf_tasks_eq. simpl. now rewrite set_iter_singleton. }
  assert (Hprop : Mixture.get_proportion Sample.single (PTask Sample.A)
                  = inr 1%float).
  { rewrite get_proportion_eq.
    rewrite (task_in_direct Sample.single 1 Sample.A) by (simpl; auto).
    reflexivity. }
  assert (Htask :
    Mixture.get_task_lazy_dataset Sample.single Sample.A None "train" None
      None true None None (Some 1) st
    = (inr (ShuffleLazyMapDataset
              (apply_preps [Sample.op1; Sample.op2]
                 (SourceLazyMapDataset (TfdsDataSource "train"))
                 (split_fst (snd (next_entropy st))))
              (split_snd (snd (next_entropy st)))), drawn st)).
  { unfold Mixture.get_task_lazy_dataset.
    erewrite bind_state by reflexivity.
    erewrite bind_state by reflexivity.
    erewrite bind_state by reflexivity.
    erewrite bind_state;
      [|apply for_each_one, (run_epoch_unseeded Sample.A _ _ _ st _ Hr Hl)].
    reflexivity. }
  unfold Mixture.get_dataset, Mixture.get_lazy_dataset. simpl andb. cbv iota.
  rewrite Hleaf.
  erewrite bind_state; cycle 1.
  { erewrite bind_state; cycle 1.
    { apply for_each_one. erewrite bind_state by exact Htask.
      rewrite Hprop. reflexivity. }
    reflexivity. }
  cbn [fst snd fold_left]. unfold bind, lift, ret.
  rewrite init_accepts_len by (apply Hlen || discriminate).
  reflexivity.
Qed.
End Unseeded.

(** C3 as stated fails for [seed=None]: whatever generator numpy has (one
    that does not give every seed the same two draws), whatever the order
    of Python's sets and whatever records the datasets have (some, so that
    the sampler is built), there is a state from
    which two successive calls of [get_dataset] on the Mixture of the one
    Task [A], with the same configuration and no seed, build datasets with
    different seeds: each call splits an unseeded [RandomState]. *)
Lemma get_dataset_unseeded_counterexample :
  ~ exists E : Externals,
      SetIterSpec E /\ RandintSpec E
      /\ (exists s1 s2, seed_in_range s1 /\ seed_in_range s2
                        /\ @randint_pair E s1 <> @randint_pair E s2)
      /\ (forall ds, 0 < @lazy_len E ds)
      /\ forall st,
           preprocessors st = preprocessors Sample.state ->
           repeatable
             (@Mixture.get_dataset E Sample.single None "train" None None true
                None None (Some 1)) st.
Proof.
  intros [E (HS & HR & (s1 & s2 & Hs1 & Hs2 & Hne) & Hlen & Hrep)].
  set (st0 := {| preprocessors := preprocessors Sample.state;
                 os_entropy := fun n => match n with
                                        | O => (0, s1)
                                        | S _ => (0, s2)
                                        end;
                 entropy_drawn := 0 |}).
  specialize (Hrep st0 eq_refl). unfold repeatable in Hrep.
  rewrite (get_dataset_single_unseeded st0) in Hrep
    by (exact Hlen || exact Hs1 || reflexivity).
  cbv zeta in Hrep. cbn [fst snd] in Hrep.
  rewrite (get_dataset_single_unseeded (drawn st0)) in Hrep
    by (exact Hlen || exact Hs2 || reflexivity).
  cbv zeta in Hrep. cbn [fst snd] in Hrep.
  unfold next_entropy in Hrep. cbn [os_entropy entropy_drawn drawn st0 snd] in Hrep.
  inversion Hrep as [[H1 H2]].
  apply Hne. unfold split_fst, split_snd in *.
  destruct (randint_pair s1), (randint_pair s2); simpl in *. congruence.
Qed.

(** * Properties of the rest of the file *)

(** ** What [Mixture.__init__] stores, and proportions of constructed Mixtures *)

Lemma nth_error_zip {A B} (xs : list A) (ys : list B) i x y :
  nth_error xs i = Some x -> nth_error ys i = Some y -> In (x, y) (zip xs ys).
Proof.
  revert ys i. induction xs as [|a xs IH]; intros [|b ys] [|i] Hx Hy;
    simpl in *; try discriminate.
  - inversion Hx; inversion Hy; now left.
  - right. now apply (IH ys i).
Qed.

(** X1. What [Mixture.__init__] is given can be read back: for a Mixture it
    built, the property [tasks_or_mixtures] is the sequence [tasks], the
    weights are [proportions] in that order, [total_proportion] is Python's
    [sum] of [proportions], and every component is found under its hash in
    both dictionaries. *)
Theorem Mixture_init_round_trip (self : Z) (name : string)
    (tasks : list Component) (proportions : list float) (m : Mixture) :
  Mixture.init self name tasks proportions = inr m ->
  Mixture.tasks_or_mixtures m = tasks
  /\ PyDict.values (_proportions m) = proportions
  /\ Mixture.total_proportion m = float_sum proportions
  /\ (forall c, In c tasks ->
        PyDict.contains (hash c) (_proportions m) = true
        /\ subscript (_tasks_or_mixtures m) (hash c) = inr c).
Proof.
  intros H. apply Mixture_init_inv in H as (Hlen & Hnd & ->).
  unfold Mixture.tasks_or_mixtures, Mixture.total_proportion.
  cbn [_tasks_or_mixtures _proportions].
  rewrite !values_zip by (rewrite length_map; first [reflexivity | exact Hlen]).
  repeat split; try reflexivity.
  - apply contains_keys. rewrite keys_zip by (rewrite length_map; exact Hlen).
    now apply in_map.
  - unfold subscript. rewrite (getitem_In _ c); [reflexivity| |].
    + rewrite keys_zip by now rewrite length_map. exact Hnd.
    + now apply (in_zip_self hash).
Qed.

Lemma Mixture_init_round_trip_witness :
  Mixture.tasks_or_mixtures Sample.M = [PTask Sample.A; PMixture Sample.N]
  /\ Mixture.total_proportion Sample.M = float_sum [1%float; 2%float].
Proof.
  destruct (Mixture_init_round_trip 11 "m"
              [PTask Sample.A; PMixture Sample.N] [1%float; 2%float] Sample.M)
    as (H1 & _ & H3 & _).
  - vm_compute. reflexivity.
  - split; assumption.
Defined.

Section FlatMixture.
Context `{E : Externals} {HE : SetIterSpec E}.

Lemma fold_proportion_tasks (self : Mixture) (task : Component)
    (comps : list (Z * Component)) acc :
  (forall h c, In (h, c) comps ->
     match c with
     | PTask _ => True
     | PMixture s => task_in task (Mixture.leaf_tasks s) = false
     end) ->
  fold_left
    (fun acc kv =>
       ebind acc (fun prop =>
         match snd kv with
         | PMixture sub_task =>
             if task_in task (Mixture.leaf_tasks sub_task) then
               ebind (subscript (_proportions self)
                        (hash (PMixture sub_task))) (fun w =>
               ebind (Mixture.get_proportion sub_task task) (fun p =>
               ebind (truediv (w * p)%float
                        (Mixture.total_proportion sub_task)) (fun q =>
               inr (prop + q)%float)))
             else inr prop
         | PTask _ => inr prop
         end))
    comps acc = acc.
Proof.
  revert acc. induction comps as [|[h c] comps IH]; intros acc Hall;
    [reflexivity|].
  cbn [fold_left snd]. rewrite IH by (intros h' c' Hin; apply (Hall h' c'); now right).
  specialize (Hall h c (or_introl eq_refl)).
  destruct acc as [e|prop]; [reflexivity|]. cbn [ebind].
  destruct c as [t|s]; [reflexivity|]. now rewrite Hall.
Qed.

End FlatMixture.

(** X2. In a Mixture built of Tasks only, [get_proportion] of the Task at
    position [i] is [0.0 + w] for the weight [w] at position [i]: the raw
    weight, not normalised by the total. *)
Theorem get_proportion_flat `{E : Externals} {HE : SetIterSpec E}
    (self : Z) (name : string)
    (tasks : list Component) (proportions : list float) (m : Mixture)
    (i : nat) (t : Task) (w : float) :
  Mixture.init self name tasks proportions = inr m ->
  (forall c, In c tasks -> exists u, c = PTask u) ->
  nth_error tasks i = Some (PTask t) ->
  nth_error proportions i = Some w ->
  Mixture.get_proportion m (PTask t) = inr (0 + w)%float.
Proof.
  intros H Hflat Ht Hw. apply Mixture_init_inv in H as (Hlen & Hnd & Hm).
  assert (Hcomps : _tasks_or_mixtures m = zip (map hash tasks) tasks)
    by now subst m.
  assert (Hprops : _proportions m = zip (map hash tasks) proportions)
    by now subst m.
  clear Hm. rewrite get_proportion_eq. cbn [hash object_id].
  assert (Hget : PyDict.getitem (task_id t) (_proportions m) = Some w).
  { rewrite Hprops. apply getitem_In.
    - rewrite keys_zip by now rewrite length_map. exact Hnd.
    - apply (in_zip_map hash tasks proportions (PTask t) w).
      now apply nth_error_zip with i. }
  unfold PyDict.contains, subscript at 1. rewrite Hget. cbn [ebind].
  rewrite (task_in_direct _ (task_id t) t).
  2:{ rewrite Hcomps. apply (in_zip_self hash tasks (PTask t)).
      now apply nth_error_In with i. }
  cbn [negb]. apply (fold_proportion_tasks m).
  intros h c Hin. assert (Hc : In c tasks).
  { rewrite Hcomps in Hin. clear - Hin. revert Hin.
    generalize (map hash tasks) as hs.
    induction tasks as [|c' cs IH]; intros [|h' hs]; simpl; try tauto.
    intros [Heq|Hin]; [inversion Heq; now left | right; now apply (IH hs)]. }
  destruct (Hflat c Hc) as [u ->]. exact I.
Qed.

Lemma get_proportion_flat_witness :
  @Mixture.get_proportion Sample.externals Sample.N (PTask Sample.B)
  = inr (0 + 3)%float.
Proof.
  apply (@get_proportion_flat Sample.externals Sample_dedup_by_id_spec 10
           "n"%string [PTask Sample.B; PTask Sample.C] [3%float; 1%float]
           Sample.N 0%nat Sample.B 3%float).
  - vm_compute. reflexivity.
  - intros c [<-|[<-|[]]]; eauto.
  - reflexivity.
  - reflexivity.
Defined.


Section ProportionErrors.
Context `{E : Externals}.

Lemma in_zip_snd {A B} (xs : list A) (ys : list B) x y :
  In (x, y) (zip xs ys) -> In y ys.
Proof.
  revert ys. induction xs as [|a xs IH]; intros [|b ys]; simpl; try tauto.
  intros [H|H]; [inversion H; now left | right; now apply IH].
Qed.

Lemma in_zip_hash (tasks : list Component) h c :
  In (h, c) (zip (map hash tasks) tasks) -> h = hash c /\ In c tasks.
Proof.
  induction tasks as [|c' cs IH]; simpl; [tauto|].
  intros [H|H]; [inversion H; subst; split; [reflexivity | now left]|].
  destruct (IH H); split; [assumption | now right].
Qed.

(** What a constructed Mixture is made of. *)
Lemma constructed_inv (m : Mixture) :
  constructed m ->
  exists tasks proportions,
    length tasks = length proportions
    /\ NoDup (map hash tasks)
    /\ _tasks_or_mixtures m = zip (map hash tasks) tasks
    /\ _proportions m = zip (map hash tasks) proportions
    /\ forall sub, In (PMixture sub) tasks -> constructed sub.
Proof.
  intros [self name tasks proportions m' H Hsub].
  apply Mixture_init_inv in H as (Hlen & Hnd & ->).
  exists tasks, proportions. auto.
Qed.

(** The weight of a component of a constructed Mixture is there. *)
Lemma constructed_subscript (m : Mixture) h c :
  constructed m -> In (h, c) (_tasks_or_mixtures m) ->
  exists w, subscript (_proportions m) (hash c) = inr w.
Proof.
  intros Hm Hin.
  destruct (constructed_inv m Hm) as (tasks & props & Hlen & Hnd & Hc & Hp & _).
  rewrite Hc in Hin. apply in_zip_hash in Hin as [_ Hin].
  unfold subscript.
  destruct (PyDict.getitem (hash c) (_proportions m)) as [w|] eqn:Hg;
    [now exists w|].
  exfalso. apply getitem_None in Hg. apply Hg. rewrite Hp.
  rewrite keys_zip by (rewrite length_map; exact Hlen). now apply in_map.
Qed.

Lemma constructed_below (m : Mixture) h sub :
  constructed m -> In (h, PMixture sub) (_tasks_or_mixtures m) ->
  constructed sub.
Proof.
  intros Hm Hin.
  destruct (constructed_inv m Hm) as (tasks & props & _ & _ & Hc & _ & Hsub).
  rewrite Hc in Hin. apply in_zip_hash in Hin as [_ Hin]. now apply Hsub.
Qed.

Lemma truediv_outcome a b : only_zero_division (truediv a b).
Proof. unfold truediv. now destruct (PrimFloat.eqb b 0). Qed.

Lemma get_proportion_outcome (task : Component) (m : Mixture) :
  constructed m ->
  only_zero_division (Mixture.get_proportion m task)
  /\ ((forall sub, sub_mixture m sub ->
         PrimFloat.eqb (Mixture.total_proportion sub) 0 = false) ->
      exists p, Mixture.get_proportion m task = inr p).
Proof.
  induction m as [m IH] using Mixture_nested_ind. intros Hm.
  rewrite get_proportion_eq.
  assert (Hhead : exists prop0,
    (if PyDict.contains (hash task) (_proportions m)
     then ebind (subscript (_proportions m) (hash task))
                (fun w => inr (0 + w)%float)
     else inr 0%float) = inr prop0).
  { unfold PyDict.contains, subscript.
    destruct (PyDict.getitem (hash task) (_proportions m)); simpl; eauto. }
  destruct Hhead as [prop0 ->]. cbn [ebind].
  destruct (negb (task_in task (Mixture.leaf_tasks m)));
    [split; [exact I | eauto]|].
  assert (Hfold : forall comps acc,
    (forall h c, In (h, c) comps -> In (h, c) (_tasks_or_mixtures m)) ->
    let r :=
      fold_left
        (fun acc kv =>
           ebind acc (fun prop =>
             match snd kv with
             | PMixture sub_task =>
                 if task_in task (Mixture.leaf_tasks sub_task) then
                   ebind (subscript (_proportions m)
                            (hash (PMixture sub_task))) (fun w =>
                   ebind (Mixture.get_proportion sub_task task) (fun p =>
                   ebind (truediv (w * p)%float
                            (Mixture.total_proportion sub_task)) (fun q =>
                   inr (prop + q)%float)))
                 else inr prop
             | PTask _ => inr prop
             end)) comps acc in
    (only_zero_division acc -> only_zero_division r)
    /\ ((forall sub, sub_mixture m sub ->
           PrimFloat.eqb (Mixture.total_proportion sub) 0 = false) ->
        (exists p, acc = inr p) -> exists p, r = inr p)).
  { induction comps as [|[h c] comps IHc]; intros acc Hsub; cbv zeta;
      [split; auto|].
    cbn [fold_left snd].
    destruct (IHc
      (ebind acc (fun prop =>
         match c with
         | PMixture sub_task =>
             if task_in task (Mixture.leaf_tasks sub_task) then
               ebind (subscript (_proportions m)
                        (hash (PMixture sub_task))) (fun w =>
               ebind (Mixture.get_proportion sub_task task) (fun p =>
               ebind (truediv (w * p)%float
                        (Mixture.total_proportion sub_task)) (fun q =>
               inr (prop + q)%float)))
             else inr prop
         | PTask _ => inr prop
         end))
      (fun h' c' Hin => Hsub h' c' (or_intror Hin))) as [IH1 IH2].
    cbv zeta in IH1, IH2.
    pose proof (Hsub h c (or_introl eq_refl)) as Hin.
    split.
    - intros Hacc. apply IH1. destruct acc as [e|prop]; [exact Hacc|].
      cbn [ebind]. destruct c as [t|s]; [exact I|].
      destruct (task_in task (Mixture.leaf_tasks s)); [|exact I].
      destruct (constructed_subscript m h (PMixture s) Hm Hin) as [w ->].
      cbn [ebind].
      destruct (IH h s Hin (constructed_below m h s Hm Hin)) as [Ho _].
      destruct (Mixture.get_proportion s task) as [e|p]; [exact Ho|].
      cbn [ebind].
      pose proof (truediv_outcome (w * p) (Mixture.total_proportion s)) as Hd.
      destruct (truediv (w * p) (Mixture.total_proportion s)); [exact Hd|].
      exact I.
    - intros Hnz [prop ->]. apply IH2; [exact Hnz|]. cbn [ebind].
      destruct c as [t|s]; [eauto|].
      destruct (task_in task (Mixture.leaf_tasks s)); [|eauto].
      destruct (constructed_subscript m h (PMixture s) Hm Hin) as [w ->].
      cbn [ebind].
      destruct (IH h s Hin (constructed_below m h s Hm Hin)) as [_ Hr].
      destruct Hr as [p ->].
      { intros sub Hs. apply Hnz. now apply sub_mixture_step with h s. }
      cbn [ebind]. unfold truediv.
      rewrite (Hnz s) by (apply sub_mixture_step with h s;
                          [exact Hin | constructor]).
      cbn [ebind]. eauto. }
  destruct (Hfold (_tasks_or_mixtures m) (inr prop0) (fun _ _ H => H))
    as [H1 H2].
  cbv zeta in H1, H2. split; [now apply H1 | intros Hnz; apply H2; eauto].
Qed.
End ProportionErrors.

(** X3. On a Mixture built by [__init__] of Tasks and of Mixtures built
    that way, [get_proportion] has one way to fail: the division by a
    sub-Mixture's [total_proportion].  No lookup raises [KeyError], whatever
    the argument; and when no Mixture at or below has total 0.0 the call
    returns. *)
Theorem get_proportion_raises_only_ZeroDivisionError `{E : Externals}
    (m : Mixture) (task : Component) :
  constructed m ->
  (forall e, Mixture.get_proportion m task = inl e -> e = ZeroDivisionError)
  /\ ((forall sub, sub_mixture m sub ->
         PrimFloat.eqb (Mixture.total_proportion sub) 0 = false) ->
      exists p, Mixture.get_proportion m task = inr p).
Proof.
  intros Hm. destruct (get_proportion_outcome task m Hm) as [H1 H2].
  split; [|exact H2]. intros e He. rewrite He in H1. exact H1.
Qed.

Lemma Sample_sub_mixtures (m : Mixture) :
  sub_mixture Sample.M m -> m = Sample.M \/ m = Sample.N.
Proof.
  intros H. inversion H as [|? h sub ? Hin Hs]; subst; [now left|].
  simpl in Hin. destruct Hin as [Hin|[Hin|[]]]; inversion Hin; subst.
  inversion Hs as [|? h' sub' ? Hin' _]; subst; [now right|].
  simpl in Hin'. destruct Hin' as [Hin'|[Hin'|[]]]; inversion Hin'.
Qed.

Lemma Sample_constructed : constructed Sample.M.
Proof.
  apply (constructed_by_init 11 "m" [PTask Sample.A; PMixture Sample.N]
           [1%float; 2%float]); [vm_compute; reflexivity|].
  intros sub [H|[H|[]]]; inversion H; subst.
  apply (constructed_by_init 10 "n" [PTask Sample.B; PTask Sample.C]
           [3%float; 1%float]); [vm_compute; reflexivity|].
  intros sub [H'|[H'|[]]]; inversion H'.
Qed.

Lemma get_proportion_raises_only_ZeroDivisionError_witness :
  exists p,
    @Mixture.get_proportion Sample.externals Sample.M (PTask Sample.B) = inr p.
Proof.
  apply (proj2 (@get_proportion_raises_only_ZeroDivisionError Sample.externals
                  Sample.M (PTask Sample.B) Sample_constructed)).
  intros sub Hsub.
  destruct (Sample_sub_mixtures sub Hsub) as [-> | ->]; vm_compute;
    reflexivity.
Defined.

Section ZeroTotal.
Context `{E : Externals} {HE : SetIterSpec E}.

Lemma fold_proportion_raised (self : Mixture) (task : Component)
    (comps : list (Z * Component)) e :
  fold_left
    (fun acc kv =>
       ebind acc (fun prop =>
         match snd kv with
         | PMixture sub_task =>
             if task_in task (Mixture.leaf_tasks sub_task) then
               ebind (subscript (_proportions self)
                        (hash (PMixture sub_task))) (fun w =>
               ebind (Mixture.get_proportion sub_task task) (fun p =>
               ebind (truediv (w * p)%float
                        (Mixture.total_proportion sub_task)) (fun q =>
               inr (prop + q)%float)))
             else inr prop
         | PTask _ => inr prop
         end))
    comps (inl e) = inl e.
Proof. induction comps as [|kv comps IH]; [reflexivity | exact IH]. Qed.

Lemma zip_map_self_app {A C} (f : A -> C) (xs1 xs2 : list A) :
  zip (map f (xs1 ++ xs2)) (xs1 ++ xs2)
  = zip (map f xs1) xs1 ++ zip (map f xs2) xs2.
Proof. induction xs1 as [|x xs1 IH]; simpl; [reflexivity | now rewrite IH]. Qed.

End ZeroTotal.

(** X4. The division does fail: let [M] be built over a sub-Mixture [N]
    whose weights add up to 0.0, [N] being the first component of [M] that
    holds the Task [t].  Then [M.get_proportion(t)] raises
    [ZeroDivisionError], although [N.get_proportion(t)] returns. *)
Theorem get_proportion_zero_total `{E : Externals} {HE : SetIterSpec E}
    (self : Z) (name : string)
    (pre post : list Component) (N : Mixture) (proportions : list float)
    (M : Mixture) (t : Task) (p : float) :
  Mixture.init self name (pre ++ PMixture N :: post) proportions = inr M ->
  (forall c, In c pre ->
     match c with
     | PTask _ => True
     | PMixture s => task_in (PTask t) (Mixture.leaf_tasks s) = false
     end) ->
  task_in (PTask t) (Mixture.leaf_tasks N) = true ->
  Mixture.get_proportion N (PTask t) = inr p ->
  PrimFloat.eqb (Mixture.total_proportion N) 0 = true ->
  Mixture.get_proportion M (PTask t) = inl ZeroDivisionError.
Proof.
  intros H Hpre HtN HpN Hzero.
  apply Mixture_init_inv in H as (Hlen & Hnd & Hm).
  set (tasks := pre ++ PMixture N :: post) in *.
  assert (Hcomps : _tasks_or_mixtures M = zip (map hash tasks) tasks)
    by now subst M.
  assert (Hprops : _proportions M = zip (map hash tasks) proportions)
    by now subst M.
  clear Hm.
  assert (HinN : In (hash (PMixture N), PMixture N) (_tasks_or_mixtures M)).
  { rewrite Hcomps. apply (in_zip_self hash). unfold tasks.
    apply in_app_iff. right. now left. }
  rewrite get_proportion_eq.
  assert (Hhead : exists prop0,
    (if PyDict.contains (hash (PTask t)) (_proportions M)
     then ebind (subscript (_proportions M) (hash (PTask t)))
                (fun w => inr (0 + w)%float)
     else inr 0%float) = inr prop0).
  { unfold PyDict.contains, subscript.
    destruct (PyDict.getitem (hash (PTask t)) (_proportions M)); simpl; eauto. }
  destruct Hhead as [prop0 ->]. cbn [ebind].
  rewrite (task_in_nested M _ N (PTask t) HinN HtN). cbn [negb].
  rewrite Hcomps at 1. unfold tasks at 1 2.
  rewrite zip_map_self_app, fold_left_app.
  rewrite (fold_proportion_tasks M (PTask t) (zip (map hash pre) pre)).
  2:{ intros h c Hin. apply in_zip_snd in Hin. now apply (Hpre c). }
  cbn [map zip combine fold_left snd ebind]. rewrite HtN.
  assert (Hw : exists w, subscript (_proportions M) (hash (PMixture N)) = inr w).
  { unfold subscript.
    destruct (PyDict.getitem (hash (PMixture N)) (_proportions M)) as [w|] eqn:Hg;
      [now exists w|].
    exfalso. apply getitem_None in Hg. apply Hg. rewrite Hprops.
    rewrite keys_zip by (rewrite length_map; exact Hlen).
    apply in_map. unfold tasks. apply in_app_iff. right. now left. }
  destruct Hw as [w ->]. cbn [ebind]. rewrite HpN. cbn [ebind].
  unfold truediv. rewrite Hzero. cbn [ebind].
  apply fold_proportion_raised.
Qed.

Lemma get_proportion_zero_total_witness :
  @Mixture.get_proportion Sample.externals Fixture.Top (PTask Sample.B)
  = inl ZeroDivisionError.
Proof.
  apply (@get_proportion_zero_total Sample.externals Sample_dedup_by_id_spec
           21 "top"%string [PTask Sample.A] [] Fixture.Zero
           [1%float; 2%float] Fixture.Top Sample.B (0 + 1)%float).
  - vm_compute. reflexivity.
  - intros c [<-|[]]. exact I.
  - vm_compute. reflexivity.
  - vm_compute. reflexivity.
  - vm_compute. reflexivity.
Defined.


(** ** Splits and counts of a Mixture *)

Lemma split_in_In split splits : split_in split splits = true <-> In split splits.
Proof.
  unfold split_in. rewrite existsb_exists. split.
  - intros [x [Hin Heq]]. apply String.eqb_eq in Heq. now subst.
  - intros Hin. exists split. split; [exact Hin | apply String.eqb_refl].
Qed.

Lemma occurrences_eq (m : Mixture) :
  occurrences m
  = flat_map (fun kv => match snd kv with
                        | PTask t => [t]
                        | PMixture sub => occurrences sub
                        end) (_tasks_or_mixtures m).
Proof. destruct m; reflexivity. Qed.

Lemma in_occurrences (m : Mixture) :
  forall t, In t (occurrences m) <-> reaches_task m t.
Proof.
  induction m as [m IH] using Mixture_nested_ind. intros t.
  rewrite occurrences_eq, in_flat_map. split.
  - intros [[h [u|sub]] [Hin Ht]]; simpl in Ht.
    + destruct Ht as [->|[]]. now apply reaches_direct with h.
    + apply reaches_nested with h sub; [exact Hin | now apply (IH h sub)].
  - intros Hr. destruct Hr as [m h t Hin | m h sub t Hin Hr].
    + exists (h, PTask t). split; [exact Hin | now left].
    + exists (h, PMixture sub). split; [exact Hin | now apply (IH h sub)].
Qed.

Section Splits.
Context `{T : TupleOrder} {HT : TupleOrderSpec T}.

Lemma splits_eq (m : Mixture) :
  MixtureInfo.splits m
  = tuple_of_set
      (fold_left
         (fun (acc : gset string) kv =>
            acc ∪ list_to_set
                    match snd kv with
                    | PTask t => task_splits t
                    | PMixture sub => MixtureInfo.splits sub
                    end)
         (_tasks_or_mixtures m) ∅).
Proof. destruct m; reflexivity. Qed.

Lemma elem_of_fold_union {A} (g : A -> list string) (l : list A) x :
  forall acc : gset string,
    x ∈ fold_left (fun (acc : gset string) a => acc ∪ list_to_set (g a)) l acc
    <-> x ∈ acc \/ exists a, In a l /\ In x (g a).
Proof.
  induction l as [|a l IH]; intros acc; simpl.
  - split; [now left | intros [H|[a [[] _]]]; exact H].
  - rewrite IH, elem_of_union, elem_of_list_to_set, list_elem_of_In. split.
    + intros [[H|H]|[b [Hb Hx]]]; eauto.
    + intros [H|[b [[->|Hb] Hx]]]; eauto.
Qed.

Lemma in_splits (m : Mixture) :
  forall x, In x (MixtureInfo.splits m)
            <-> exists t, reaches_task m t /\ In x (task_splits t).
Proof.
  induction m as [m IH] using Mixture_nested_ind. intros x.
  rewrite splits_eq, tuple_of_set_spec.
  rewrite (elem_of_fold_union
             (fun kv => match snd kv with
                        | PTask t => task_splits t
                        | PMixture sub => MixtureInfo.splits sub
                        end)).
  split.
  - intros [H|[[h [t|sub]] [Hin Hx]]]; [now apply elem_of_empty in H| |];
      simpl in Hx.
    + exists t. split; [now apply reaches_direct with h | exact Hx].
    + apply (IH h sub Hin) in Hx as [t [Hr Hx]].
      exists t. split; [now apply reaches_nested with h sub | exact Hx].
  - intros [t [Hr Hx]]. right.
    destruct Hr as [m h t Hin | m h sub t Hin Hr].
    + exists (h, PTask t). split; [exact Hin | exact Hx].
    + exists (h, PMixture sub). split; [exact Hin|]. simpl.
      apply (IH h sub Hin). eauto.
Qed.
End Splits.

(** X5. [Mixture.splits] is the union of the splits of the Tasks below the
    Mixture, through any depth of nesting: a split is in it exactly when
    some Task below lists it.  (The order of the tuple is the set's.) *)
Theorem Mixture_splits_union `{T : TupleOrder}
    {HT : TupleOrderSpec T} (m : Mixture) (split : string) :
  split_in split (MixtureInfo.splits m) = true
  <-> exists t, reaches_task m t /\ In split (task_splits t).
Proof. rewrite split_in_In. apply in_splits. Qed.

Lemma Fixture_tuple_order_spec : TupleOrderSpec Fixture.tuple_order.
Proof.
  split. intros s x. simpl. rewrite <- list_elem_of_In.
  apply elem_of_elements.
Qed.

Lemma Mixture_splits_union_witness :
  split_in "train" (@MixtureInfo.splits Fixture.tuple_order Sample.M) = true.
Proof.
  apply (proj2 (@Mixture_splits_union Fixture.tuple_order
                  Fixture_tuple_order_spec Sample.M "train"%string)).
  exists Sample.B. split.
  - apply reaches_nested with 10 Sample.N; [right; now left|].
    apply reaches_direct with 2. now left.
  - now left.
Defined.

Lemma count_from_app split l1 : forall l2 total,
  count_from split (l1 ++ l2) total
  = match count_from split l1 total with
    | Some total' => count_from split l2 total'
    | None => None
    end.
Proof.
  induction l1 as [|t l1 IH]; intros l2 total; simpl; [reflexivity|].
  destruct (split_in split (task_splits t)); [|apply IH].
  destruct (task_count t split); [apply IH | reflexivity].
Qed.

Lemma count_from_shift split l : forall total,
  count_from split l total = option_map (Z.add total) (count_from split l 0).
Proof.
  induction l as [|t l IH]; intros total; simpl.
  - f_equal. lia.
  - destruct (split_in split (task_splits t)); [|apply IH].
    destruct (task_count t split) as [k|]; [|reflexivity].
    rewrite (IH (total + k)), (IH (0 + k)).
    destruct (count_from split l 0); simpl; [f_equal; lia | reflexivity].
Qed.

Lemma count_from_without split l total :
  (forall t, In t l -> split_in split (task_splits t) = false) ->
  count_from split l total = Some total.
Proof.
  induction l as [|t l IH]; intros H; simpl; [reflexivity|].
  rewrite (H t (or_introl eq_refl)). apply IH. intros u Hu. apply H. now right.
Qed.

Lemma count_from_all split l : forall total,
  (forall t, In t (with_split split l) -> task_count t split <> None) ->
  count_from split l total
  = Some (total + Zsum (map (count_or_zero split) (with_split split l))).
Proof.
  unfold with_split.
  induction l as [|t l IH]; intros total H; simpl in *.
  - f_equal. lia.
  - destruct (split_in split (task_splits t)) eqn:Hs.
    + simpl in H. simpl.
      destruct (task_count t split) as [k|] eqn:Hk.
      * rewrite IH by (intros u Hu; apply H; now right).
        assert (count_or_zero split t = k) as Hz
          by (unfold count_or_zero; now rewrite Hk).
        f_equal. rewrite Hz. lia.
      * exfalso. now apply (H t (or_introl eq_refl)).
    + now apply IH.
Qed.

Lemma count_from_missing split l : forall total,
  (exists t, In t (with_split split l) /\ task_count t split = None) ->
  count_from split l total = None.
Proof.
  unfold with_split.
  induction l as [|t l IH]; intros total [u [Hu Hn]]; simpl in *; [easy|].
  destruct (split_in split (task_splits t)) eqn:Hs.
  - destruct Hu as [->|Hu]; [now rewrite Hn|].
    destruct (task_count t split); [|reflexivity]. apply IH. eauto.
  - apply IH. eauto.
Qed.

Section Counts.
Context `{T : TupleOrder} {HT : TupleOrderSpec T}.

Lemma num_input_examples_eq (m : Mixture) (split : string) :
  MixtureInfo.num_input_examples m split
  = fold_left
      (fun (acc : Py Z) kv =>
         bind acc (fun total =>
           match snd kv with
           | PTask t =>
               if split_in split (task_splits t) then
                 bind (Task.num_input_examples t split) (fun n =>
                   match n with
                   | Some k => ret (total + k)
                   | None => raise none_plus
                   end)
               else ret total
           | PMixture sub =>
               if split_in split (MixtureInfo.splits sub) then
                 bind (MixtureInfo.num_input_examples sub split)
                      (fun n => ret (total + n))
               else ret total
           end))
      (_tasks_or_mixtures m) (ret 0).
Proof. destruct m; reflexivity. Qed.

Lemma fold_counts (split : string) (comps : list (Z * Component)) :
  (forall h t, In (h, PTask t) comps -> task_source t <> None) ->
  (forall h sub, In (h, PMixture sub) comps ->
     forall st, MixtureInfo.num_input_examples sub split st
                = (result_of (count_from split (occurrences sub) 0), st)) ->
  forall (acc : Py Z) (o : option Z),
    (forall st, acc st = (result_of o, st)) ->
    forall st,
      fold_left
        (fun (acc : Py Z) kv =>
           bind acc (fun total =>
             match snd kv with
             | PTask t =>
                 if split_in split (task_splits t) then
                   bind (Task.num_input_examples t split) (fun n =>
                     match n with
                     | Some k => ret (total + k)
                     | None => raise none_plus
                     end)
                 else ret total
             | PMixture sub =>
                 if split_in split (MixtureInfo.splits sub) then
                   bind (MixtureInfo.num_input_examples sub split)
                        (fun n => ret (total + n))
                 else ret total
             end))
        comps acc st
      = (result_of
           match o with
           | Some total =>
               count_from split
                 (flat_map (fun kv => match snd kv with
                                      | PTask t => [t]
                                      | PMixture sub => occurrences sub
                                      end) comps) total
           | None => None
           end, st).
Proof.
  induction comps as [|[h c] comps IH]; intros Hsrc Hsub acc o Hacc st.
  - simpl. rewrite Hacc. now destruct o.
  - simpl fold_left. simpl flat_map.
    erewrite IH; cycle 1.
    + intros h' t Hin. apply (Hsrc h' t). now right.
    + intros h' sub Hin. apply (Hsub h' sub). now right.
    + intros st'. unfold bind. rewrite Hacc.
      instantiate (1 := match o with
                        | Some total =>
                            count_from split
                              match c with
                              | PTask t => [t]
                              | PMixture sub => occurrences sub
                              end total
                        | None => None
                        end).
      destruct o as [total|]; [|reflexivity]. simpl.
      destruct c as [t|sub]; simpl.
      * destruct (split_in split (task_splits t)) eqn:Hs; [|reflexivity].
        unfold Task.num_input_examples, task_count.
        destruct (task_source t) as [src|] eqn:Hsrc_t.
        -- unfold ret. now destruct (ds_num_input_examples src split).
        -- exfalso. apply (Hsrc h t (or_introl eq_refl)). exact Hsrc_t.
      * destruct (split_in split (MixtureInfo.splits sub)) eqn:Hs.
        -- rewrite (Hsub h sub (or_introl eq_refl)).
           rewrite (count_from_shift split (occurrences sub) total).
           now destruct (count_from split (occurrences sub) 0).
        -- rewrite count_from_without; [reflexivity|].
           intros t Ht.
           destruct (split_in split (task_splits t)) eqn:Hst; [|reflexivity].
           assert (split_in split (MixtureInfo.splits sub) = true) as Hyes.
           { apply split_in_In. apply in_splits. exists t.
             split; [now apply in_occurrences | now apply split_in_In]. }
           congruence.
    + f_equal. destruct o as [total|]; [|reflexivity].
      now rewrite count_from_app.
Qed.

Lemma num_input_examples_flat (split : string) (m : Mixture) :
  (forall t, reaches_task m t -> task_source t <> None) ->
  forall st, MixtureInfo.num_input_examples m split st
             = (result_of (count_from split (occurrences m) 0), st).
Proof.
  induction m as [m IH] using Mixture_nested_ind. intros Hsrc st.
  rewrite num_input_examples_eq, occurrences_eq.
  apply (fold_counts split (_tasks_or_mixtures m)) with (o := Some 0).
  - intros h t Hin. apply Hsrc. now apply reaches_direct with h.
  - intros h sub Hin. apply (IH h sub Hin).
    intros t Ht. apply Hsrc. now apply reaches_nested with h sub.
  - reflexivity.
Qed.
End Counts.

(** X6. [Mixture.num_input_examples] adds up the counts of the Tasks below
    the Mixture that have the split, a Task counting once for every way down
    to it (a Task shared by two sub-Mixtures counts twice); the filter on a
    sub-Mixture's [splits] changes nothing.  When one of those Tasks reports
    no count ([None]) the sum raises [TypeError].  In both cases the store
    is untouched.  (For Tasks whose source is set.) *)
Theorem Mixture_num_input_examples_sum `{T : TupleOrder}
    {HT : TupleOrderSpec T} (m : Mixture) (split : string) (st : State) :
  (forall t, reaches_task m t -> task_source t <> None) ->
  let counted := with_split split (occurrences m) in
  ((forall t, In t counted -> task_count t split <> None) ->
     MixtureInfo.num_input_examples m split st
     = (inr (Zsum (map (count_or_zero split) counted)), st))
  /\ ((exists t, In t counted /\ task_count t split = None) ->
     MixtureInfo.num_input_examples m split st = (inl none_plus, st)).
Proof.
  intros Hsrc counted. split; intros H.
  - rewrite (num_input_examples_flat split m Hsrc).
    now rewrite (count_from_all split _ 0 H).
  - rewrite (num_input_examples_flat split m Hsrc).
    now rewrite (count_from_missing split _ 0 H).
Qed.

Lemma Mixture_num_input_examples_sum_witness :
  @MixtureInfo.num_input_examples Fixture.tuple_order Sample.M "train"
    Sample.state
  = (inr 9, Sample.state).
Proof.
  refine (proj1 (@Mixture_num_input_examples_sum Fixture.tuple_order
                   Fixture_tuple_order_spec Sample.M "train"%string
                   Sample.state _) _).
  - intros t Ht. apply in_occurrences in Ht. simpl in Ht.
    destruct Ht as [<-|[<-|[<-|[]]]]; discriminate.
  - intros t Ht. vm_compute in Ht.
    destruct Ht as [<-|[<-|[<-|[]]]]; discriminate.
Defined.

(** ** TaskBuilder *)

(** X7. [TaskBuilder.from_task(task).build()]: it raises the Task's
    "Preprocessors have not been set" when the Task's list is [None]
    (whether or not the source is set), the builder's "Source has not been
    set" when only the source is [None], and otherwise returns a new Task
    object with the name and the source of the old one and a list object of
    its own with the same preprocessors; nothing else in the store
    changes. *)
Theorem TaskBuilder_from_task_build (task : Task) (new : Z) (st : State) :
  let r :=
    bind (TaskBuilder.from_task task) (fun b => TaskBuilder.build b new) st in
  match preprocessors st !! task_id task, task_source task with
  | None, _ =>
      r = (inl (ValueError "Preprocessors have not been set on this task."),
           st)
  | Some _, None =>
      r = (inl (ValueError "Source has not been set on this task builder."),
           st)
  | Some l, Some src =>
      r = (inr {| task_id := new; task_name := task_name task;
                  task_source := Some src; task_splits := ds_splits src |},
           {| preprocessors := <[new := l]> (preprocessors st);
              os_entropy := os_entropy st;
              entropy_drawn := entropy_drawn st |})
  end.
Proof.
  unfold TaskBuilder.from_task, TaskBuilder.build, Task.get_preprocessors,
    bind, ret, raise.
  destruct (preprocessors st !! task_id task) as [l|]; [|reflexivity].
  simpl. destruct (task_source task); reflexivity.
Qed.

(** X8. A Task derived from another through
    [TaskBuilder.from_task(task).set_task_name(name).build()] shares no
    list with it: both report the same preprocessors after the build, and
    what [Mixture.get_task_lazy_dataset] then appends to the list of the one
    (see C10) does not show in the other. *)
Theorem TaskBuilder_copy_independent `{E : Externals} (task : Task)
    (name : string) (new : Z) (st : State) src l
    (self : Mixture) sequence_lengths split feature_converter batch_size
    shuffle seed shard_info num_epochs :
  task_source task = Some src ->
  preprocessors st !! task_id task = Some l ->
  new <> task_id task ->
  exists copy st1,
    bind (TaskBuilder.from_task task)
         (fun b => TaskBuilder.build (TaskBuilder.set_task_name b name) new) st
    = (inr copy, st1)
    /\ copy = {| task_id := new; task_name := name; task_source := Some src;
                 task_splits := ds_splits src |}
    /\ Task.get_preprocessors copy st1 = (inr l, st1)
    /\ Task.get_preprocessors task st1 = (inr l, st1)
    /\ (let st2 :=
          snd (Mixture.get_task_lazy_dataset self task sequence_lengths split
                 feature_converter batch_size shuffle seed shard_info
                 num_epochs st1) in
        fst (Task.get_preprocessors copy st2) = inr l
        /\ fst (Task.get_preprocessors task st2)
           = inr (l ++ appended sequence_lengths feature_converter batch_size))
    /\ (let st2 :=
          snd (Mixture.get_task_lazy_dataset self copy sequence_lengths split
                 feature_converter batch_size shuffle seed shard_info
                 num_epochs st1) in
        fst (Task.get_preprocessors task st2) = inr l
        /\ fst (Task.get_preprocessors copy st2)
           = inr (l ++ appended sequence_lengths feature_converter batch_size)).
Proof.
  intros Hsrc Hl Hnew.
  eexists. eexists. split.
  { unfold TaskBuilder.from_task, TaskBuilder.build, TaskBuilder.set_task_name,
      Task.get_preprocessors, bind, ret.
    rewrite Hl. simpl. rewrite Hsrc. reflexivity. }
  split; [reflexivity|].
  assert (Hcopy : <[new := l]> (preprocessors st) !! new = Some l)
    by apply lookup_insert_eq.
  assert (Horig : <[new := l]> (preprocessors st) !! task_id task = Some l)
    by (rewrite lookup_insert_ne by exact Hnew; exact Hl).
  split; [unfold Task.get_preprocessors; simpl; now rewrite Hcopy|].
  split; [unfold Task.get_preprocessors; simpl; now rewrite Horig|].
  split; cbv zeta; unfold Task.get_preprocessors.
  - rewrite (get_task_lazy_dataset_store _ _ _ _ _ _ _ _ _ _ _ src l Hsrc)
      by exact Horig.
    cbn [task_id]. rewrite lookup_insert_ne by congruence.
    rewrite lookup_insert_eq. cbn [preprocessors]. rewrite Hcopy.
    split; reflexivity.
  - erewrite get_task_lazy_dataset_store; [|reflexivity | exact Hcopy].
    cbn [task_id]. rewrite lookup_insert_eq.
    rewrite lookup_insert_ne by congruence. cbn [preprocessors]. rewrite Horig.
    split; reflexivity.
Qed.

Lemma TaskBuilder_copy_independent_witness :
  exists copy st1,
    bind (TaskBuilder.from_task Sample.A)
         (fun b => TaskBuilder.build (TaskBuilder.set_task_name b "a2") 4)
         Sample.state
    = (inr copy, st1)
    /\ Task.get_preprocessors copy st1
       = (inr [Sample.op1; Sample.op2], st1).
Proof.
  destruct (@TaskBuilder_copy_independent Sample.externals Sample.A
              "a2"%string 4 Sample.state Sample.source
              [Sample.op1; Sample.op2] Sample.M None "train"%string
              (Some Sample.converter) (Some 4) true (Some 0) None (Some 1)
              eq_refl eq_refl ltac:(intros H; vm_compute in H; discriminate))
    as (copy & st1 & H1 & _ & H3 & _).
  exists copy, st1. split; assumption.
Defined.

(** X22. [TaskBuilder.build] returns a Task exactly when both the source
    and the preprocessors of the builder are set; a missing source is
    reported first.  A builder configured by [set_data_source] and
    [set_preprocessors], in either order, builds the Task that
    [Task(name, source, preprocessors)] constructs. *)
Theorem TaskBuilder_build_when_configured (b : TaskBuilder)
    (source : DataSource) (preps : list GrainPreprocessor) (new : Z)
    (st : State) :
  ((exists t st', TaskBuilder.build b new st = (inr t, st'))
   <-> (_source b <> None /\ _preprocessors b <> None))
  /\ (_source b = None ->
      TaskBuilder.build b new st
      = (inl (ValueError "Source has not been set on this task builder."),
         st))
  /\ (_source b <> None -> _preprocessors b = None ->
      TaskBuilder.build b new st
      = (inl (ValueError
                "Preprocessors have not been set on this task builder."), st))
  /\ TaskBuilder.build
       (TaskBuilder.set_preprocessors (TaskBuilder.set_data_source b source)
          preps) new st
     = Task.init new (_task_name b) source (Some preps) st
  /\ TaskBuilder.build
       (TaskBuilder.set_data_source (TaskBuilder.set_preprocessors b preps)
          source) new st
     = Task.init new (_task_name b) source (Some preps) st.
Proof.
  unfold TaskBuilder.build, raise. split; [|split; [|split; [|split]]].
  - destruct (_source b) as [s|], (_preprocessors b) as [p|]; split.
    + intros _. split; discriminate.
    + intros _. unfold Task.init. eauto.
    + intros (t & st' & H). discriminate.
    + intros [_ H]. congruence.
    + intros (t & st' & H). discriminate.
    + intros [H _]. congruence.
    + intros (t & st' & H). discriminate.
    + intros [H _]. congruence.
  - intros ->. reflexivity.
  - intros Hs ->. destruct (_source b); [reflexivity | congruence].
  - reflexivity.
  - reflexivity.
Qed.

Lemma TaskBuilder_build_when_configured_witness :
  TaskBuilder.build
    (TaskBuilder.set_preprocessors
       (TaskBuilder.set_data_source (TaskBuilder.init "a" None None)
          Sample.source) [Sample.op1]) 4 Sample.state
  = Task.init 4 "a" Sample.source (Some [Sample.op1]) Sample.state.
Proof.
  exact (proj1 (proj2 (proj2 (proj2
           (TaskBuilder_build_when_configured
              (TaskBuilder.init "a" None None) Sample.source [Sample.op1] 4
              Sample.state))))).
Defined.

(** ** Edge cases of [get_task_lazy_dataset] *)

Section Steps.
Context `{E : Externals}.

Lemma bind_inr {A B} (m : Py A) (f : A -> Py B) st b st' :
  bind m f st = (inr b, st') ->
  exists a st1, m st = (inr a, st1) /\ f a st1 = (inr b, st').
Proof.
  unfold bind. destruct (m st) as [[e|a] st1]; [discriminate|]. eauto.
Qed.

Lemma with_chain_same task l st :
  preprocessors st !! task_id task = Some l -> with_chain task l st = st.
Proof.
  intros H. unfold with_chain. rewrite insert_id by exact H. now destruct st.
Qed.

(** Steps 1 and 2 and the growth of the list, done: what is left is the
    loop over the epochs, from the state with the longer list. *)
Lemma get_task_lazy_dataset_steps self task sl split fc bs shuffle seed si ne
    st src l :
  task_source task = Some src ->
  preprocessors st !! task_id task = Some l ->
  Mixture.get_task_lazy_dataset self task sl split fc bs shuffle seed si ne st
  = bind (for_each (epoch_sources (ds_get_data_source src split) si ne)
            (Mixture.run_epoch task shuffle) (seed, []))
         (fun r => ret (combine_epochs (snd r)))
         (with_chain task (l ++ appended sl fc bs) st).
Proof.
  intros Hsrc Hl.
  assert (Htail : forall st2,
    bind (for_each (epoch_sources (ds_get_data_source src split) si ne)
            (Mixture.run_epoch task shuffle) (seed, []))
         (fun r => match snd r with
                   | [ds] => ret ds
                   | _ => ret (ConcatLazyMapDataset (snd r))
                   end) st2
    = bind (for_each (epoch_sources (ds_get_data_source src split) si ne)
              (Mixture.run_epoch task shuffle) (seed, []))
           (fun r => ret (combine_epochs (snd r))) st2).
  { intros st2. unfold bind.
    destruct (for_each _ _ _ st2) as [[e|r] st3]; [reflexivity|].
    unfold combine_epochs. destruct (snd r) as [|d [|]]; reflexivity. }
  unfold Mixture.get_task_lazy_dataset, appended.
  erewrite bind_state
    by (unfold Task._get_data_source_for_split; rewrite Hsrc; reflexivity).
  fold (epoch_sources (ds_get_data_source src split) si ne).
  destruct fc as [c|]; cbv beta iota.
  - erewrite bind_state; [|apply preps_grow_state; exact Hl].
    destruct bs as [b|]; [destruct (b =? 0)|]; cbv beta iota.
    + erewrite bind_state by reflexivity. rewrite Htail.
      now rewrite app_nil_r.
    + erewrite bind_state;
        [|apply preps_grow_state; simpl; apply lookup_insert_eq].
      rewrite Htail. unfold with_chain. simpl.
      now rewrite insert_insert_eq, <- app_assoc.
    + erewrite bind_state by reflexivity. rewrite Htail.
      now rewrite app_nil_r.
  - erewrite bind_state by reflexivity.
    destruct bs as [b|]; [destruct (b =? 0)|]; cbv beta iota.
    + erewrite bind_state by reflexivity. rewrite Htail.
      simpl. rewrite app_nil_r. now rewrite with_chain_same.
    + erewrite bind_state; [|apply preps_grow_state; exact Hl].
      rewrite Htail. reflexivity.
    + erewrite bind_state by reflexivity. rewrite Htail.
      simpl. rewrite app_nil_r. now rewrite with_chain_same.
Qed.

Lemma epoch_sources_negative src si n :
  n < 0 -> epoch_sources src si (Some n) = [].
Proof.
  intros Hn. unfold epoch_sources.
  destruct (Z.eqb_spec n 0) as [->|_]; [lia|].
  destruct n; try lia. reflexivity.
Qed.

Lemma epoch_sources_first src si ne :
  (forall n, ne = Some n -> 0 <= n) ->
  exists ds rest, epoch_sources src si ne = ds :: rest.
Proof.
  intros Hn. unfold epoch_sources. destruct ne as [n|]; [|eauto].
  destruct (Z.eqb_spec n 0) as [->|Hne]; [eauto|].
  specialize (Hn n eq_refl).
  destruct (Z.to_nat n) as [|k] eqn:Hk; [lia|]. simpl. eauto.
Qed.
End Steps.

(** X9. [num_epochs=0] is falsy in step 2 of
    [get_task_lazy_dataset]: the call makes one epoch, exactly as for
    [num_epochs=1] and for [None]; and so [Mixture.get_lazy_dataset] and
    [Mixture.get_dataset] with 0 epochs are the calls with 1. *)
Theorem get_task_lazy_dataset_zero_epochs `{E : Externals} (self : Mixture)
    (task : Task) sequence_lengths split feature_converter batch_size shuffle
    seed shard_info (st : State) :
  let call :=
    Mixture.get_task_lazy_dataset self task sequence_lengths split
      feature_converter batch_size shuffle seed shard_info in
  call (Some 0) st = call (Some 1) st
  /\ call (Some 0) st = call None st
  /\ Mixture.get_lazy_dataset self sequence_lengths split feature_converter
       batch_size shuffle seed shard_info (Some 0) st
     = Mixture.get_lazy_dataset self sequence_lengths split feature_converter
         batch_size shuffle seed shard_info (Some 1) st
  /\ Mixture.get_dataset self sequence_lengths split feature_converter
       batch_size shuffle seed shard_info (Some 0) st
     = Mixture.get_dataset self sequence_lengths split feature_converter
         batch_size shuffle seed shard_info (Some 1) st.
Proof.
  cbv zeta. repeat split; reflexivity.
Qed.

(** X10. A negative [num_epochs] is truthy and [[ds] * num_epochs] is
    empty: for a Task whose source and list are set,
    [get_task_lazy_dataset] returns [ConcatLazyMapDataset([])], having
    extended the Task's list all the same, and without drawing a seed:
    whatever [seed] is (none, or one numpy would refuse), it is not
    looked at. *)
Theorem get_task_lazy_dataset_negative_epochs `{E : Externals}
    (self : Mixture) (task : Task) sequence_lengths split feature_converter
    batch_size shuffle seed shard_info (n : Z) (st : State) src l :
  n < 0 ->
  task_source task = Some src ->
  preprocessors st !! task_id task = Some l ->
  Mixture.get_task_lazy_dataset self task sequence_lengths split
    feature_converter batch_size shuffle seed shard_info (Some n) st
  = (inr (ConcatLazyMapDataset []),
     with_chain task
       (l ++ appended sequence_lengths feature_converter batch_size) st).
Proof.
  intros Hn Hsrc Hl.
  rewrite (get_task_lazy_dataset_steps _ _ _ _ _ _ _ _ _ _ _ src l Hsrc Hl).
  now rewrite epoch_sources_negative.
Qed.

Lemma get_task_lazy_dataset_negative_epochs_witness :
  fst (@Mixture.get_task_lazy_dataset Sample.externals Sample.M Sample.A None
         "train" None None true None None (Some (-1)) Sample.state)
  = inr (ConcatLazyMapDataset []).
Proof.
  rewrite (@get_task_lazy_dataset_negative_epochs Sample.externals Sample.M
             Sample.A None "train"%string None None true None None (-1)
             Sample.state Sample.source [Sample.op1; Sample.op2]
             ltac:(lia) eq_refl eq_refl).
  reflexivity.
Defined.

(** X11. An integer seed outside [0, 2**32) is refused by numpy in the
    first [_split_seed] of the epoch loop, that is after step 3 has grown
    the Task's list: when at least one epoch is made the call raises
    [ValueError] and leaves the list extended by the converter's transforms
    and the batch operation. *)
Theorem get_task_lazy_dataset_invalid_seed `{E : Externals}
    (self : Mixture) (task : Task) sequence_lengths split feature_converter
    batch_size shuffle (seed : Z) shard_info num_epochs (st : State) src l :
  Mixture.valid_seed seed = false ->
  (forall n, num_epochs = Some n -> 0 <= n) ->
  task_source task = Some src ->
  preprocessors st !! task_id task = Some l ->
  Mixture.get_task_lazy_dataset self task sequence_lengths split
    feature_converter batch_size shuffle (Some seed) shard_info num_epochs st
  = (inl (ValueError "Seed must be between 0 and 2**32 - 1"),
     with_chain task
       (l ++ appended sequence_lengths feature_converter batch_size) st).
Proof.
  intros Hseed Hne Hsrc Hl.
  rewrite (get_task_lazy_dataset_steps _ _ _ _ _ _ _ _ _ _ _ src l Hsrc Hl).
  destruct (epoch_sources_first (ds_get_data_source src split) shard_info
              num_epochs Hne) as [ds [rest ->]].
  unfold bind, for_each, Mixture.run_epoch, Mixture._split_seed, raise. simpl.
  now rewrite Hseed.
Qed.

Lemma get_task_lazy_dataset_invalid_seed_witness :
  @Mixture.get_task_lazy_dataset Sample.externals Sample.M Sample.A None
    "train" (Some Sample.converter) None true (Some (-1)) None (Some 1)
    Sample.state
  = (inl (ValueError "Seed must be between 0 and 2**32 - 1"),
     with_chain Sample.A
       [Sample.op1; Sample.op2; Transformation "convert"] Sample.state).
Proof.
  apply (@get_task_lazy_dataset_invalid_seed Sample.externals Sample.M
           Sample.A None "train"%string (Some Sample.converter) None true
           (-1) None (Some 1) Sample.state Sample.source
           [Sample.op1; Sample.op2]).
  - reflexivity.
  - intros n H. inversion H. lia.
  - reflexivity.
  - reflexivity.
Defined.

(** X23. Without a seed, [get_task_lazy_dataset] takes entropy once: the
    first [_split_seed] of the first epoch splits an unseeded
    [RandomState], and everything else (the later epochs, the
    preprocessors, the shuffles) is derived from the two integers it drew.
    For a Task that is set up and at least one epoch, the call returns and
    the state differs from the one of a seeded call by that one draw. *)
Theorem get_task_lazy_dataset_unseeded `{E : Externals} {HR : RandintSpec E}
    (self : Mixture) (task : Task) sequence_lengths split feature_converter
    batch_size shuffle shard_info num_epochs (st : State) src l :
  seed_in_range (fst (next_entropy st)) ->
  seed_in_range (snd (next_entropy st)) ->
  (forall n, num_epochs = Some n -> 0 <= n) ->
  task_source task = Some src ->
  preprocessors st !! task_id task = Some l ->
  let chain := l ++ appended sequence_lengths feature_converter batch_size in
  exists ds rest,
    epoch_sources (ds_get_data_source src split) shard_info num_epochs
    = ds :: rest
    /\ Mixture.get_task_lazy_dataset self task sequence_lengths split
         feature_converter batch_size shuffle None shard_info num_epochs st
       = (inr (combine_epochs
                 (epoch_from_prep_seed chain shuffle ds
                    (snd (next_entropy st))
                  :: epoch_datasets chain shuffle rest
                       (fst (next_entropy st)))),
          drawn (with_chain task chain st)).
Proof.
  intros Hfst Hsnd Hne Hsrc Hl chain.
  destruct (epoch_sources_first (ds_get_data_source src split) shard_info
              num_epochs Hne) as [ds [rest Hdss]].
  exists ds, rest. split; [exact Hdss|].
  rewrite (get_task_lazy_dataset_steps _ _ _ _ _ _ _ _ _ _ _ src l Hsrc Hl).
  rewrite Hdss. fold chain.
  assert (Hchain : preprocessors (with_chain task chain st) !! task_id task
                   = Some chain) by apply lookup_insert_eq.
  cbn [for_each]. unfold bind at 1. unfold bind at 1.
  rewrite (run_epoch_unseeded task shuffle [] ds (with_chain task chain st)
             chain Hsnd Hchain).
  rewrite (epochs_spec task shuffle (drawn (with_chain task chain st)) chain
             rest Hchain (fst (next_entropy (with_chain task chain st)))
             _ (seed_in_range_valid _ Hfst)).
  reflexivity.
Qed.

Lemma get_task_lazy_dataset_unseeded_witness :
  entropy_drawn
    (snd (@Mixture.get_task_lazy_dataset Sample.externals Sample.M Sample.A
            None "train" None None true None None (Some 3) Sample.state))
  = 1%nat.
Proof.
  destruct (@get_task_lazy_dataset_unseeded Sample.externals
              Sample_randint_spec Sample.M Sample.A None "train"%string None
              None true None (Some 3) Sample.state Sample.source
              [Sample.op1; Sample.op2])
    as (ds & rest & _ & H).
  - vm_compute. split; [discriminate | reflexivity].
  - vm_compute. split; [discriminate | reflexivity].
  - intros n Hn. inversion Hn. lia.
  - reflexivity.
  - reflexivity.
  - rewrite H. reflexivity.
Defined.

(** ** Tasks that are not set up, and sharding *)

(** X12. [get_task_lazy_dataset] on a Task that is not set up raises
    before it writes: [ValueError] when the source is [None]; and, the
    source being set and the list [None], [AttributeError] from
    [preps.extend] when a converter is given, and from [preps.append] when
    there is none and [batch_size] is truthy.  The store is as it was. *)
Theorem get_task_lazy_dataset_unset_task `{E : Externals} (self : Mixture)
    (task : Task) sequence_lengths split feature_converter batch_size shuffle
    seed shard_info num_epochs (st : State) :
  let call :=
    Mixture.get_task_lazy_dataset self task sequence_lengths split
      feature_converter batch_size shuffle seed shard_info num_epochs in
  (task_source task = None ->
   call st
   = (inl (ValueError "Source has not been set on this task object."), st))
  /\ (task_source task <> None ->
      preprocessors st !! task_id task = None ->
      (feature_converter <> None ->
       call st
       = (inl (AttributeError "'NoneType' object has no attribute 'extend'"),
          st))
      /\ (feature_converter = None -> truthy_int batch_size = true ->
          call st
          = (inl (AttributeError
                    "'NoneType' object has no attribute 'append'"), st))).
Proof.
  cbv zeta. unfold Mixture.get_task_lazy_dataset,
    Task._get_data_source_for_split, Mixture.preps_extend,
    Mixture.preps_append, Mixture.preps_grow.
  split.
  - intros ->. reflexivity.
  - intros Hsrc Hl. destruct (task_source task) as [src|]; [|congruence].
    split.
    + intros Hfc. destruct feature_converter as [c|]; [|congruence].
      unfold bind, ret. rewrite Hl. reflexivity.
    + intros -> Hbs. destruct batch_size as [b|]; [|discriminate].
      simpl in Hbs. destruct (b =? 0); [discriminate|].
      unfold bind, ret. rewrite Hl. reflexivity.
Qed.

Lemma get_task_lazy_dataset_unset_task_witness :
  @Mixture.get_task_lazy_dataset Sample.externals Sample.M Fixture.unset None
    "train" (Some Sample.converter) (Some 4) true (Some 0) None (Some 1)
    Sample.state
  = (inl (ValueError "Source has not been set on this task object."),
     Sample.state).
Proof.
  exact (proj1 (@get_task_lazy_dataset_unset_task Sample.externals Sample.M
                  Fixture.unset None "train"%string (Some Sample.converter)
                  (Some 4) true (Some 0) None (Some 1) Sample.state)
           eq_refl).
Defined.

Section Shards.
Context `{E : Externals}.

Lemma run_preps_shards preps : forall ds q st r st',
  Mixture.run_preps preps ds q st = (inr r, st') ->
  shard_nodes (fst r) = shard_nodes ds.
Proof.
  unfold Mixture.run_preps.
  induction preps as [|p preps IH]; intros ds q st r st' H.
  - inversion H. reflexivity.
  - cbn [for_each] in H. apply bind_inr in H as (a & st1 & Ha & H).
    apply bind_inr in Ha as (sp & st2 & _ & Ha).
    inversion Ha; subst a st1. cbn [fst snd] in H.
    apply IH in H. rewrite H. reflexivity.
Qed.

Lemma run_epoch_shards task shuffle acc ds st r st' :
  Mixture.run_epoch task shuffle acc ds st = (inr r, st') ->
  flat_map shard_nodes (snd r)
  = flat_map shard_nodes (snd acc) ++ shard_nodes ds.
Proof.
  unfold Mixture.run_epoch. intros H.
  apply bind_inr in H as (sp1 & st1 & _ & H).
  apply bind_inr in H as (sp2 & st2 & _ & H).
  apply bind_inr in H as (preps & st3 & _ & H).
  apply bind_inr in H as (rp & st4 & Hp & H).
  apply run_preps_shards in Hp.
  inversion H; subst r st'. cbn [snd].
  rewrite flat_map_app. f_equal. simpl. rewrite app_nil_r.
  destruct shuffle; simpl; exact Hp.
Qed.

Lemma epochs_shards task shuffle dss : forall acc st r st',
  for_each dss (Mixture.run_epoch task shuffle) acc st = (inr r, st') ->
  flat_map shard_nodes (snd r)
  = flat_map shard_nodes (snd acc) ++ flat_map shard_nodes dss.
Proof.
  induction dss as [|ds dss IH]; intros acc st r st' H.
  - inversion H. simpl. now rewrite app_nil_r.
  - cbn [for_each] in H. apply bind_inr in H as (a & st1 & Ha & H).
    apply IH in H. apply run_epoch_shards in Ha.
    rewrite H, Ha, <- app_assoc. reflexivity.
Qed.

Lemma epoch_sources_shards src si ne :
  flat_map shard_nodes (epoch_sources src si ne) = task_shards si ne.
Proof.
  assert (Hrep : forall (d : LazyMapDataset) o n,
            shard_nodes d = [o] ->
            flat_map shard_nodes (repeat d n) = repeat o n).
  { intros d o n Hd. induction n as [|n IH]; simpl; [reflexivity|].
    now rewrite Hd, IH. }
  assert (Hnil : forall (d : LazyMapDataset) n,
            shard_nodes d = [] -> flat_map shard_nodes (repeat d n) = []).
  { intros d n Hd. induction n as [|n IH]; simpl; [reflexivity|].
    now rewrite Hd, IH. }
  unfold epoch_sources, task_shards, epochs_made.
  destruct si as [si|], ne as [n|]; try destruct (n =? 0); simpl;
    try reflexivity.
  - now apply Hrep.
  - now apply Hnil.
Qed.

Lemma get_task_lazy_dataset_shards self task sl split fc bs shuffle seed si
    ne st ds st' :
  Mixture.get_task_lazy_dataset self task sl split fc bs shuffle seed si ne st
  = (inr ds, st') ->
  shard_nodes ds = task_shards si ne.
Proof.
  unfold Mixture.get_task_lazy_dataset. intros H.
  apply bind_inr in H as (src & st1 & _ & H).
  fold (epoch_sources src si ne) in H.
  apply bind_inr in H as (u1 & st2 & _ & H).
  apply bind_inr in H as (u2 & st3 & _ & H).
  apply bind_inr in H as (r & st4 & Hr & H).
  apply epochs_shards in Hr. simpl in Hr.
  rewrite epoch_sources_shards in Hr. rewrite <- Hr.
  destruct (snd r) as [|d [|d' l]]; inversion H; subst; simpl;
    try reflexivity.
  now rewrite app_nil_r.
Qed.
End Shards.

(** X13. Sharding in [get_task_lazy_dataset] is done on the source, before
    the epochs are made: whatever dataset the call returns has one shard
    node per epoch, each with the index and the count of [shard_info], and
    none when [shard_info] is [None]; no preprocessor, shuffle or
    concatenation adds or drops one.  (The call returns for an integer seed
    numpy accepts and a Task that is set up.) *)
Theorem get_task_lazy_dataset_shards_each_epoch `{E : Externals}
    {HR : RandintSpec E} (self : Mixture) (task : Task) sequence_lengths
    split feature_converter batch_size shuffle seed shard_info num_epochs
    (st : State) :
  let call :=
    Mixture.get_task_lazy_dataset self task sequence_lengths split
      feature_converter batch_size shuffle seed shard_info num_epochs in
  (forall ds, fst (call st) = inr ds ->
     shard_nodes ds = task_shards shard_info num_epochs)
  /\ (forall s, seed = Some s -> Mixture.valid_seed s = true ->
      task_source task <> None ->
      preprocessors st !! task_id task <> None ->
      exists ds, fst (call st) = inr ds).
Proof.
  cbv zeta. split.
  - intros ds H.
    destruct (Mixture.get_task_lazy_dataset _ _ _ _ _ _ _ _ _ _ st)
      as [r st'] eqn:Hcall.
    simpl in H. subst r.
    now apply get_task_lazy_dataset_shards in Hcall.
  - intros s -> Hs Hsrc Hl.
    destruct (task_source task) as [src|] eqn:Hsrc'; [|congruence].
    destruct (preprocessors st !! task_id task) as [l|] eqn:Hl'; [|congruence].
    rewrite (get_task_lazy_dataset_spec _ _ _ _ _ _ _ _ _ _ _ src l Hs Hsrc'
               Hl').
    eexists. reflexivity.
Qed.

Lemma get_task_lazy_dataset_shards_each_epoch_witness :
  exists ds,
    fst (@Mixture.get_task_lazy_dataset Sample.externals Sample.M Sample.A
           None "train" None None true (Some 0) (Some Fixture.shard) (Some 2)
           Sample.state) = inr ds
    /\ shard_nodes ds = [mkShardOptions 0 4; mkShardOptions 0 4].
Proof.
  destruct (@get_task_lazy_dataset_shards_each_epoch Sample.externals
              Sample_randint_spec Sample.M Sample.A None "train"%string None
              None true (Some 0) (Some Fixture.shard) (Some 2) Sample.state)
    as [H1 H2].
  destruct (H2 0 eq_refl eq_refl ltac:(discriminate)
              ltac:(vm_compute; discriminate)) as [ds Hds].
  exists ds. split; [exact Hds | exact (H1 ds Hds)].
Defined.

(** ** The mix *)

Section Mix.
Context `{E : Externals}.

Lemma post_mix_preps_eq sl fc bs :
  match bs with
  | Some b =>
      if b =? 0 then match fc with Some c => get_transforms c sl | None => [] end
      else match fc with Some c => get_transforms c sl | None => [] end
           ++ [Batch b (Some false)]
  | None => match fc with Some c => get_transforms c sl | None => [] end
  end = post_mix_preps sl fc bs.
Proof.
  unfold post_mix_preps.
  destruct bs as [b|]; [destruct (b =? 0)|]; now rewrite ?app_nil_r.
Qed.

Lemma get_lazy_dataset_eq self sl split fc bs shuffle seed si ne :
  Mixture.get_lazy_dataset self sl split fc bs shuffle seed si ne
  = if negb (is_some ne) && shuffle then
      raise (ValueError
        "Repeating indefinitely with shuffling turned on isn't supported.")
    else
      bind (mix_loop self sl split shuffle seed si ne
              (Mixture.leaf_tasks self) ([], []))
        (fun r =>
           let ds := post_mix sl fc bs (MixedLazyMapDataset (fst r) (snd r) true) in
           ret match ne with
               | None => RepeatLazyMapDataset ds None
               | Some _ => ds
               end).
Proof.
  unfold Mixture.get_lazy_dataset, mix_loop, post_mix.
  destruct (negb (is_some ne) && shuffle); [reflexivity|].
  now rewrite <- post_mix_preps_eq.
Qed.
End Mix.

(** X14. In [Mixture.get_lazy_dataset] the feature converter and the batch
    size act on the mixed dataset only: for a number of epochs, the call is
    the call with neither, with the converter's transforms and then
    [grain.Batch(batch_size, drop_remainder=False)] (when [batch_size] is
    truthy) applied, each with [seed=None], to the dataset that call
    returns; errors and the final state are the same. *)
Theorem get_lazy_dataset_post_mix `{E : Externals} (self : Mixture)
    sequence_lengths split feature_converter batch_size shuffle seed
    shard_info (n : Z) (st : State) :
  Mixture.get_lazy_dataset self sequence_lengths split feature_converter
    batch_size shuffle seed shard_info (Some n) st
  = map_result (post_mix sequence_lengths feature_converter batch_size)
      (Mixture.get_lazy_dataset self sequence_lengths split None None shuffle
         seed shard_info (Some n) st).
Proof.
  rewrite !get_lazy_dataset_eq. cbn [is_some negb andb].
  unfold map_result, bind.
  destruct (mix_loop _ _ _ _ _ _ _ _ _ st) as [[e|r] st1]; reflexivity.
Qed.

Section MixSpec.
Context `{E : Externals} {HR : RandintSpec E}.

Lemma mix_loop_spec self sl split shuffle (seed : Z) si ne st
    (srcs : Task -> DataSource) (chains : Task -> list GrainPreprocessor)
    (props : Task -> float) (tasks : list Task) :
  Mixture.valid_seed seed = true ->
  (forall t, In t tasks ->
     task_source t = Some (srcs t)
     /\ preprocessors st !! task_id t = Some (chains t)
     /\ Mixture.get_proportion self (PTask t) = inr (props t)) ->
  forall acc,
    mix_loop self sl split shuffle (Some seed) si ne tasks acc st
    = (inr (fst acc
            ++ map (fun t => task_dataset (srcs t) (chains t) split shuffle
                               seed si ne) tasks,
            snd acc ++ map props tasks), st).
Proof.
  intros Hseed. unfold mix_loop.
  induction tasks as [|t tasks IH]; intros Hall acc.
  - simpl. rewrite !app_nil_r. now destruct acc.
  - destruct (Hall t (or_introl eq_refl)) as (Hsrc & Hl & Hp).
    cbn [for_each]. unfold bind at 1.
    erewrite bind_state; cycle 1.
    { rewrite (get_task_lazy_dataset_spec _ _ _ _ _ _ _ _ _ _ _ (srcs t)
                 (chains t) Hseed Hsrc Hl).
      unfold appended. rewrite app_nil_r.
      fold (with_chain t (chains t) st). rewrite (with_chain_same _ _ _ Hl).
      reflexivity. }
    rewrite Hp. unfold bind at 1, lift, ret.
    rewrite IH by (intros u Hu; apply Hall; now right).
    cbn [fst snd map]. now rewrite <- !app_assoc.
Qed.
End MixSpec.

Lemma get_lazy_dataset_spec `{E : Externals} {HR : RandintSpec E}
    (self : Mixture) sl split fc bs shuffle (seed : Z) si (n : Z)
    (st : State) (srcs : Task -> DataSource)
    (chains : Task -> list GrainPreprocessor) (props : Task -> float) :
  Mixture.valid_seed seed = true ->
  (forall t, In t (Mixture.leaf_tasks self) ->
     task_source t = Some (srcs t)
     /\ preprocessors st !! task_id t = Some (chains t)
     /\ Mixture.get_proportion self (PTask t) = inr (props t)) ->
  Mixture.get_lazy_dataset self sl split fc bs shuffle (Some seed) si (Some n)
    st
  = (inr (post_mix sl fc bs
            (MixedLazyMapDataset
               (map (fun t => task_dataset (srcs t) (chains t) split shuffle
                                seed si (Some n))
                    (Mixture.leaf_tasks self))
               (map props (Mixture.leaf_tasks self)) true)), st).
Proof.
  intros Hseed Hall. rewrite get_lazy_dataset_eq. cbn [is_some negb andb].
  unfold bind.
  rewrite (mix_loop_spec _ _ _ _ _ _ _ _ srcs chains props _ Hseed Hall).
  reflexivity.
Qed.

(** X15. [Mixture.get_lazy_dataset] with an integer seed numpy accepts, on
    a Mixture whose leaf Tasks are set up and have a proportion: it returns
    [MixedLazyMapDataset(datasets, proportions, stop_on_empty_dataset=True)]
    under the post-mix operations, with one dataset and one proportion per
    leaf Task in the order of [leaf_tasks] (the order of the names), each
    dataset built from the Task's own chain with the seed the call was
    given; and the store is as it was. *)
Theorem get_lazy_dataset_mixes_leaf_tasks `{E : Externals}
    {HR : RandintSpec E} (self : Mixture) sequence_lengths split
    feature_converter batch_size shuffle (seed : Z) shard_info (n : Z)
    (st : State) (srcs : Task -> DataSource)
    (chains : Task -> list GrainPreprocessor) (props : Task -> float) :
  Mixture.valid_seed seed = true ->
  (forall t, In t (Mixture.leaf_tasks self) ->
     task_source t = Some (srcs t)
     /\ preprocessors st !! task_id t = Some (chains t)
     /\ Mixture.get_proportion self (PTask t) = inr (props t)) ->
  Mixture.get_lazy_dataset self sequence_lengths split feature_converter
    batch_size shuffle (Some seed) shard_info (Some n) st
  = (inr (post_mix sequence_lengths feature_converter batch_size
            (MixedLazyMapDataset
               (map (fun t => task_dataset (srcs t) (chains t) split shuffle
                                seed shard_info (Some n))
                    (Mixture.leaf_tasks self))
               (map props (Mixture.leaf_tasks self)) true)), st).
Proof. apply get_lazy_dataset_spec. Qed.

Lemma get_lazy_dataset_mixes_leaf_tasks_witness :
  exists ds,
    @Mixture.get_lazy_dataset Sample.externals Sample.M None "train"
      (Some Sample.converter) (Some 4) true (Some 0) None (Some 1)
      Sample.state
    = (inr ds, Sample.state).
Proof.
  eexists.
  apply (@get_lazy_dataset_mixes_leaf_tasks Sample.externals
           Sample_randint_spec Sample.M None "train"%string
           (Some Sample.converter) (Some 4) true 0 None 1 Sample.state
           (fun _ => Sample.source) Fixture.chains Fixture.props).
  - reflexivity.
  - intros t Ht. vm_compute in Ht.
    destruct Ht as [<-|[<-|[<-|[]]]]; repeat split; vm_compute; reflexivity.
Defined.

Section SharedSeeds.
Context `{E : Externals} {HR : RandintSpec E}.

Lemma task_dataset_seeds src chain split shuffle seed si ne :
  transform_seeds (task_dataset src chain split shuffle seed si ne)
  = seed_tree_preps seed (epochs_made ne) (length chain)
  /\ shuffle_seeds (task_dataset src chain split shuffle seed si ne)
     = (if shuffle then map (shuffle_seed_of seed) (seq 0 (epochs_made ne))
        else []).
Proof.
  unfold task_dataset.
  pose proof (epoch_sources_unseeded (ds_get_data_source src split) si ne)
    as Hun.
  pose proof (length_epoch_sources (ds_get_data_source src split) si ne)
    as Hlen.
  split.
  - rewrite transform_seeds_combine.
    rewrite (transform_seeds_epochs _ _ seed _ Hun 0%nat), Hlen. reflexivity.
  - rewrite shuffle_seeds_combine.
    rewrite (shuffle_seeds_epochs _ _ seed _ Hun 0%nat), Hlen. reflexivity.
Qed.
End SharedSeeds.

(** X16. Every leaf Task of a Mixture is given the seed of the call, so
    the seed trees of the Tasks coincide: in the mixed dataset the shuffle
    seeds of any two Tasks are the same, preprocessor [j] of epoch [k] has
    the same seed in every Task, and two Tasks with chains of one length
    have the same seeds throughout. *)
Theorem get_lazy_dataset_shares_seeds `{E : Externals} {HR : RandintSpec E}
    (self : Mixture) sequence_lengths split shuffle (seed : Z) shard_info
    (n : Z) (st : State) (srcs : Task -> DataSource)
    (chains : Task -> list GrainPreprocessor) (props : Task -> float) :
  Mixture.valid_seed seed = true ->
  (forall t, In t (Mixture.leaf_tasks self) ->
     task_source t = Some (srcs t)
     /\ preprocessors st !! task_id t = Some (chains t)
     /\ Mixture.get_proportion self (PTask t) = inr (props t)) ->
  exists datasets proportions,
    fst (Mixture.get_lazy_dataset self sequence_lengths split None None
           shuffle (Some seed) shard_info (Some n) st)
    = inr (MixedLazyMapDataset datasets proportions true)
    /\ length datasets = length (Mixture.leaf_tasks self)
    /\ (forall i t ds,
          nth_error (Mixture.leaf_tasks self) i = Some t ->
          nth_error datasets i = Some ds ->
          transform_seeds ds
          = seed_tree_preps seed (epochs_made (Some n)) (length (chains t))
          /\ shuffle_seeds ds
             = (if shuffle
                then map (shuffle_seed_of seed) (seq 0 (epochs_made (Some n)))
                else []))
    /\ (forall i j t u di dj,
          nth_error (Mixture.leaf_tasks self) i = Some t ->
          nth_error (Mixture.leaf_tasks self) j = Some u ->
          nth_error datasets i = Some di ->
          nth_error datasets j = Some dj ->
          shuffle_seeds di = shuffle_seeds dj
          /\ (length (chains t) = length (chains u) ->
              transform_seeds di = transform_seeds dj)).
Proof.
  intros Hseed Hall.
  rewrite (get_lazy_dataset_spec self sequence_lengths split None None
             shuffle seed shard_info n st srcs chains props Hseed Hall).
  eexists. eexists. split; [reflexivity|].
  split; [apply length_map|]. split.
  - intros i t ds Ht Hds. rewrite nth_error_map, Ht in Hds.
    inversion Hds; subst ds. apply task_dataset_seeds.
  - intros i j t u di dj Ht Hu Hdi Hdj.
    rewrite nth_error_map, Ht in Hdi. rewrite nth_error_map, Hu in Hdj.
    inversion Hdi; subst di. inversion Hdj; subst dj.
    destruct (task_dataset_seeds (srcs t) (chains t) split shuffle seed
                shard_info (Some n)) as [Ht1 Ht2].
    destruct (task_dataset_seeds (srcs u) (chains u) split shuffle seed
                shard_info (Some n)) as [Hu1 Hu2].
    split; [now rewrite Ht2, Hu2|]. intros Hlen. now rewrite Ht1, Hu1, Hlen.
Qed.

Lemma get_lazy_dataset_shares_seeds_witness :
  exists datasets proportions,
    fst (@Mixture.get_lazy_dataset Sample.externals Sample.M None "train" None
           None true (Some 0) None (Some 1) Sample.state)
    = inr (MixedLazyMapDataset datasets proportions true)
    /\ length datasets = 3%nat.
Proof.
  destruct (@get_lazy_dataset_shares_seeds Sample.externals
              Sample_randint_spec Sample.M None "train"%string true 0 None 1
              Sample.state (fun _ => Sample.source) Fixture.chains
              Fixture.props eq_refl)
    as (datasets & proportions & H1 & H2 & _).
  - intros t Ht. vm_compute in Ht.
    destruct Ht as [<-|[<-|[<-|[]]]]; repeat split; vm_compute; reflexivity.
  - exists datasets, proportions. split; [exact H1|].
    rewrite H2. vm_compute. reflexivity.
Defined.

Section MixShards.
Context `{E : Externals}.

Lemma post_mix_shards sl fc bs ds :
  shard_nodes (post_mix sl fc bs ds) = shard_nodes ds.
Proof.
  unfold post_mix. generalize (post_mix_preps sl fc bs). intros preps.
  revert ds. induction preps as [|p preps IH]; intros ds; simpl;
    [reflexivity|].
  now rewrite IH.
Qed.

Lemma mix_loop_shards self sl split shuffle seed si ne tasks :
  forall acc st r st',
    mix_loop self sl split shuffle seed si ne tasks acc st = (inr r, st') ->
    flat_map shard_nodes (fst r)
    = flat_map shard_nodes (fst acc)
      ++ flat_map (fun _ => task_shards si ne) tasks.
Proof.
  unfold mix_loop.
  induction tasks as [|t tasks IH]; intros acc st r st' H.
  - inversion H. simpl. now rewrite app_nil_r.
  - cbn [for_each] in H. apply bind_inr in H as (a & st1 & Ha & H).
    apply IH in H. rewrite H.
    apply bind_inr in Ha as (ds & st2 & Hds & Ha).
    apply bind_inr in Ha as (p & st3 & _ & Ha).
    inversion Ha; subst a. cbn [fst].
    apply get_task_lazy_dataset_shards in Hds.
    rewrite flat_map_app. simpl. rewrite app_nil_r, Hds.
    now rewrite <- app_assoc.
Qed.

Lemma get_lazy_dataset_shards self sl split fc bs shuffle seed si ne st ds
    st' :
  Mixture.get_lazy_dataset self sl split fc bs shuffle seed si ne st
  = (inr ds, st') ->
  shard_nodes ds
  = flat_map (fun _ => task_shards si ne) (Mixture.leaf_tasks self).
Proof.
  rewrite get_lazy_dataset_eq.
  destruct (negb (is_some ne) && shuffle); [discriminate|].
  intros H. apply bind_inr in H as (r & st1 & Hr & H).
  apply mix_loop_shards in Hr. simpl in Hr. rewrite <- Hr.
  inversion H; subst ds.
  destruct ne; simpl; now rewrite post_mix_shards.
Qed.
End MixShards.

(** X17. [Mixture.get_dataset] shards in the lazy graph and not in the
    sampler: the loader it returns reads a lazy dataset in which every leaf
    Task has its shard nodes (one per epoch, none without [shard_info]),
    through a sampler with [NoSharding], no shuffling, one epoch, the length
    of that dataset as its number of records and the seed of the call, and
    with no operations of its own. *)
Theorem Mixture_get_dataset_shards_in_graph `{E : Externals} (self : Mixture)
    sequence_lengths split feature_converter batch_size shuffle seed
    shard_info num_epochs (st : State) (it : DatasetIterator) :
  fst (Mixture.get_dataset self sequence_lengths split feature_converter
         batch_size shuffle seed shard_info num_epochs st) = inr it ->
  exists ds,
    data_source it = FromLazyDataset ds
    /\ shard_nodes ds
       = flat_map (fun _ => task_shards shard_info num_epochs)
           (Mixture.leaf_tasks self)
    /\ sampler it = mkIndexSampler (LenOf ds) NoSharding false (Some 1) seed
    /\ operations it = [].
Proof.
  unfold Mixture.get_dataset. intros H.
  destruct (bind _ _ st) as [res st'] eqn:Hcall. simpl in H. subst res.
  apply bind_inr in Hcall as (ds & st1 & Hds & Hit).
  apply bind_inr in Hit as (sampler0 & st2 & Hsampler & Hit).
  inversion Hsampler as [[Hinit Hst]]. apply init_inr in Hinit.
  inversion Hit; subst it sampler0. exists ds.
  apply get_lazy_dataset_shards in Hds. auto.
Qed.

Lemma Mixture_get_dataset_shards_in_graph_witness :
  exists it ds,
    fst (@Mixture.get_dataset Sample.externals Sample.M None "train" None None
           true (Some 0) (Some Fixture.shard) (Some 2) Sample.state) = inr it
    /\ data_source it = FromLazyDataset ds
    /\ length (shard_nodes ds) = 6%nat.
Proof.
  assert (exists it,
            fst (@Mixture.get_dataset Sample.externals Sample.M None "train"
                   None None true (Some 0) (Some Fixture.shard) (Some 2)
                   Sample.state) = inr it) as [it Hit]
    by (vm_compute; eexists; reflexivity).
  destruct (@Mixture_get_dataset_shards_in_graph Sample.externals Sample.M
              None "train"%string None None true (Some 0)
              (Some Fixture.shard) (Some 2) Sample.state it Hit)
    as (ds & H1 & H2 & _).
  exists it, ds. split; [exact Hit|]. split; [exact H1|].
  rewrite H2. vm_compute. reflexivity.
Defined.

(** X18. The module's [get_dataset] has no [shard_info] to pass on: the
    loader it returns, for a Task or for a Mixture, has a sampler with
    [NoSharding], and the lazy graph of a Mixture has no shard node. *)
Theorem get_dataset_never_shards `{E : Externals}
    (mixture_or_task : Component) sequence_lengths split feature_converter
    batch_size shuffle num_epochs seed (st : State) (it : DatasetIterator) :
  fst (get_dataset mixture_or_task sequence_lengths split feature_converter
         batch_size shuffle num_epochs seed st) = inr it ->
  sampler_shard_options (sampler it) = NoSharding
  /\ forall ds, data_source it = FromLazyDataset ds -> shard_nodes ds = [].
Proof.
  unfold get_dataset. destruct mixture_or_task as [t|m]; intros H.
  - unfold Task.get_dataset in H.
    destruct (bind _ _ st) as [res st'] eqn:Hcall. simpl in H. subst res.
    apply bind_inr in Hcall as (n & st1 & _ & Hcall).
    apply bind_inr in Hcall as (sampler0 & st2 & Hsampler & Hcall).
    inversion Hsampler as [[Hinit Hst]]. apply init_inr in Hinit.
    apply bind_inr in Hcall as (src & st3 & _ & Hcall).
    apply bind_inr in Hcall as (ops & st4 & _ & Hcall).
    inversion Hcall; subst it sampler0. split; [reflexivity|].
    intros ds Hds. discriminate.
  - unfold Mixture.get_dataset in H.
    destruct (bind _ _ st) as [res st'] eqn:Hcall. simpl in H. subst res.
    apply bind_inr in Hcall as (ds & st1 & Hds & Hit).
    apply bind_inr in Hit as (sampler0 & st2 & Hsampler & Hit).
    inversion Hsampler as [[Hinit Hst]]. apply init_inr in Hinit.
    inversion Hit; subst it sampler0. split; [reflexivity|].
    intros ds' Heq. inversion Heq; subst ds'.
    apply get_lazy_dataset_shards in Hds. rewrite Hds.
    unfold task_shards. induction (Mixture.leaf_tasks m); simpl; auto.
Qed.

Lemma get_dataset_never_shards_witness :
  exists it,
    fst (@get_dataset Sample.externals (PMixture Sample.M) None "train" None
           None true (Some 2) (Some 0) Sample.state) = inr it
    /\ sampler_shard_options (sampler it) = NoSharding.
Proof.
  assert (exists it,
            fst (@get_dataset Sample.externals (PMixture Sample.M) None
                   "train" None None true (Some 2) (Some 0) Sample.state)
            = inr it) as [it Hit]
    by (vm_compute; eexists; reflexivity).
  exists it. split; [exact Hit|].
  exact (proj1 (@get_dataset_never_shards Sample.externals
                  (PMixture Sample.M) None "train"%string None None true
                  (Some 2) (Some 0) Sample.state it Hit)).
Defined.

(** ** [Task.get_dataset] and the step-by-step trace *)

(** X19. What [Task.get_dataset] and [Task.get_dataset_by_step] raise on a
    Task that is not set up, and in what order; neither writes to the
    store.  [get_dataset] asks the source for its count before anything
    else, so with the source [None] it raises "Source has not been set",
    whatever the other arguments.  [get_dataset_by_step] builds its sampler
    first: when shuffling has no seed, or the seed is not a non-negative
    32-bit integer, it raises the sampler's [ValueError] (and not the one
    of the missing source), whatever the Task; when the sampler is
    accepted, it raises "Source has not been set" for a source that is
    [None], and "Preprocessors have not been set" for a list that is
    [None] under a source that is set.  [get_dataset] raises the latter
    too, when the source reports a positive count and the sampler is
    accepted. *)
Theorem Task_unset_errors `{E : Externals} (self : Task) (num_records : Z)
    sequence_lengths split feature_converter batch_size shuffle seed
    shard_info num_epochs (st : State) :
  let get :=
    Task.get_dataset self sequence_lengths split feature_converter batch_size
      shuffle seed shard_info num_epochs in
  let by_step :=
    Task.get_dataset_by_step self num_records sequence_lengths split
      feature_converter batch_size shuffle seed in
  let source_unset := "Source has not been set on this task object."%string in
  let preps_unset := "Preprocessors have not been set on this task."%string in
  let accepted :=
    (shuffle = true -> seed <> None)
    /\ (forall s, seed = Some s -> 0 <= s < 2 ^ 32) in
  (task_source self = None -> get st = (inl (ValueError source_unset), st))
  /\ ((shuffle = true /\ seed = None)
      \/ (exists s, seed = Some s /\ ~ 0 <= s < 2 ^ 32) ->
      exists msg,
        by_step st = (inl (ValueError msg), st)
        /\ msg <> source_unset /\ msg <> preps_unset)
  /\ (accepted -> task_source self = None ->
      by_step st = (inl (ValueError source_unset), st))
  /\ (accepted -> task_source self <> None ->
      preprocessors st !! task_id self = None ->
      by_step st = (inl (ValueError preps_unset), st))
  /\ (forall src n,
        accepted -> task_source self = Some src ->
        ds_num_input_examples src split = Some n -> 0 < n ->
        (forall e, num_epochs = Some e -> 0 < e) ->
        preprocessors st !! task_id self = None ->
        get st = (inl (ValueError preps_unset), st)).
Proof.
  cbv zeta.
  pose proof (inspected_records_range num_records) as Hrange.
  unfold MAX_NUM_RECORDS_TO_INSPECT in Hrange.
  unfold Task.get_dataset, Task.get_dataset_by_step, Task.num_input_examples,
    Task._get_data_source_for_split, Task.get_preprocessors, bind, ret, raise,
    lift.
  rewrite validate_num_records_clamps.
  split; [|split; [|split; [|split]]].
  - intros ->. reflexivity.
  - intros Hbad.
    destruct (init_refuses (inspected_records num_records) NoSharding shuffle
                1 seed ltac:(lia) ltac:(lia) Hbad) as (msg & -> & H1 & H2).
    exists msg. auto.
  - intros [Hsh Hs] ->.
    rewrite init_accepts;
      [reflexivity | lia | intros e He; inversion He; lia | exact Hsh
      | exact Hs].
  - intros [Hsh Hs] Hsrc Hl.
    rewrite init_accepts;
      [| lia | intros e He; inversion He; lia | exact Hsh | exact Hs].
    destruct (task_source self); [|congruence]. now rewrite Hl.
  - intros src n [Hsh Hs] -> -> Hn He Hl.
    rewrite (init_accepts n _ shuffle num_epochs seed Hn He Hsh Hs).
    now rewrite Hl.
Qed.

Lemma Task_unset_errors_witness :
  (exists msg,
     @Task.get_dataset_by_step Sample.externals Fixture.unset 5 None "train"
       None None true None Sample.state
     = (inl (ValueError msg), Sample.state)
     /\ msg <> "Source has not been set on this task object."%string)
  /\ @Task.get_dataset_by_step Sample.externals Fixture.unset 5 None "train"
       None None true (Some 0) Sample.state
     = (inl (ValueError "Source has not been set on this task object."),
        Sample.state).
Proof.
  split.
  - destruct (proj1 (proj2 (@Task_unset_errors Sample.externals Fixture.unset
                              5 None "train"%string None None true None None
                              (Some 1) Sample.state))
                (or_introl (conj eq_refl eq_refl)))
      as (msg & H1 & H2 & _).
    exists msg. split; assumption.
  - apply (proj1 (proj2 (proj2 (@Task_unset_errors Sample.externals
                                  Fixture.unset 5 None "train"%string None
                                  None true (Some 0) None (Some 1)
                                  Sample.state)))).
    + split; [discriminate | intros s H; inversion H; lia].
    + reflexivity.
Defined.

(** X20. The last entry of [get_dataset_by_step] is the sample of the
    pipeline [get_dataset] builds.  For a Task that is set up, a source
    with a positive count and a configuration [grain.IndexSampler] accepts,
    both calls return and leave the store as it was; the iterator of
    [get_dataset] reads the source through the chain (own preprocessors,
    converter transforms, batch operation), and the last entry of the trace
    is what [list] reads out of a loader over that source and those
    operations, the sampler being the inspection's (the number of records
    in range, no sharding, one epoch). *)
Theorem get_dataset_by_step_ends_at_get_dataset `{E : Externals}
    (self : Task) (num_records : Z) sequence_lengths split feature_converter
    batch_size shuffle seed shard_info num_epochs (st : State) src preps n :
  task_source self = Some src ->
  preprocessors st !! task_id self = Some preps ->
  ds_num_input_examples src split = Some n -> 0 < n ->
  (forall e, num_epochs = Some e -> 0 < e) ->
  (shuffle = true -> seed <> None) ->
  (forall s, seed = Some s -> 0 <= s < 2 ^ 32) ->
  let chain :=
    preps
    ++ match feature_converter with
       | Some c => get_transforms c sequence_lengths
       | None => []
       end
    ++ match batch_size with
       | Some b => if b =? 0 then [] else [BatchOperation b false]
       | None => []
       end in
  exists steps it,
    Task.get_dataset_by_step self num_records sequence_lengths split
      feature_converter batch_size shuffle seed st = (inr steps, st)
    /\ Task.get_dataset self sequence_lengths split feature_converter
         batch_size shuffle seed shard_info num_epochs st = (inr it, st)
    /\ data_source it = FromDataSource (ds_get_data_source src split)
    /\ operations it = chain
    /\ List.last steps []
       = materialize
           (PyGrainDatasetIteratorWrapper (data_source it)
              (mkIndexSampler
                 (NumRecordsOf (Some (inspected_records num_records)))
                 NoSharding shuffle (Some 1) seed)
              (operations it)).
Proof.
  intros Hsrc Hl Hn Hpos He Hsh Hs chain.
  change chain
    with (combined_chain preps sequence_lengths feature_converter batch_size).
  eexists. eexists. split; [|split; [|split; [|split]]].
  - apply get_dataset_by_step_trace; eassumption.
  - unfold Task.get_dataset, Task.num_input_examples,
      Task._get_data_source_for_split, Task.get_preprocessors, bind, ret, lift.
    rewrite Hsrc, Hn, Hl.
    rewrite (init_accepts n _ shuffle num_epochs seed Hpos He Hsh Hs).
    reflexivity.
  - reflexivity.
  - apply with_converter_and_batch_chain.
  - cbn [data_source operations Task._load_data].
    rewrite with_converter_and_batch_chain.
    unfold expected_steps. rewrite seq_S, map_app. cbn [map].
    rewrite last_last. cbn [Nat.add]. rewrite firstn_all. reflexivity.
Qed.

Lemma get_dataset_by_step_ends_at_get_dataset_witness :
  exists steps it,
    @Task.get_dataset_by_step Sample.externals Sample.A 5 None "train"
      (Some Sample.converter) (Some 4) true (Some 0) Sample.state
    = (inr steps, Sample.state)
    /\ @Task.get_dataset Sample.externals Sample.A None "train"
         (Some Sample.converter) (Some 4) true (Some 0) None (Some 1)
         Sample.state
       = (inr it, Sample.state).
Proof.
  destruct (@get_dataset_by_step_ends_at_get_dataset Sample.externals
              Sample.A 5 None "train"%string (Some Sample.converter) (Some 4)
              true (Some 0) None (Some 1) Sample.state Sample.source
              [Sample.op1; Sample.op2] 3 eq_refl eq_refl eq_refl
              ltac:(lia) ltac:(intros e H; inversion H; lia)
              ltac:(discriminate) ltac:(intros s H; inversion H; lia))
    as (steps & it & H1 & H2 & _).
  exists steps, it. split; assumption.
Defined.

(** ** The caches of the Mixtures below *)

Section CacheFills.
Context `{E : Externals}.

Lemma read_sub_mixtures_fill root (comps : list (Z * Component)) :
  (forall h sub, In (h, PMixture sub) comps ->
     LeafTasksCache.read_correct root sub /\ read_fills root sub) ->
  forall subs cache,
    LeafTasksCache.consistent root cache ->
    cached_downwards root cache ->
    let r :=
      fold_left
        (fun acc kv =>
           match snd kv with
           | PMixture mix =>
               let r := LeafTasksCache.read mix (snd acc) in
               (fst acc ++ [fst r], snd r)
           | PTask _ => acc
           end) comps (subs, cache) in
    cached_downwards root (snd r)
    /\ (forall k l, cache !! k = Some l -> snd r !! k = Some l)
    /\ forall h sub, In (h, PMixture sub) comps ->
         is_Some (snd r !! mixture_id sub).
Proof.
  induction comps as [|[h c] comps IH]; intros Hall subs cache Hok Hdown;
    simpl.
  - split; [exact Hdown|]. split; [auto|]. intros h sub [].
  - destruct c as [t|mix]; simpl.
    + destruct (IH (fun h' sub Hin => Hall h' sub (or_intror Hin)) subs cache
                  Hok Hdown) as (H1 & H2 & H3).
      split; [exact H1|]. split; [exact H2|].
      intros h' sub [Heq|Hin]; [discriminate | now apply (H3 h')].
    + destruct (Hall h mix (or_introl eq_refl)) as [Hcorrect Hfill].
      destruct (Hcorrect cache Hok) as (_ & Hok' & Hlook & Hmono).
      specialize (Hfill cache Hok Hdown).
      destruct (IH (fun h' sub Hin => Hall h' sub (or_intror Hin))
                  (subs ++ [fst (LeafTasksCache.read mix cache)])
                  (snd (LeafTasksCache.read mix cache)) Hok' Hfill)
        as (H1 & H2 & H3).
      cbv zeta in H1, H2, H3 |- *.
      split; [exact H1|]. split; [intros k l Hk; apply H2, Hmono, Hk|].
      intros h' sub [Heq|Hin].
      * inversion Heq; subst h' sub. eexists. apply H2. exact Hlook.
      * now apply (H3 h').
Qed.

Lemma read_fills_spec root :
  ids_identify root ->
  forall m, sub_mixture root m -> read_fills root m.
Proof.
  intros Hids m. induction m as [m IH] using Mixture_nested_ind.
  intros Hsub cache Hok Hdown. rewrite read_eq.
  destruct (cache !! mixture_id m) as [val|] eqn:Hlook; [exact Hdown|].
  cbv zeta.
  destruct (read_sub_mixtures_fill root (_tasks_or_mixtures m)
              (fun h sub Hin =>
                 conj (read_spec root Hids sub
                         (sub_mixture_below _ _ _ _ Hsub Hin))
                      (IH h sub Hin (sub_mixture_below _ _ _ _ Hsub Hin)))
              [] cache Hok Hdown) as (H1 & H2 & H3).
  cbv zeta in H1, H2, H3. simpl snd.
  intros m' h sub Hm' Hcached Hin.
  destruct (decide (mixture_id m = mixture_id sub)) as [Heq|Hne].
  { rewrite Heq, lookup_insert_eq. eauto. }
  rewrite lookup_insert_ne by exact Hne.
  destruct (decide (mixture_id m = mixture_id m')) as [Heq'|Hne'].
  - rewrite <- (Hids m m' Hsub Hm' Heq') in Hin. now apply (H3 h).
  - rewrite lookup_insert_ne in Hcached by exact Hne'.
    now apply (H1 m' h).
Qed.

Lemma cached_downwards_all root cache :
  cached_downwards root cache ->
  forall a, sub_mixture root a -> is_Some (cache !! mixture_id a) ->
  forall m, sub_mixture a m -> is_Some (cache !! mixture_id m).
Proof.
  intros Hdown a Ha Hcached m Hm. revert Ha Hcached.
  induction Hm as [a | a h s m Hin Hs IH]; intros Ha Hcached; [exact Hcached|].
  apply IH.
  - now apply sub_mixture_below with a h.
  - now apply (Hdown a h).
Qed.
End CacheFills.

(** X21. One read of [leaf_tasks] on a new Mixture caches the property on
    every Mixture below it: after the read, each of them has its own
    [leaf_tasks] stored, and a read of any of them returns that value and
    leaves the caches as they are.  (Mixtures being identified by their
    ids.) *)
Theorem leaf_tasks_read_caches_sub_mixtures `{E : Externals}
    (root : Mixture) :
  ids_identify root ->
  let after := snd (LeafTasksCache.read root ∅) in
  forall m, sub_mixture root m ->
    after !! mixture_id m = Some (Mixture.leaf_tasks m)
    /\ LeafTasksCache.read m after = (Mixture.leaf_tasks m, after).
Proof.
  intros Hids after m Hm.
  assert (Hok0 : LeafTasksCache.consistent root ∅).
  { intros m' l _ Hl. now rewrite lookup_empty in Hl. }
  assert (Hdown0 : cached_downwards root ∅).
  { intros m' h sub _ [l Hl]. now rewrite lookup_empty in Hl. }
  destruct (read_spec root Hids root (sub_mixture_refl root) ∅ Hok0)
    as (_ & Hok & Hroot & _).
  pose proof (read_fills_spec root Hids root (sub_mixture_refl root) ∅ Hok0
                Hdown0) as Hdown.
  fold after in Hok, Hroot, Hdown.
  destruct (cached_downwards_all root after Hdown root (sub_mixture_refl root)
              (ex_intro _ _ Hroot) m Hm) as [l Hl].
  assert (Hl' : after !! mixture_id m = Some (Mixture.leaf_tasks m))
    by (rewrite Hl; f_equal; now apply (Hok m l Hm)).
  split; [exact Hl'|]. rewrite read_eq, Hl'. reflexivity.
Qed.

Lemma leaf_tasks_read_caches_sub_mixtures_witness :
  snd (@LeafTasksCache.read Sample.externals Sample.M ∅) !! 10
  = Some (@Mixture.leaf_tasks Sample.externals Sample.N).
Proof.
  exact (proj1 (@leaf_tasks_read_caches_sub_mixtures Sample.externals Sample.M
                  Sample_ids_identify Sample.N
                  ltac:(apply sub_mixture_step with 10 Sample.N;
                        [right; now left | constructor]))).
Defined.
